(** * onelogin terraform-import: state-to-HCL compiler

  A shallow embedding of the Go packages [tfimport], [stateparser] and
  [cmd] (the [terraform-import] command) together with the properties
  of the reconciliation pipeline: the existing-definition scanner, the
  identity disambiguation of the import loop, the recursive HCL
  serializer and the handling of the [main.tf] file handle. *)

From Stdlib Require Import ZArith String Ascii List DecimalString Decimal DecimalZ Lia.
From stdpp Require Import gmap strings list fin_maps sorting.

Open Scope string_scope.
Open Scope nat_scope.
Open Scope list_scope.

(** Let [simpl] compute string concatenation on constructors. *)
#[global] Arguments String.append !s1 s2 : simpl nomatch.

(* ===================================================================== *)
(** * Go runtime: integers and strings                                    *)
(* ===================================================================== *)

Module Go.

(** [int64] arithmetic wraps around modulo 2^64 (two's complement). *)
Definition wrap64 (z : Z) : Z :=
  ((z + 2 ^ 63) mod 2 ^ 64 - 2 ^ 63)%Z.

(** The largest [int]; also the largest length a slice can have. *)
Definition MaxInt : Z := (2 ^ 63 - 1)%Z.

(** [strconv.FormatInt(n, 10)]: sign and decimal digits, ["0"] for zero. *)
Definition FormatInt (n : Z) : string :=
  NilEmpty.string_of_int (Z.to_int n).

(** [strings.Index(s, sep)] restricted to a one-byte separator: the
    position of its first occurrence, [-1] when it does not occur. *)
Fixpoint IndexByte (s : string) (c : ascii) : Z :=
  match s with
  | EmptyString => (-1)%Z
  | String a s' =>
      if Ascii.eqb a c then 0%Z
      else match IndexByte s' c with
           | Zneg _ => (-1)%Z
           | i => (i + 1)%Z
           end
  end.

(** The slice expression [s[n:]] on a string. *)
Fixpoint drop (n : nat) (s : string) : string :=
  match n, s with
  | O, _ => s
  | S n', String _ s' => drop n' s'
  | S _, EmptyString => EmptyString
  end.

(** [strings.Replace(s, old, new, 1)]: the first occurrence of [old] in
    [s], if there is one, is replaced by [new]. *)
Fixpoint ReplaceFirst (s old new : string) : string :=
  if String.prefix old s then new +:+ drop (String.length old) s
  else match s with
       | EmptyString => EmptyString
       | String a s' => String a (ReplaceFirst s' old new)
       end.

(** ** Package regexp, as far as the two scanner patterns use it *)

(** Pattern syntax: literals, one byte of a class, the greedy [c*] and
    [c?] of a class, sequencing and numbered capturing groups. *)
Inductive regex : Type :=
| Lit (s : string)
| Class (p : ascii → bool)
| Star (p : ascii → bool)
| Opt (p : ascii → bool)
| Seq (r1 r2 : regex)
| Group (i : nat) (r : regex).

(** The classes [\w], [\s], [[a-zA-Z\_]], [[a-zA-Z\_\-]] and [[0-9]].
    They contain ASCII bytes only, so matching bytes instead of runes
    gives the same result. *)
Definition is_digit (a : ascii) : bool :=
  let n := N_of_ascii a in ((48 <=? n) && (n <=? 57))%N.

Definition is_alpha (a : ascii) : bool :=
  let n := N_of_ascii a in
  (((65 <=? n) && (n <=? 90)) || ((97 <=? n) && (n <=? 122)))%N.

Definition is_word (a : ascii) : bool :=
  is_digit a || is_alpha a || Ascii.eqb a "_".

Definition is_space (a : ascii) : bool :=
  let n := N_of_ascii a in
  ((n =? 9) || (n =? 10) || (n =? 12) || (n =? 13) || (n =? 32))%N.

Definition is_alpha_ (a : ascii) : bool := is_alpha a || Ascii.eqb a "_".

Definition is_alpha_dash (a : ascii) : bool :=
  is_alpha a || Ascii.eqb a "_" || Ascii.eqb a "-".

(** [strip l s]: the rest of [s] after the prefix [l], if it has it. *)
Fixpoint strip (l s : string) : option string :=
  match l, s with
  | EmptyString, _ => Some s
  | String a l', String b s' => if Ascii.eqb a b then strip l' s' else None
  | String _ _, EmptyString => None
  end.

(** The first [n] bytes of [s]. *)
Fixpoint take (n : nat) (s : string) : string :=
  match n, s with
  | S n', String a s' => String a (take n' s')
  | _, _ => EmptyString
  end.

(** The text consumed between the input [s] and its suffix [s']. *)
Definition consumed (s s' : string) : string :=
  take (String.length s - String.length s') s.

(** Greedy repetition with backtracking: the longest run first. *)
Fixpoint star {A} (p : ascii → bool) (s : string) (k : string → option A) : option A :=
  match s with
  | String a s' =>
      if p a then
        match star p s' k with
        | Some r => Some r
        | None => k s
        end
      else k s
  | EmptyString => k s
  end.

(** Backtracking matcher in continuation-passing style. The alternatives
    are tried in the priority order of a leftmost-first engine, which is
    the match [regexp] reports. [caps] holds the text of each group. *)
Fixpoint run {A} (r : regex) (s : string) (caps : list string)
    (k : string → list string → option A) : option A :=
  match r with
  | Lit l =>
      match strip l s with
      | Some s' => k s' caps
      | None => None
      end
  | Class p =>
      match s with
      | String a s' => if p a then k s' caps else None
      | EmptyString => None
      end
  | Star p => star p s (λ s', k s' caps)
  | Opt p =>
      match s with
      | String a s' =>
          if p a then
            match k s' caps with
            | Some r => Some r
            | None => k s caps
            end
          else k s caps
      | EmptyString => k s caps
      end
  | Seq r1 r2 => run r1 s caps (λ s' caps', run r2 s' caps' k)
  | Group i r' =>
      run r' s caps (λ s' caps', k s' (<[i := consumed s s']> caps'))
  end.

(** [NumSubexp]: the number of capturing groups. *)
Fixpoint NumSubexp (r : regex) : nat :=
  match r with
  | Seq r1 r2 => NumSubexp r1 + NumSubexp r2
  | Group _ r' => S (NumSubexp r')
  | _ => 0
  end.

(** A match attempt anchored at the start of [s]. *)
Definition match_here (r : regex) (s : string) : option (list string) :=
  run r s (replicate (S (NumSubexp r)) "")
    (λ s' caps, Some (<[0 := consumed s s']> caps)).

(** [FindStringSubmatch]: the leftmost match, as the slice of the whole
    match followed by the groups; the empty slice ([nil]) without one. *)
Fixpoint FindStringSubmatch (r : regex) (s : string) : list string :=
  match match_here r s with
  | Some caps => caps
  | None =>
      match s with
      | String _ s' => FindStringSubmatch r s'
      | EmptyString => []
      end
  end.

(** ** Package bufio: a Scanner with the default line splitter *)

Definition MaxScanTokenSize : N := 65536%N.

(** [dropCR]: a line loses one trailing carriage return. *)
Fixpoint dropCR (line : string) : string :=
  match line with
  | String "013" EmptyString => EmptyString
  | String a s' => String a (dropCR s')
  | EmptyString => EmptyString
  end.

(** A line and its terminator have to fit in the buffer, which grows up
    to [MaxScanTokenSize]; a longer line ends the scan with an error. *)
Definition fits (line : string) : bool :=
  (N.of_nat (String.length line) <? MaxScanTokenSize)%N.

(** The tokens [Scan]/[Text] deliver for the rest [data] of the input,
    [line] being the part of the current line read so far. *)
Fixpoint ScanLines (data line : string) : list string :=
  match data with
  | EmptyString =>
      match line with
      | EmptyString => []
      | String _ _ => if fits line then [dropCR line] else []
      end
  | String c rest =>
      if Ascii.eqb c "010" then
        if fits line then dropCR line :: ScanLines rest EmptyString else []
      else ScanLines rest (line +:+ String c EmptyString)
  end.

End Go.

(* ===================================================================== *)
(** * Package tfimportables: resource definitions                         *)
(* ===================================================================== *)

Module tfimportables.

(** [type ResourceDefinition struct { Provider, Name, ImportID, Type string }] *)
Record ResourceDefinition : Type := mkResourceDefinition {
  Type_ : string;
  Name : string;
  Provider : string;
  ImportID : string
}.

End tfimportables.
Export tfimportables.

(* ===================================================================== *)
(** * Values after the JSON round trip                                    *)
(* ===================================================================== *)

(** [convertToHCLLine] marshals its input to JSON and unmarshals it into
    a [map[string]interface{}]; every value it then inspects is one of
    [nil], [bool], [float64], [string], [[]interface{}] and
    [map[string]interface{}]. A map lists its entries in the order in
    which the [range] statement visits them; in a value decoded from
    JSON the keys of a map are pairwise distinct. [F] is [float64]. *)
#[warnings="-register-all"]
Inductive value (F : Type) : Type :=
| VNil
| VBool (b : bool)
| VNum (x : F)
| VStr (s : string)
| VList (sl : list (value F))
| VMap (m : list (string * value F)).

Arguments VNil {F}.
Arguments VBool {F} b.
Arguments VNum {F} x.
Arguments VStr {F} s.
Arguments VList {F} sl.
Arguments VMap {F} m.

(** [reflect.Kind] of the dynamic types above. *)
Inductive Kind : Type := Bool | Float64 | String_ | Slice | Map.

(** [reflect.TypeOf(v)]: the nil interface has no type, and calling
    [Kind()] on the nil [reflect.Type] is a nil dereference. *)
Definition TypeOf {F} (v : value F) : option Kind :=
  match v with
  | VNil => None
  | VBool _ => Some Bool
  | VNum _ => Some Float64
  | VStr _ => Some String_
  | VList _ => Some Slice
  | VMap _ => Some Map
  end.

(** What the code calls but does not define: the [fmt] verbs, the
    [strings] and [utils] helpers, and the per-type shaping of instance
    data ([sculpt] in [tfimport], the [HCLShape] decode in
    [stateparser]). *)
Class Env : Type := {
  float64 : Type;
  ToSnakeCase : string → string;          (* utils.ToSnakeCase *)
  ToLower : string → string;              (* strings.ToLower *)
  Sprintf_q : value float64 → string;     (* fmt.Sprintf("%q", v) *)
  Sprintf_v : value float64 → string;     (* fmt.Sprintf("%v", v) *)
  Sprintf_0f : value float64 → string;    (* fmt.Sprintf("%0.f", v) *)
  sculpt : string → value float64 → value float64;
  HCLShape : string → value float64 → value float64
}.

(** A run either completes with a result or dies in a runtime panic. *)
Inductive result (A : Type) : Type :=
| Ok (a : A)
| Panic.

Arguments Ok {A} a.
Arguments Panic {A}.

#[global] Instance result_ret : MRet result := λ A a, Ok a.
#[global] Instance result_bind : MBind result := λ A B f m,
  match m with
  | Ok a => f a
  | Panic => Panic
  end.

(** The line feed and tab bytes of the format strings. *)
Definition LF : string := String "010" EmptyString.
Definition TAB : string := String "009" EmptyString.
Definition QUOTE : string := String "034" EmptyString.

(** [strings.Builder]: the text written so far. *)
Definition Builder : Type := string.

Definition WriteString (b : Builder) (s : string) : Builder := b +:+ s.

(** [indent(level)]: [level] tab bytes. *)
Fixpoint indent (level : nat) : string :=
  match level with
  | O => ""
  | S l => String "009" (indent l)
  end.

(** A [for ... range] loop whose body may panic. *)
Fixpoint forEach {A S : Type} (body : S → A → result S) (l : list A) (s : S)
    : result S :=
  match l with
  | [] => Ok s
  | x :: l' => s' ← body s x; forEach body l' s'
  end.

(** [fmt.Sprintf] with [%s] verbs only: the pieces in order. *)
Definition cat (pieces : list string) : string := String.concat "" pieces.

(** The element loop of an array literal: each element, followed by the
    separator unless it is the last ([j < len(sl)-1]). *)
Fixpoint writeElems {F} (fmt : value F → string) (sep : string)
    (sl : list (value F)) (b : Builder) : Builder :=
  match sl with
  | [] => b
  | x :: rest =>
      let b := WriteString b (fmt x) in
      let b := match rest with [] => b | _ :: _ => WriteString b sep end in
      writeElems fmt sep rest b
  end.

(* ===================================================================== *)
(** * Package stateparser                                                 *)
(* ===================================================================== *)

Module stateparser.
Section WithEnv.
Context `{Env}.

Record ResourceInstance : Type := mkResourceInstance {
  Data : value float64
}.

Record StateResource : Type := mkStateResource {
  Content : string;
  Name : string;
  Type_ : string;
  Provider : string;
  Instances : list ResourceInstance
}.

Record State : Type := mkState {
  Resources : list StateResource
}.

(** [convertToHCLLine] (import.go, lines 319-375). The body of the
    loop is guarded by [v != nil]. *)
Fixpoint convertToHCLLine (input : value float64) (indentLevel : nat)
    (builder : Builder) {struct input} : result Builder :=
  match input with
  | VMap m =>
      (fix range (m : list (string * value float64)) (builder : Builder)
           : result Builder :=
         match m with
         | [] => Ok builder
         | (k, v) :: m' =>
             builder ←
               match v with
               | VNil => Ok builder
               | VStr _ =>
                   Ok (WriteString builder
                         (cat [indent indentLevel; ToSnakeCase k; " = ";
                               Sprintf_q v; LF]))
               | VNum _ | VBool _ =>
                   Ok (WriteString builder
                         (cat [indent indentLevel; ToSnakeCase k; " = ";
                               Sprintf_v v; LF]))
               | VList sl =>
                   match sl with
                   | [] => Ok builder
                   | sl0 :: _ =>
                       match TypeOf sl0 with
                       | None => Panic
                       | Some Slice | Some Map =>
                           (fix blocks (sl : list (value float64)) (builder : Builder)
                                : result Builder :=
                              match sl with
                              | [] => Ok builder
                              | e :: sl' =>
                                  let builder :=
                                    WriteString builder
                                      (ToLower (cat [LF; indent indentLevel;
                                                     ToSnakeCase k; " {"; LF])) in
                                  builder ← convertToHCLLine e (S indentLevel) builder;
                                  blocks sl'
                                    (WriteString builder
                                       (cat [indent indentLevel; "}"; LF]))
                              end) sl builder
                       | Some Float64 | Some Bool =>
                           let builder :=
                             WriteString builder
                               (cat [indent indentLevel; ToSnakeCase k; " = ["]) in
                           let builder := writeElems Sprintf_0f ", " sl builder in
                           Ok (WriteString builder (cat ["]"; LF]))
                       | Some String_ =>
                           let builder :=
                             WriteString builder
                               (cat [indent indentLevel; ToSnakeCase k; " = ["]) in
                           let builder := writeElems Sprintf_q ", " sl builder in
                           Ok (WriteString builder (cat ["]"; LF]))
                       end
                   end
               | VMap vm =>
                   match vm with
                   | [] => Ok builder
                   | _ :: _ =>
                       let builder :=
                         WriteString builder
                           (ToLower (cat [LF; indent indentLevel; ToSnakeCase k;
                                          " = {"; LF])) in
                       builder ← convertToHCLLine v (S indentLevel) builder;
                       Ok (WriteString builder (cat [indent indentLevel; "}"; LF]))
                   end
               end;
             range m' builder
         end) m builder
  | _ => Ok builder
  end.

(** The text [ConvertTFStateToHCL] starts with (lines 291-293): the
    [terraform] block and the provider block of the fixed provider. *)
Definition preamble : Builder :=
  let builder : Builder := "" in
  let newProvider := "onelogin" in
  let builder :=
    WriteString builder
      (cat ["terraform {"; LF; TAB; "required_providers {"; LF; TAB; TAB;
            newProvider; " = {"; LF; TAB; TAB; TAB; "source = "; QUOTE;
            newProvider; "/"; newProvider; QUOTE; LF; TAB; TAB; TAB; "}"; LF;
            TAB; TAB; "}"; LF; TAB; "}"; LF; LF]) in
  WriteString builder
    (cat ["provider "; newProvider; " {"; LF; TAB; "alias = "; QUOTE;
          newProvider; QUOTE; LF; "}"; LF; LF]).

(** The body of the loop over the instances of a resource (lines
    297-302). The shape the importable of the resource type decodes the
    instance data into is [HCLShape]. *)
Definition instance_body (resource : StateResource) (builder : Builder)
    (instance : ResourceInstance) : result Builder :=
  let builder :=
    WriteString builder
      (cat ["resource "; Type_ resource; " "; Name resource; " {"; LF]) in
  let hclShape := HCLShape (Type_ resource) (Data instance) in
  builder ← convertToHCLLine hclShape 1 builder;
  Ok (WriteString builder (cat ["}"; LF; LF])).

(** The body of the loop over the resources (lines 296-304). *)
Definition resource_body (builder : Builder) (resource : StateResource)
    : result Builder :=
  builder ← forEach (instance_body resource) (Instances resource) builder;
  Ok (WriteString builder (Content resource)).

(** [ConvertTFStateToHCL] (import.go, lines 286-307). *)
Definition ConvertTFStateToHCL (state : State) : result string :=
  forEach resource_body (Resources state) preamble.

End WithEnv.
End stateparser.

(* ===================================================================== *)
(** * The process and its surroundings                                    *)
(* ===================================================================== *)

(** What a run does to the outside, in order. [Close] is the call of
    [Close] on the handle of main.tf; [Exit] is [os.Exit], also the one
    inside [log.Fatal]; [Crash] is a runtime panic; [Return] is the
    return of the command function. *)
Inductive event : Type :=
| Open
| Write (data : string)
| Seek
| Close
| Exec (argv : list string)
| Exit (code : Z)
| Crash
| Return.

#[global] Instance event_eq_dec : EqDecision event.
Proof. solve_decision. Defined.

(** The outcome of reading and decoding terraform.tfstate. *)
Inductive tfstate_result `{Env} : Type :=
| ReadError
| DecodeError
| Decoded (state : stateparser.State).

(** What the surroundings answer during one run: whether main.tf can be
    opened and what it holds, the definitions the importer returns, the
    line typed at the prompt, the outcome of each external command and
    of each write, and the state file found after the imports. *)
Record World `{Env} : Type := mkWorld {
  open_ok : bool;
  main_tf : string;
  remote : list ResourceDefinition;
  answer : string;
  headers_ok : bool;
  init_ok : bool;
  import_ok : string → string → bool;
  tfstate : tfstate_result;
  final_write_ok : bool
}.

(* ===================================================================== *)
(** * Package tfimport                                                    *)
(* ===================================================================== *)

Module tfimport.

(** The source text of the two line patterns of
    [filterExistingDefinitions], and their syntax trees. *)
Definition providerPattern : string :=
  "(\w*provider\w*)\s(([a-zA-Z\_]*))\s\{".

Definition resourcePattern : string :=
  "(\w*resource\w*)\s([a-zA-Z\_\-]*)\s([a-zA-Z\_\-]*[0-9]*)\s?\{".

Definition providerRegexp : Go.regex :=
  Go.Seq (Go.Group 1 (Go.Seq (Go.Star Go.is_word)
                        (Go.Seq (Go.Lit "provider") (Go.Star Go.is_word))))
    (Go.Seq (Go.Class Go.is_space)
       (Go.Seq (Go.Group 2 (Go.Group 3 (Go.Star Go.is_alpha_)))
          (Go.Seq (Go.Class Go.is_space) (Go.Lit "{")))).

Definition resourceRegexp : Go.regex :=
  Go.Seq (Go.Group 1 (Go.Seq (Go.Star Go.is_word)
                        (Go.Seq (Go.Lit "resource") (Go.Star Go.is_word))))
    (Go.Seq (Go.Class Go.is_space)
       (Go.Seq (Go.Group 2 (Go.Star Go.is_alpha_dash))
          (Go.Seq (Go.Class Go.is_space)
             (Go.Seq (Go.Group 3 (Go.Seq (Go.Star Go.is_alpha_dash)
                                    (Go.Star Go.is_digit)))
                (Go.Seq (Go.Opt Go.is_space) (Go.Lit "{")))))).

Definition searchCriteria : list (string * Go.regex) :=
  [("provider", providerRegexp); ("resource", resourceRegexp)].

(** [collection[regexName][definitionKey]], zero for a missing key and
    for a missing (nil) inner map. The counters of this function count
    lines of the file and definitions of the batch, whose numbers stay
    far below the range of [int]: they never wrap around. *)
Definition count (collection : gmap string (gmap string nat))
    (regexName definitionKey : string) : nat :=
  default 0 (default ∅ (collection !! regexName) !! definitionKey).

(** The element of a slice at index [i]; the indices used are in range
    whenever the slice is not empty. *)
Definition at_ (subStr : list string) (i : nat) : string :=
  default "" (subStr !! i).

(** The body of the loop over [searchCriteria] for the line [t]
    (lines 128-141). *)
Definition scan_pattern (t : string) (collection : gmap string (gmap string nat))
    (entry : string * Go.regex) : gmap string (gmap string nat) :=
  let '(regexName, r) := entry in
  let collection :=
    match collection !! regexName with
    | None => <[regexName := ∅]> collection
    | Some _ => collection
    end in
  let subStr := Go.FindStringSubmatch r t in
  if 0 <? length subStr then
    let definitionKey := "" in
    let definitionKey :=
      if String.eqb regexName "provider"
      then at_ subStr (length subStr - 1) else definitionKey in
    let definitionKey :=
      if String.eqb regexName "resource"
      then at_ subStr (length subStr - 2) +:+ "." +:+ at_ subStr (length subStr - 1)
      else definitionKey in
    <[regexName :=
        <[definitionKey := S (count collection regexName definitionKey)]>
          (default ∅ (collection !! regexName))]> collection
  else collection.

(** The scan of the file (lines 123-143). The patterns are visited in
    the order of a Go map, which is unspecified; each visit touches only
    the inner map of its own pattern. *)
Definition scan_line (collection : gmap string (gmap string nat)) (t : string)
    : gmap string (gmap string nat) :=
  fold_left (scan_pattern t) searchCriteria collection.

Definition scan_file (f : string) : gmap string (gmap string nat) :=
  fold_left scan_line (Go.ScanLines f "") ∅.

(** [providerMap[resourceDefinition.Provider]++] over the batch. *)
Definition count_providers (resourceDefinitions : list ResourceDefinition)
    : gmap string nat :=
  fold_left (λ providerMap rd,
               <[Provider rd := S (default 0 (providerMap !! Provider rd))]> providerMap)
    resourceDefinitions ∅.

(** [filterExistingDefinitions] (lines 118-163). The providers are
    collected by ranging over [providerMap]; the model lists them in the
    order of [map_to_list], Go in an unspecified one. *)
Definition filterExistingDefinitions (f : string)
    (resourceDefinitions : list ResourceDefinition)
    : list ResourceDefinition * list string :=
  let collection := scan_file f in
  let uniqueResourceDefinitions :=
    List.filter (λ rd, count collection "resource"
                         (Type_ rd +:+ "." +:+ Name rd) =? 0)
      resourceDefinitions in
  let providerMap := count_providers resourceDefinitions in
  let uniqueProviders :=
    List.filter (λ provider, count collection "provider" provider =? 0)
      (map_to_list providerMap).*1 in
  (uniqueResourceDefinitions, uniqueProviders).

(** [createHCLDefinitionsBuffer] (lines 166-175). *)
Definition createHCLDefinitionsBuffer (resourceDefinitions : list ResourceDefinition)
    (providerDefinitions : list string) : string :=
  let builder : Builder := "" in
  let builder :=
    fold_left (λ builder newProvider,
                 WriteString builder
                   ("provider " +:+ newProvider +:+ " {" +:+ LF +:+ TAB
                      +:+ "alias = " +:+ QUOTE +:+ newProvider +:+ QUOTE +:+ LF +:+ "}"
                      +:+ LF +:+ LF))
      providerDefinitions builder in
  fold_left (λ builder rd,
               WriteString builder
                 ("resource " +:+ Type_ rd +:+ " " +:+ Name rd +:+ " {}" +:+ LF))
    resourceDefinitions builder.

Section WithEnv.
Context `{Env}.

(** [convertToHCLLine] (import.go, lines 213-252). There is no nil
    check before [reflect.TypeOf(v).Kind()] and no case for maps, which
    end in the default branch with its diagnostic. *)
Fixpoint convertToHCLLine (input : value float64) (indentLevel : nat)
    (builder : Builder) {struct input} : result Builder :=
  match input with
  | VMap m =>
      (fix range (m : list (string * value float64)) (builder : Builder)
           : result Builder :=
         match m with
         | [] => Ok builder
         | (k, v) :: m' =>
             builder ←
               match v with
               | VNil => Panic
               | VStr _ =>
                   Ok (WriteString builder
                         (cat [indent indentLevel; ToSnakeCase k; " = ";
                               Sprintf_q v; LF]))
               | VNum _ | VBool _ =>
                   Ok (WriteString builder
                         (cat [indent indentLevel; ToSnakeCase k; " = ";
                               Sprintf_v v; LF]))
               | VList sl =>
                   match sl with
                   | [] => Ok builder
                   | sl0 :: _ =>
                       match TypeOf sl0 with
                       | None => Panic
                       | Some Slice | Some Map =>
                           (fix blocks (sl : list (value float64)) (builder : Builder)
                                : result Builder :=
                              match sl with
                              | [] => Ok builder
                              | e :: sl' =>
                                  let builder :=
                                    WriteString builder
                                      (ToLower (cat [LF; indent indentLevel;
                                                     ToSnakeCase k; " {"; LF])) in
                                  builder ← convertToHCLLine e (S indentLevel) builder;
                                  blocks sl'
                                    (WriteString builder
                                       (cat [indent indentLevel; "}"; LF]))
                              end) sl builder
                       | Some _ =>
                           let builder :=
                             WriteString builder
                               (cat [indent indentLevel; ToSnakeCase k; " = ["]) in
                           let builder := writeElems Sprintf_q "," sl builder in
                           Ok (WriteString builder (cat ["]"; LF]))
                       end
                   end
               | VMap _ => Ok builder
               end;
             range m' builder
         end) m builder
  | _ => Ok builder
  end.

(** The body of the loop over the instances of a resource (lines
    192-196); [sculpt] is the shaping of the instance data by resource
    type. *)
Definition instance_body (resource : stateparser.StateResource)
    (providerDefinition : string) (builder : Builder)
    (instance : stateparser.ResourceInstance) : result Builder :=
  let builder :=
    WriteString builder
      (cat ["resource "; stateparser.Type_ resource; " ";
            stateparser.Name resource; " {"; LF]) in
  let builder :=
    WriteString builder (cat [TAB; "provider = "; providerDefinition; LF]) in
  let sculptedData :=
    sculpt (stateparser.Type_ resource) (stateparser.Data instance) in
  builder ← convertToHCLLine sculptedData 1 builder;
  Ok (WriteString builder (cat ["}"; LF; LF])).

(** The body of the loop over the resources (lines 186-198), on the
    builder and the map [knownProviders]. *)
Definition resource_body (st : Builder * gmap string nat)
    (resource : stateparser.StateResource) : result (Builder * gmap string nat) :=
  let '(builder, knownProviders) := st in
  let providerDefinition :=
    Go.ReplaceFirst (stateparser.Provider resource) "provider." "" in
  let '(builder, knownProviders) :=
    if default 0 (knownProviders !! providerDefinition) =? 0 then
      (WriteString builder
         (cat ["provider "; providerDefinition; " {"; LF; TAB; "alias = ";
               QUOTE; providerDefinition; QUOTE; LF; "}"; LF; LF]),
       <[providerDefinition :=
           S (default 0 (knownProviders !! providerDefinition))]> knownProviders)
    else (builder, knownProviders) in
  builder ← forEach (instance_body resource providerDefinition)
               (stateparser.Instances resource) builder;
  Ok (WriteString builder (stateparser.Content resource), knownProviders).

(** [convertTFStateToHCL] (import.go, lines 179-201). The [State] type
    of this package has the shape of the one [stateparser] declares. *)
Definition convertTFStateToHCL (state : stateparser.State) : result string :=
  st ← forEach resource_body (stateparser.Resources state) ("", ∅);
  Ok st.1.

(** The import loop of [ImportTFStateFromRemote] (lines 67-77): the
    import id is the part of [Type.Name] after its first dash. The
    result tells whether the loop ran to its end. *)
Fixpoint import_loop (w : World) (todo : list ResourceDefinition)
    : list event * bool :=
  match todo with
  | [] => ([], true)
  | resourceDefinition :: todo' =>
      let arg1 := cat [Type_ resourceDefinition; "."; Name resourceDefinition] in
      let pos := Go.IndexByte arg1 "-" in
      let id := Go.drop (Z.to_nat (pos + 1)) arg1 in
      if import_ok w arg1 id then
        let '(t, done) := import_loop w todo' in
        (Exec ["terraform"; "import"; arg1; id] :: t, done)
      else ([Exec ["terraform"; "import"; arg1; id]; Exit 1], false)
  end.

(** [ImportTFStateFromRemote] (lines 23-98). *)
Definition ImportTFStateFromRemote (w : World) : list event :=
  if negb (open_ok w) then [Exit 1]
  else
    Open ::
    let '(newResourceDefinitions, newProviderDefinitions) :=
      filterExistingDefinitions (main_tf w) (remote w) in
    if length newResourceDefinitions =? 0 then [Close; Exit 0]
    else
      let text := ToLower (answer w) in
      if negb (String.eqb text "y") && negb (String.eqb text "yes")
      then [Close; Exit 0]
      else
        let defBuffer :=
          createHCLDefinitionsBuffer newResourceDefinitions newProviderDefinitions in
        if negb (headers_ok w) then [Exit 1]
        else
          Write defBuffer :: Exec ["terraform"; "init"] ::
          if negb (init_ok w) then [Close; Exit 1]
          else
            let '(t, done) := import_loop w newResourceDefinitions in
            t ++
            if negb done then []
            else
              match tfstate w with
              | ReadError | DecodeError => [Close; Exit 1]
              | Decoded state =>
                  match convertTFStateToHCL state with
                  | Panic => [Crash]
                  | Ok buffer =>
                      Seek ::
                      if final_write_ok w then [Write buffer; Close; Return]
                      else [Close; Close; Return]
                  end
              end.

End WithEnv.
End tfimport.

(* ===================================================================== *)
(** * Package cmd: the import loop of tfImport                            *)
(* ===================================================================== *)

Module cmd.

(** State of the inner [for _, v := range newResourceDefinitions] loop:
    the counter [n], the current [resourceName] and the slice variable
    [newResourceDefinitions], which the body appends to. *)
Record inner_state : Type := mkInner {
  n_ : Z;
  resourceName : string;
  defs : list ResourceDefinition
}.

(** One pass of the inner loop body for the element [v] of the ranged
    slice (part_000, lines 127-136). *)
Definition inner_body (rd v : ResourceDefinition) (st : inner_state) : inner_state :=
  let name := Name v in
  if String.eqb (Name rd) name then
    let newName := "_" +:+ name +:+ "_" +:+ Go.FormatInt (n_ st) in
    {| n_ := Go.wrap64 (n_ st + 1);
       resourceName := Type_ rd +:+ "." +:+ newName;
       defs := defs st ++ [rd] |}
  else st.

(** The inner loop ranges over the value the slice variable had when
    the loop started; appends made by the body do not extend it. *)
Definition inner_loop (rd : ResourceDefinition) (snapshot : list ResourceDefinition)
    (st : inner_state) : inner_state :=
  fold_left (fun st v => inner_body rd v st) snapshot st.

(** The part of one outer iteration that computes the import address
    (lines 125-137): returns the address and the grown slice. *)
Definition disambiguate (rd : ResourceDefinition) (cur : list ResourceDefinition)
    : string * list ResourceDefinition :=
  let st := inner_loop rd cur
              {| n_ := 0; resourceName := Type_ rd +:+ "." +:+ Name rd; defs := cur |} in
  (resourceName st, defs st).

(** The outer loop ranges over the original batch [todo]; [cur] is the
    slice variable threaded through the iterations. The result lists,
    in order, the [(resourceName, id)] argument pairs of the
    [terraform import] invocations, and the final slice. *)
Fixpoint import_args (todo cur : list ResourceDefinition)
    : list (string * string) * list ResourceDefinition :=
  match todo with
  | [] => ([], cur)
  | rd :: todo' =>
      let '(name, cur') := disambiguate rd cur in
      let '(rest, final) := import_args todo' cur' in
      ((name, ImportID rd) :: rest, final)
  end.

(** The resource identities handed to the external importer for a batch. *)
Definition identities (batch : list ResourceDefinition) : list string :=
  (fst (import_args batch batch)).*1.

(** The working slice once the loop has finished. *)
Definition final_slice (batch : list ResourceDefinition) : list ResourceDefinition :=
  snd (import_args batch batch).

Section WithEnv.
Context `{Env}.

(** The import loop with the external command (lines 124-145): a
    failing [terraform import] ends the process in [log.Fatal]. The
    result tells whether the loop ran to its end. *)
Fixpoint import_loop (w : World) (todo cur : list ResourceDefinition)
    : list event * bool :=
  match todo with
  | [] => ([], true)
  | rd :: todo' =>
      let '(name, cur') := disambiguate rd cur in
      let id := ImportID rd in
      if import_ok w name id then
        let '(t, done) := import_loop w todo' cur' in
        (Exec ["terraform"; "import"; name; id] :: t, done)
      else ([Exec ["terraform"; "import"; name; id]; Exit 1], false)
  end.

(** [tfImport] (part_000, lines 78-173). [FilterExistingDefinitions] is
    the filter of import.go under its exported name; what
    [WriteHCLDefinitionHeaders] writes is the header buffer of
    [createHCLDefinitionsBuffer], or nothing when it fails. *)
Definition tfImport (w : World) (autoApprove : bool) : list event :=
  if negb (open_ok w) then [Exit 1]
  else
    Open ::
    let '(newResourceDefinitions, newProviderDefinitions) :=
      tfimport.filterExistingDefinitions (main_tf w) (remote w) in
    if length newResourceDefinitions =? 0 then [Close; Exit 0]
    else
      let text := ToLower (answer w) in
      if negb autoApprove
         && (negb (String.eqb text "y") && negb (String.eqb text "yes"))
      then [Close; Exit 0]
      else
        if negb (headers_ok w) then [Close; Exit 1]
        else
          Write (tfimport.createHCLDefinitionsBuffer
                   newResourceDefinitions newProviderDefinitions) ::
          Exec ["terraform"; "init"] ::
          if negb (init_ok w) then [Close; Exit 1]
          else
            let '(t, done) :=
              import_loop w newResourceDefinitions newResourceDefinitions in
            t ++
            if negb done then []
            else
              match tfstate w with
              | ReadError | DecodeError => [Close; Exit 1]
              | Decoded state =>
                  match stateparser.ConvertTFStateToHCL state with
                  | Panic => [Crash]
                  | Ok buffer =>
                      Seek ::
                      if final_write_ok w then [Write buffer; Close; Return]
                      else [Close; Close; Return]
                  end
              end.

End WithEnv.
End cmd.

#[global] Arguments cmd.disambiguate : simpl never.
#[global] Arguments Go.consumed : simpl never.


(* ===================================================================== *)
(** * A concrete environment for evaluating examples                      *)
(* ===================================================================== *)

Module Model.

Definition is_upper (a : ascii) : bool :=
  let n := N_of_ascii a in ((65 <=? n) && (n <=? 90))%N.

Definition is_lower (a : ascii) : bool :=
  let n := N_of_ascii a in ((97 <=? n) && (n <=? 122))%N.

Definition lower (a : ascii) : ascii :=
  if is_upper a then ascii_of_N (N_of_ascii a + 32) else a.

(** [strings.ToLower] on ASCII text (Go also maps the upper-case letters
    of other scripts). *)
Fixpoint ToLower (s : string) : string :=
  match s with
  | EmptyString => EmptyString
  | String a s' => String (lower a) (ToLower s')
  end.

(** Modelled from the spec: [utils.ToSnakeCase] of the SDK, which is not
    part of the sources. Section 4.1: mixed-case identifiers become
    lower-case words joined by underscores, a word starting at an
    upper-case letter that follows a lower-case letter or a digit;
    normalized and non-alphabetic text passes through. *)
Fixpoint snake (boundary : bool) (s : string) : string :=
  match s with
  | EmptyString => EmptyString
  | String a s' =>
      if is_upper a then
        (if boundary then "_" else "") +:+ String (lower a) (snake false s')
      else String a (snake (is_lower a || Go.is_digit a) s')
  end.

Definition ToSnakeCase (s : string) : string := snake false s.

Definition hex_digit (n : N) : ascii :=
  if (n <? 10)%N then ascii_of_N (48 + n) else ascii_of_N (87 + n).

(** [strconv.Quote] on ASCII text: the named escapes, [\x] escapes for
    the other control bytes, everything else unchanged. *)
Definition escape (a : ascii) : string :=
  let n := N_of_ascii a in
  if (n =? 34)%N then String "\" QUOTE
  else if (n =? 92)%N then "\\"
  else if (n =? 7)%N then "\a"
  else if (n =? 8)%N then "\b"
  else if (n =? 12)%N then "\f"
  else if (n =? 10)%N then "\n"
  else if (n =? 13)%N then "\r"
  else if (n =? 9)%N then "\t"
  else if (n =? 11)%N then "\v"
  else if ((n <? 32) || (n =? 127))%N then
    "\x" +:+ String (hex_digit (n / 16)) (String (hex_digit (n mod 16)) "")
  else String a "".

Fixpoint escape_all (s : string) : string :=
  match s with
  | EmptyString => EmptyString
  | String a s' => escape a +:+ escape_all s'
  end.

Definition Quote (s : string) : string := QUOTE +:+ escape_all s +:+ QUOTE.

(** Numbers of the examples are integers below 2^53 in magnitude, which
    [float64] holds exactly. [%v] prints them like [%g] with the
    shortest digits: plain below 10^6, with an exponent from there on. *)
Fixpoint strip_zeros (rev_digits : string) : string :=
  match rev_digits with
  | String "0" s' => strip_zeros s'
  | _ => rev_digits
  end.

Definition format_g (z : Z) : string :=
  if (Z.abs z <? 1000000)%Z then Go.FormatInt z
  else
    let digits := Go.FormatInt (Z.abs z) in
    let e := Go.FormatInt (Z.of_nat (String.length digits - 1)) in
    let frac :=
      match digits with
      | String d rest =>
          match String.rev (strip_zeros (String.rev rest)) with
          | EmptyString => String d ""
          | r => String d ("." +:+ r)
          end
      | EmptyString => EmptyString
      end in
    (if (z <? 0)%Z then "-" else "") +:+ frac +:+ "e+"
      +:+ (if String.length e <? 2 then "0" +:+ e else e).

Definition format_bool (b : bool) : string := if b then "true" else "false".

Inductive verb : Type := verb_q | verb_v | verb_f.

Definition verb_name (c : verb) : string :=
  match c with verb_q => "q" | verb_v => "v" | verb_f => "f" end.

Definition format_string (c : verb) (s : string) : string :=
  match c with
  | verb_v => s
  | verb_q => Quote s
  | verb_f => "%!f(string=" +:+ s +:+ ")"
  end.

Definition by_key (x y : string * string) : Prop := String.leb x.1 y.1 = true.

#[global] Instance by_key_dec : RelDecision by_key.
Proof. intros x y. unfold by_key. apply _. Defined.

(** [fmt.Sprintf] with a single verb: a verb that does not fit the
    operand prints as ["%!verb(type=value)"], slices print as
    ["[a b]"] and maps as ["map[k:v]"] with the keys in order. *)
Fixpoint Sprintf (c : verb) (v : value Z) {struct v} : string :=
  match v with
  | VNil => match c with verb_v => "<nil>" | _ => "%!" +:+ verb_name c +:+ "(<nil>)" end
  | VBool b =>
      match c with
      | verb_v => format_bool b
      | _ => "%!" +:+ verb_name c +:+ "(bool=" +:+ format_bool b +:+ ")"
      end
  | VNum x =>
      match c with
      | verb_v => format_g x
      | verb_f => Go.FormatInt x
      | verb_q => "%!q(float64=" +:+ format_g x +:+ ")"
      end
  | VStr s => format_string c s
  | VList sl =>
      "[" +:+ String.concat " "
                ((fix each (sl : list (value Z)) : list string :=
                    match sl with
                    | [] => []
                    | e :: sl' => Sprintf c e :: each sl'
                    end) sl) +:+ "]"
  | VMap m =>
      let entries :=
        (fix each (m : list (string * value Z)) : list (string * string) :=
           match m with
           | [] => []
           | (k, e) :: m' => (k, format_string c k +:+ ":" +:+ Sprintf c e) :: each m'
           end) m in
      "map[" +:+ String.concat " " (merge_sort by_key entries).*2 +:+ "]"
  end.

(** The instance data pass through the shaping steps unchanged. *)
#[global] Instance env : Env :=
  Build_Env Z ToSnakeCase ToLower (Sprintf verb_q) (Sprintf verb_v)
    (Sprintf verb_f) (λ _ data, data) (λ _ data, data).

End Model.

(* ===================================================================== *)
(** * Vocabulary of the statements                                        *)
(* ===================================================================== *)

(** [has_byte c s]: the byte [c] occurs in [s]. *)
Fixpoint has_byte (c : ascii) (s : string) : bool :=
  match s with
  | EmptyString => false
  | String a s' => Ascii.eqb a c || has_byte c s'
  end.

(** Number of elements of a slice that carry the name [nm]. *)
Fixpoint occurrences (nm : string) (l : list ResourceDefinition) : nat :=
  match l with
  | [] => 0
  | v :: l' => (if String.eqb nm (Name v) then 1 else 0) + occurrences nm l'
  end.

(** The address built at the [k]-th match (counting from zero). *)
Definition suffixed (rd : ResourceDefinition) (k : Z) : string :=
  Type_ rd +:+ "." +:+ ("_" +:+ Name rd +:+ "_" +:+ Go.FormatInt k).

(** A resource type without a dot, as Terraform type names are. *)
Definition dot_free (rd : ResourceDefinition) : Prop :=
  has_byte "." (Type_ rd) = false.

Section Renderings.

Context `{Env}.

(** A list or a map: the kinds that select the block rendering. *)
Definition composite (v : value float64) : bool :=
  match v with
  | VList _ | VMap _ => true
  | _ => false
  end.

(** A string, a number or a boolean. *)
Definition scalar (v : value float64) : bool :=
  match v with
  | VStr _ | VNum _ | VBool _ => true
  | _ => false
  end.

(** The single line of an array literal: the key, the elements rendered
    by [fmt] and joined by [sep] between brackets. *)
Definition array_line (fmt : value float64 → string) (sep : string)
    (k : string) (lvl : nat) (sl : list (value float64)) : string :=
  cat [indent lvl; ToSnakeCase k; " = ["]
    +:+ String.concat sep (fmt <$> sl) +:+ cat ["]"; LF].

(** One nested block for the element [e] under the key [k]: the header
    line, the serialization [conv] of the element one level deeper, and
    the closing brace. *)
Definition block (conv : value float64 → nat → Builder → result Builder)
    (k : string) (lvl : nat) (b : Builder) (e : value float64) : result Builder :=
  b ← conv e (S lvl)
        (WriteString b (ToLower (cat [LF; indent lvl; ToSnakeCase k; " {"; LF])));
  Ok (WriteString b (cat [indent lvl; "}"; LF])).

(** The verb the [stateparser] array literal uses for its elements,
    chosen by the first element. *)
Definition element_verb (sl0 : value float64) : value float64 → string :=
  match sl0 with
  | VNum _ | VBool _ => Sprintf_0f
  | _ => Sprintf_q
  end.

End Renderings.

(** The handle of main.tf is released in a run: if the file was opened,
    [Close] is called on it before the run ends. *)
Definition released (t : list event) : Prop := Open ∈ t → Close ∈ t.

(** The [terraform import] invocations of a list of argument pairs. *)
Definition import_events (args : list (string * string)) : list event :=
  (λ a, Exec ["terraform"; "import"; a.1; a.2]) <$> args.

(** A run with one new definition in which the operator confirms and
    the external import of the definition fails. *)
Definition import_fails : World (H := Model.env) :=
  {| open_ok := true;
     main_tf := "";
     remote := [mkResourceDefinition "onelogin_apps" "x-1" "onelogin" "1"];
     answer := "y";
     headers_ok := true;
     init_ok := true;
     import_ok := λ _ _, false;
     tfstate := ReadError;
     final_write_ok := true |}.

(** [prepend b r]: the result [r] of a step run on an empty builder,
    seen from a builder that already holds [b]. *)
Definition prepend (b : Builder) (r : result Builder) : result Builder :=
  match r with
  | Ok t => Ok (b +:+ t)
  | Panic => Panic
  end.

(** A step only appends: what it does to a builder is what it does to
    the empty one, after the text the builder holds. *)
Definition appends (f : Builder → result Builder) : Prop :=
  ∀ b, f b = prepend b (f "").

(** The same on the state of the [tfimport] converter, whose second
    component is the map of known providers. *)
Definition prepend_st {K} (b : Builder) (r : result (Builder * K))
    : result (Builder * K) :=
  match r with
  | Ok (t, k) => Ok (b +:+ t, k)
  | Panic => Panic
  end.

(** A resource of the snapshot with its trailing content removed. *)
Definition without_content `{Env} (r : stateparser.StateResource)
    : stateparser.StateResource :=
  stateparser.mkStateResource "" (stateparser.Name r) (stateparser.Type_ r)
    (stateparser.Provider r) (stateparser.Instances r).

(** A snapshot of two resources, the first with trailing content. *)
Definition sample_first : stateparser.StateResource (H := Model.env) :=
  stateparser.mkStateResource (cat ["# kept as it is"; LF]) "x-1" "onelogin_apps"
    "provider.onelogin"
    [stateparser.mkResourceInstance (VMap [("name", VStr "x"); ("visible", VBool true)])].

Definition sample_second : stateparser.StateResource (H := Model.env) :=
  stateparser.mkStateResource "" "y-2" "onelogin_apps" "provider.onelogin"
    [stateparser.mkResourceInstance (VMap [("name", VStr "y")])].

Definition sample_state : stateparser.State (H := Model.env) :=
  stateparser.mkState [sample_first; sample_second].

(** The text of a completed conversion (empty if it panicked). *)
Definition text_of (r : result string) : string :=
  match r with
  | Ok out => out
  | Panic => ""
  end.

(** A run of [ImportTFStateFromRemote] on an empty main.tf: the
    importer returns one application whose name has digits in front of
    the dash, the operator confirms, every command succeeds, and the
    state file holds the imported resource. *)
Definition office : ResourceDefinition :=
  mkResourceDefinition "onelogin_apps" "office365-7" "onelogin" "7".

Definition office_state : stateparser.State (H := Model.env) :=
  stateparser.mkState
    [stateparser.mkStateResource "" "office365-7" "onelogin_apps" "provider.onelogin"
       [stateparser.mkResourceInstance (VMap [("name", VStr "Office 365")])]].

Definition first_run : World (H := Model.env) :=
  {| open_ok := true;
     main_tf := "";
     remote := [office];
     answer := "y";
     headers_ok := true;
     init_ok := true;
     import_ok := λ _ _, true;
     tfstate := Decoded office_state;
     final_write_ok := true |}.

(** The same with a name of letters followed by digits after the dash. *)
Definition mail : ResourceDefinition :=
  mkResourceDefinition "onelogin_apps" "mail-7" "onelogin" "7".

Definition mail_state : stateparser.State (H := Model.env) :=
  stateparser.mkState
    [stateparser.mkStateResource "" "mail-7" "onelogin_apps" "provider.onelogin"
       [stateparser.mkResourceInstance (VMap [("name", VStr "Mail")])]].

(** Every byte of [s] is in the class [p]. *)
Fixpoint all_bytes (p : ascii → bool) (s : string) : bool :=
  match s with
  | EmptyString => true
  | String a s' => p a && all_bytes p s'
  end.

(** [s] is empty or starts with a byte outside the class [p]. *)
Definition stops (p : ascii → bool) (s : string) : bool :=
  match s with
  | EmptyString => true
  | String a _ => negb (p a)
  end.

(** The header line of a resource block, as both converters write it. *)
Definition resource_header (type name : string) : string :=
  cat ["resource "; type; " "; name; " {"].

(** The names the resource pattern recognizes: letters, underscores and
    dashes, followed by digits. *)
Definition pattern_name (name : string) : Prop :=
  ∃ l d, name = l +:+ d
         ∧ all_bytes Go.is_alpha_dash l = true ∧ all_bytes Go.is_digit d = true.

(** The types it recognizes: letters, underscores and dashes. *)
Definition pattern_type (type : string) : Prop :=
  all_bytes Go.is_alpha_dash type = true.

(** Every line of the input fits the buffer of the scanner, so that
    the scan reaches the end: [line] is the part of the current line
    read so far. *)
Fixpoint lines_fit (data line : string) : bool :=
  match data with
  | EmptyString =>
      match line with
      | EmptyString => true
      | String _ _ => Go.fits line
      end
  | String c rest =>
      if Ascii.eqb c "010" then Go.fits line && lines_fit rest EmptyString
      else lines_fit rest (line +:+ String c EmptyString)
  end.

(** A text that is empty or ends with a line feed: what is written
    after it starts on a line of its own. *)
Definition aligned (s : string) : Prop := s = "" ∨ ∃ s', s = s' +:+ LF.


(** ** Vocabulary of the further properties *)

(** [null_free v]: no [null] occurs anywhere in the value. *)
Fixpoint null_free {F} (v : value F) : bool :=
  match v with
  | VNil => false
  | VList sl => forallb null_free sl
  | VMap m => forallb (λ kv, null_free kv.2) m
  | _ => true
  end.

(** [null_headed v]: some list inside the value starts with [null]. *)
Fixpoint null_headed {F} (v : value F) : bool :=
  match v with
  | VList sl =>
      match sl with
      | VNil :: _ => true
      | _ => false
      end || existsb null_headed sl
  | VMap m => existsb (λ kv, null_headed kv.2) m
  | _ => false
  end.

(** [blocks_only v]: below every key of the value there is a string, a
    number, a boolean, or a list of maps and lists of that kind: no
    null, no map as the value of a key, no list of scalars. *)
Fixpoint blocks_only {F} (v : value F) : bool :=
  match v with
  | VMap m =>
      forallb (λ kv,
                 match kv.2 with
                 | VStr _ | VNum _ | VBool _ => true
                 | VList sl =>
                     forallb (λ e, match e with
                                   | VMap _ => blocks_only e
                                   | VList _ => true
                                   | _ => false
                                   end) sl
                 | _ => false
                 end) m
  | _ => true
  end.

(** The provider name [convertTFStateToHCL] derives for a resource. *)
Definition provider_of `{Env} (r : stateparser.StateResource) : string :=
  Go.ReplaceFirst (stateparser.Provider r) "provider." "".

(** The line both serializers write for a key with a scalar value:
    strings with [%q], numbers and booleans with [%v]. *)
Definition scalar_line `{Env} (k : string) (lvl : nat) (v : value float64) : string :=
  cat [indent lvl; ToSnakeCase k; " = ";
       match v with
       | VStr _ => Sprintf_q v
       | _ => Sprintf_v v
       end; LF].

(** Resource definitions can be compared, and so counted in a slice. *)
#[global] Instance ResourceDefinition_eq_dec : EqDecision ResourceDefinition.
Proof. solve_decision. Defined.

(** A byte outside the class [\w]: white space, punctuation, a comment
    mark. *)
Definition non_word (a : ascii) : bool := negb (Go.is_word a).

(** The first line of a provider block, as [createHCLDefinitionsBuffer]
    and the converters write it. *)
Definition provider_header (p : string) : string := cat ["provider "; p; " {"].

(** The provider names the provider pattern recognizes: letters and
    underscores. *)
Definition pattern_provider (p : string) : Prop :=
  all_bytes Go.is_alpha_ p = true.

(** [n] copies of the byte [c]. *)
Fixpoint repeat_byte (n : nat) (c : ascii) : string :=
  match n with
  | O => ""
  | S n' => String c (repeat_byte n' c)
  end.

(** The block both [createHCLDefinitionsBuffer] and
    [convertTFStateToHCL] write for a provider. *)
Definition provider_block (p : string) : string :=
  cat ["provider "; p; " {"; LF; TAB; "alias = "; QUOTE; p; QUOTE; LF; "}"; LF; LF].

(** The empty declaration [createHCLDefinitionsBuffer] writes for a
    resource definition. *)
Definition declaration_stub (rd : ResourceDefinition) : string :=
  cat ["resource "; Type_ rd; " "; Name rd; " {}"; LF].

(** [uses_file e]: the event reads or writes through the handle of
    main.tf. *)
Definition uses_file (e : event) : bool :=
  match e with
  | Write _ | Seek => true
  | _ => false
  end.

(** Nothing goes through the handle once it has been closed. *)
Definition no_use_after_close (t : list event) : Prop :=
  ∀ t1 t2 e, t = t1 ++ Close :: t2 → e ∈ t2 → uses_file e = false.

(** The same as a check along the run; [closed] tells whether [Close]
    has been called so far. *)
Fixpoint quiet_after_close (closed : bool) (t : list event) : bool :=
  match t with
  | [] => true
  | e :: t' =>
      negb (closed && uses_file e)
      && quiet_after_close (closed || bool_decide (e = Close)) t'
  end.

(** How often a run calls [Close] on the handle. *)
Definition closes (t : list event) : nat := count_occ event_eq_dec t Close.

(** An event of the import loops: an external command or the exit of
    [log.Fatal]. *)
Definition loop_event (e : event) : Prop := (∃ argv, e = Exec argv) ∨ e = Exit 1.

(** A run in which the operator confirms and the import of the second
    of three definitions fails. *)
Definition second_import_fails : World (H := Model.env) :=
  {| open_ok := true;
     main_tf := "";
     remote := [mkResourceDefinition "onelogin_apps" "a-1" "onelogin" "1";
                mkResourceDefinition "onelogin_apps" "b-2" "onelogin" "2";
                mkResourceDefinition "onelogin_apps" "c-3" "onelogin" "3"];
     answer := "yes";
     headers_ok := true;
     init_ok := true;
     import_ok := λ _ id, negb (String.eqb id "2");
     tfstate := ReadError;
     final_write_ok := true |}.

(** A snapshot whose resource has trailing content and, among its
    attributes, a list that starts with a null. *)
Definition null_head_state : stateparser.State (H := Model.env) :=
  stateparser.mkState
    [stateparser.mkStateResource (cat ["# kept as it is"; LF]) "x-1" "onelogin_apps"
       "provider.onelogin"
       [stateparser.mkResourceInstance
          (VMap [("name", VStr "x"); ("roles", VList [VNil])])]].

(** The same with a null attribute in place of the list. *)
Definition null_attribute_state : stateparser.State (H := Model.env) :=
  stateparser.mkState
    [stateparser.mkStateResource (cat ["# kept as it is"; LF]) "x-1" "onelogin_apps"
       "provider.onelogin"
       [stateparser.mkResourceInstance
          (VMap [("notes", VNil); ("name", VStr "x")])]].

(** The first run of [ImportTFStateFromRemote] for the application
    [mail-7] on an empty main.tf, and the run that follows it: the same
    remote definition, and in main.tf the text the first run wrote. *)
Definition mail_first_run : World (H := Model.env) :=
  {| open_ok := true;
     main_tf := "";
     remote := [mail];
     answer := "y";
     headers_ok := true;
     init_ok := true;
     import_ok := λ _ _, true;
     tfstate := Decoded mail_state;
     final_write_ok := true |}.

Definition mail_second_run : World (H := Model.env) :=
  {| open_ok := true;
     main_tf := text_of (tfimport.convertTFStateToHCL mail_state) +:+ "";
     remote := [mail];
     answer := "y";
     headers_ok := true;
     init_ok := true;
     import_ok := λ _ _, true;
     tfstate := Decoded mail_state;
     final_write_ok := true |}.

(** The snapshot [tfImport] leaves for a definition named [mail]: the
    resource is held under the address it was imported at. *)
Definition renamed_state : stateparser.State (H := Model.env) :=
  stateparser.mkState
    [stateparser.mkStateResource "" "_mail_0" "onelogin_apps" "provider.onelogin"
       [stateparser.mkResourceInstance (VMap [("name", VStr "Mail")])]].



(* ===================================================================== *)
(** * Strings: splitting at a separator byte                              *)
(* ===================================================================== *)

Section StringFacts.

Lemma has_byte_app c s t :
  has_byte c (s +:+ t) = has_byte c s || has_byte c t.
Proof.
  induction s as [|a s IH]; simpl; [done|].
  rewrite IH. by rewrite orb_assoc.
Qed.

Lemma string_app_assoc (s t u : string) : (s +:+ t) +:+ u = s +:+ (t +:+ u).
Proof. induction s as [|a s IH]; simpl; [done|]. by rewrite IH. Qed.

Lemma string_app_nil_r (s : string) : s +:+ "" = s.
Proof. induction s as [|a s IH]; simpl; [done|]. by rewrite IH. Qed.

Lemma string_app_length (s t : string) :
  String.length (s +:+ t) = String.length s + String.length t.
Proof. induction s as [|a s IH]; simpl; [done|]. by rewrite IH. Qed.

(** Two texts cut at the first occurrence of [c] agree piecewise. *)
Lemma split_at_first c (a b r r' : string) :
  has_byte c a = false → has_byte c b = false →
  a +:+ String c r = b +:+ String c r' → a = b ∧ r = r'.
Proof.
  revert b. induction a as [|x a IH]; intros [|y b]; simpl; intros Ha Hb E.
  - by injection E.
  - injection E as <- _. by rewrite Ascii.eqb_refl in Hb.
  - injection E as -> _. by rewrite Ascii.eqb_refl in Ha.
  - injection E as -> E.
    apply orb_false_iff in Ha as [_ Ha]. apply orb_false_iff in Hb as [_ Hb].
    destruct (IH b Ha Hb E) as [-> ->]. done.
Qed.

(** Two texts cut at the last occurrence of [c] agree piecewise. *)
Lemma split_at_last c (a b d d' : string) :
  has_byte c d = false → has_byte c d' = false →
  a +:+ String c d = b +:+ String c d' → a = b ∧ d = d'.
Proof.
  revert b. induction a as [|x a IH]; intros [|y b]; simpl; intros Hd Hd' E.
  - by injection E.
  - injection E as <- E. subst d.
    rewrite has_byte_app in Hd. simpl in Hd. rewrite Ascii.eqb_refl in Hd.
    by rewrite orb_true_r in Hd.
  - injection E as -> E. subst d'.
    rewrite has_byte_app in Hd'. simpl in Hd'. rewrite Ascii.eqb_refl in Hd'.
    by rewrite orb_true_r in Hd'.
  - injection E as -> E. destruct (IH b Hd Hd' E) as [-> ->]. done.
Qed.

Lemma string_of_uint_no_underscore (u : Decimal.uint) :
  has_byte "_" (NilEmpty.string_of_uint u) = false.
Proof. induction u; simpl; done. Qed.

Lemma FormatInt_no_underscore (z : Z) : has_byte "_" (Go.FormatInt z) = false.
Proof.
  unfold Go.FormatInt. destruct (Z.to_int z) as [u|u]; simpl;
    apply string_of_uint_no_underscore.
Qed.

Lemma FormatInt_inj (x y : Z) : Go.FormatInt x = Go.FormatInt y → x = y.
Proof.
  unfold Go.FormatInt. intros E.
  apply (f_equal NilEmpty.int_of_string) in E.
  rewrite !NilEmpty.isi in E. injection E as E.
  apply (f_equal Z.of_int) in E. by rewrite !DecimalZ.of_to in E.
Qed.

Lemma wrap64_small (z : Z) :
  (- 2 ^ 63 ≤ z ≤ Go.MaxInt)%Z → Go.wrap64 z = z.
Proof.
  unfold Go.wrap64, Go.MaxInt. intros H.
  rewrite Z.mod_small; lia.
Qed.

End StringFacts.

(* ===================================================================== *)
(** * The import loop: what the disambiguation computes                   *)
(* ===================================================================== *)

Section Disambiguation.

Implicit Types (rd v : ResourceDefinition) (cur todo batch : list ResourceDefinition).

Lemma occurrences_app nm l1 l2 :
  occurrences nm (l1 ++ l2) = occurrences nm l1 + occurrences nm l2.
Proof. induction l1 as [|v l1 IH]; simpl; [done|]. rewrite IH. lia. Qed.

Lemma occurrences_replicate nm k rd :
  occurrences nm (replicate k rd) = if String.eqb nm (Name rd) then k else 0.
Proof.
  induction k as [|k IH]; simpl.
  - by destruct (String.eqb _ _).
  - rewrite IH. destruct (String.eqb _ _); lia.
Qed.

Lemma occurrences_le_length nm l : occurrences nm l ≤ length l.
Proof. induction l as [|v l IH]; simpl; [done|]. destruct (String.eqb _ _); lia. Qed.

Lemma occurrences_elem rd l : rd ∈ l → 1 ≤ occurrences (Name rd) l.
Proof.
  induction 1 as [v l|v w l _ IH]; simpl.
  - rewrite String.eqb_refl. lia.
  - lia.
Qed.

(** The inner loop, as long as the counter stays within [int64]. *)
Lemma inner_loop_spec rd snapshot st :
  let c := occurrences (Name rd) snapshot in
  (0 ≤ cmd.n_ st)%Z → (cmd.n_ st + Z.of_nat c ≤ Go.MaxInt)%Z →
  cmd.inner_loop rd snapshot st =
    {| cmd.n_ := cmd.n_ st + Z.of_nat c;
       cmd.resourceName :=
         match c with
         | O => cmd.resourceName st
         | S _ => suffixed rd (cmd.n_ st + Z.of_nat c - 1)
         end;
       cmd.defs := cmd.defs st ++ replicate c rd |}.
Proof.
  revert st. induction snapshot as [|v snapshot IH]; intros st; simpl.
  - intros _ _. destruct st as [n r d]; simpl.
    rewrite app_nil_r, Z.add_0_r. done.
  - intros Hn Hmax. unfold cmd.inner_loop in *. simpl.
    unfold cmd.inner_body at 2.
    destruct (String.eqb (Name rd) (Name v)) eqn:E; simpl in *.
    + apply String.eqb_eq in E.
      rewrite IH; simpl.
      * rewrite wrap64_small by (unfold Go.MaxInt in *; lia).
        f_equal; [lia| |by rewrite <- app_assoc].
        destruct (occurrences (Name rd) snapshot) eqn:Ec.
        -- replace (cmd.n_ st + Z.of_nat 1 - 1)%Z with (cmd.n_ st) by lia.
           unfold suffixed. by rewrite <- E.
        -- f_equal. lia.
      * rewrite wrap64_small by (unfold Go.MaxInt in *; lia). lia.
      * rewrite wrap64_small by (unfold Go.MaxInt in *; lia). lia.
    + apply IH; [done|lia].
Qed.

(** The slice only ever grows by copies of the current definition. *)
Lemma inner_loop_defs rd snapshot st :
  cmd.defs (cmd.inner_loop rd snapshot st) =
    cmd.defs st ++ replicate (occurrences (Name rd) snapshot) rd.
Proof.
  revert st. induction snapshot as [|v snapshot IH]; intros st; simpl.
  - by rewrite app_nil_r.
  - unfold cmd.inner_loop in *. simpl. rewrite IH.
    unfold cmd.inner_body. destruct (String.eqb _ _); simpl; [|done].
    by rewrite <- app_assoc.
Qed.

Lemma disambiguate_slice rd cur :
  (cmd.disambiguate rd cur).2 = cur ++ replicate (occurrences (Name rd) cur) rd.
Proof. unfold cmd.disambiguate. simpl. by rewrite inner_loop_defs. Qed.

Lemma disambiguate_name rd cur :
  rd ∈ cur → (Z.of_nat (length cur) ≤ Go.MaxInt)%Z →
  (cmd.disambiguate rd cur).1 =
    suffixed rd (Z.of_nat (occurrences (Name rd) cur) - 1).
Proof.
  intros Hin Hlen. unfold cmd.disambiguate. simpl.
  pose proof (occurrences_le_length (Name rd) cur) as Hle.
  pose proof (occurrences_elem rd cur Hin) as Hge.
  rewrite inner_loop_spec; simpl; [|lia|lia].
  destruct (occurrences (Name rd) cur); [lia|]. f_equal.
Qed.

Lemma import_args_cons_fst rd todo cur :
  (cmd.import_args (rd :: todo) cur).1 =
    ((cmd.disambiguate rd cur).1, ImportID rd)
      :: (cmd.import_args todo (cmd.disambiguate rd cur).2).1.
Proof.
  cbn [cmd.import_args]. destruct (cmd.disambiguate rd cur) as [name cur'].
  cbn [fst snd]. by destruct (cmd.import_args todo cur').
Qed.

Lemma import_args_cons_snd rd todo cur :
  (cmd.import_args (rd :: todo) cur).2 =
    (cmd.import_args todo (cmd.disambiguate rd cur).2).2.
Proof.
  cbn [cmd.import_args]. destruct (cmd.disambiguate rd cur) as [name cur'].
  cbn [fst snd]. by destruct (cmd.import_args todo cur').
Qed.

(** One import invocation per definition of the batch. *)
Lemma import_args_length todo cur :
  length (cmd.import_args todo cur).1 = length todo.
Proof.
  revert cur. induction todo as [|rd todo IH]; intros cur; [done|].
  rewrite import_args_cons_fst. simpl. by rewrite IH.
Qed.

Lemma import_args_final_length todo cur :
  length cur ≤ length (cmd.import_args todo cur).2.
Proof.
  revert cur. induction todo as [|rd todo IH]; intros cur; [done|].
  rewrite import_args_cons_snd. etrans; [|apply IH].
  rewrite disambiguate_slice, length_app. lia.
Qed.

(** Every address has the suffixed form, and its counter is at least
    the number of same-named entries the slice had beforehand. *)
Lemma import_args_shape todo cur id :
  (∀ rd, rd ∈ todo → rd ∈ cur) →
  (Z.of_nat (length (cmd.import_args todo cur).2) ≤ Go.MaxInt)%Z →
  id ∈ (cmd.import_args todo cur).1.*1 →
  ∃ rd c, rd ∈ todo ∧ id = suffixed rd (Z.of_nat c - 1)
          ∧ occurrences (Name rd) cur ≤ c.
Proof.
  revert cur. induction todo as [|rd todo IH]; intros cur Hsub Hmax Hid.
  - simpl in Hid. by apply elem_of_nil in Hid.
  - rewrite import_args_cons_fst in Hid. rewrite import_args_cons_snd in Hmax.
    rewrite fmap_cons in Hid. cbn [fst] in Hid.
    apply elem_of_cons in Hid as [->|Hid].
    + exists rd, (occurrences (Name rd) cur). split; [left|split; [|done]].
      apply disambiguate_name; [apply Hsub; left|].
      pose proof (import_args_final_length todo (cmd.disambiguate rd cur).2) as Hl.
      rewrite disambiguate_slice, length_app in Hl.
      rewrite disambiguate_slice in Hmax. lia.
    + destruct (IH (cmd.disambiguate rd cur).2) as (rd' & c & Hin & -> & Hc);
        [|done|done|].
      { intros rd' Hin. rewrite disambiguate_slice.
        apply elem_of_app. left. apply Hsub. by right. }
      exists rd', c. split; [by right|split; [done|]].
      rewrite disambiguate_slice, occurrences_app in Hc. lia.
Qed.

Lemma suffixed_inj rd rd' (k k' : Z) :
  has_byte "." (Type_ rd) = false → has_byte "." (Type_ rd') = false →
  suffixed rd k = suffixed rd' k' →
  Type_ rd = Type_ rd' ∧ Name rd = Name rd' ∧ k = k'.
Proof.
  unfold suffixed. simpl. intros Hd Hd' E.
  apply split_at_first in E as [HT E]; [|done..].
  injection E as E.
  apply split_at_last in E as [HN E]; [|apply FormatInt_no_underscore..].
  by apply FormatInt_inj in E.
Qed.

Lemma import_args_NoDup todo cur :
  (∀ rd, rd ∈ todo → rd ∈ cur) →
  Forall dot_free todo →
  (Z.of_nat (length (cmd.import_args todo cur).2) ≤ Go.MaxInt)%Z →
  NoDup (cmd.import_args todo cur).1.*1.
Proof.
  revert cur. induction todo as [|rd todo IH]; intros cur Hsub Hdot Hmax.
  - simpl. constructor.
  - apply Forall_cons in Hdot as [Hd Hdot].
    assert (∀ rd', rd' ∈ todo → rd' ∈ (cmd.disambiguate rd cur).2) as Hsub'.
    { intros rd' Hin. rewrite disambiguate_slice.
      apply elem_of_app. left. apply Hsub. by right. }
    pose proof Hmax as Hmax'. rewrite import_args_cons_snd in Hmax'.
    rewrite import_args_cons_fst, fmap_cons. cbn [fst].
    constructor; [|by apply IH].
    intros Hid.
    apply import_args_shape in Hid as (rd' & c & Hin & E & Hc); [|done..].
    pose proof (import_args_final_length todo (cmd.disambiguate rd cur).2) as Hl.
    rewrite disambiguate_slice, length_app in Hl.
    rewrite disambiguate_slice in Hmax'.
    rewrite disambiguate_name in E; [|apply Hsub; left|lia].
    apply suffixed_inj in E as (_ & HN & Hk); [|done|].
    2:{ rewrite Forall_forall in Hdot. by apply Hdot. }
    rewrite disambiguate_slice, occurrences_app, occurrences_replicate in Hc.
    rewrite <- HN, String.eqb_refl in Hc.
    pose proof (occurrences_elem rd cur (Hsub rd ltac:(left))). lia.
Qed.

End Disambiguation.

(* ===================================================================== *)
(** * The serializers: the loop over the keys of a map                    *)
(* ===================================================================== *)

Section ResultMonad.

Context {A B C : Type}.

Lemma bind_Ok (a : A) (f : A → result B) : (Ok a ≫= f) = f a.
Proof. done. Qed.

Lemma bind_Panic (f : A → result B) : (Panic ≫= f) = Panic.
Proof. done. Qed.

Lemma bind_assoc (m : result A) (f : A → result B) (g : B → result C) :
  ((m ≫= f) ≫= g) = (m ≫= λ a, f a ≫= g).
Proof. by destruct m. Qed.

Lemma bind_ret (m : result A) : (m ≫= Ok) = m.
Proof. by destruct m. Qed.

End ResultMonad.

Lemma forEach_app {A S} (body : S → A → result S) (l1 l2 : list A) (s : S) :
  forEach body (l1 ++ l2) s = (forEach body l1 s ≫= forEach body l2).
Proof.
  revert s. induction l1 as [|x l1 IH]; intros s; simpl; [done|].
  destruct (body s x) as [s'|]; simpl; [apply IH|done].
Qed.

Section Serializers.

Context `{Env}.

Implicit Types (m : list (string * value float64)) (sl : list (value float64)).
Implicit Types (v e : value float64) (b : Builder) (lvl : nat).

Lemma stateparser_range_app m1 m2 lvl b :
  stateparser.convertToHCLLine (VMap (m1 ++ m2)) lvl b =
    (stateparser.convertToHCLLine (VMap m1) lvl b
       ≫= stateparser.convertToHCLLine (VMap m2) lvl).
Proof.
  revert b. induction m1 as [|[k v] m1 IH]; intros b; [done|].
  cbn [app stateparser.convertToHCLLine].
  match goal with |- (?x ≫= _) = _ => destruct x as [b'|] end; [|done].
  rewrite !bind_Ok. apply IH.
Qed.

Lemma tfimport_range_app m1 m2 lvl b :
  tfimport.convertToHCLLine (VMap (m1 ++ m2)) lvl b =
    (tfimport.convertToHCLLine (VMap m1) lvl b
       ≫= tfimport.convertToHCLLine (VMap m2) lvl).
Proof.
  revert b. induction m1 as [|[k v] m1 IH]; intros b; [done|].
  cbn [app tfimport.convertToHCLLine].
  match goal with |- (?x ≫= _) = _ => destruct x as [b'|] end; [|done].
  rewrite !bind_Ok. apply IH.
Qed.

(** The element loop writes the elements joined by the separator. *)
Lemma writeElems_concat (fmt : value float64 → string) sep sl b :
  writeElems fmt sep sl b = b +:+ String.concat sep (fmt <$> sl).
Proof.
  revert b. induction sl as [|x sl IH]; intros b.
  - simpl. by rewrite string_app_nil_r.
  - cbn [writeElems]. rewrite IH. unfold WriteString.
    destruct sl as [|y sl]; simpl.
    + by rewrite !string_app_nil_r.
    + by rewrite !string_app_assoc.
Qed.

(** Only a map has keys to serialize: any other input writes nothing. *)
Lemma stateparser_not_map v lvl b :
  (∀ m, v ≠ VMap m) → stateparser.convertToHCLLine v lvl b = Ok b.
Proof. destruct v; intros Hm; try done. by destruct (Hm m). Qed.

Lemma tfimport_not_map v lvl b :
  (∀ m, v ≠ VMap m) → tfimport.convertToHCLLine v lvl b = Ok b.
Proof. destruct v; intros Hm; try done. by destruct (Hm m). Qed.

(** A key with a list of scalars in front of the rest of a map. *)
Lemma stateparser_array_cons k e0 rest m lvl b :
  scalar e0 = true →
  stateparser.convertToHCLLine (VMap ((k, VList (e0 :: rest)) :: m)) lvl b =
    stateparser.convertToHCLLine (VMap m) lvl
      (b +:+ array_line (element_verb e0) ", " k lvl (e0 :: rest)).
Proof.
  intros Hs. destruct e0; try done;
    cbn [stateparser.convertToHCLLine TypeOf element_verb];
    rewrite bind_Ok, writeElems_concat; unfold WriteString, array_line;
    by rewrite !string_app_assoc.
Qed.

Lemma tfimport_array_cons k e0 rest m lvl b :
  scalar e0 = true →
  tfimport.convertToHCLLine (VMap ((k, VList (e0 :: rest)) :: m)) lvl b =
    tfimport.convertToHCLLine (VMap m) lvl
      (b +:+ array_line Sprintf_q "," k lvl (e0 :: rest)).
Proof.
  intros Hs. destruct e0; try done;
    cbn [tfimport.convertToHCLLine TypeOf];
    rewrite bind_Ok, writeElems_concat; unfold WriteString, array_line;
    by rewrite !string_app_assoc.
Qed.

(** A key with a list that starts with a list or a map: one block per
    element, whatever the elements are. *)
Lemma stateparser_blocks_cons k e0 rest m lvl b :
  composite e0 = true →
  stateparser.convertToHCLLine (VMap ((k, VList (e0 :: rest)) :: m)) lvl b =
    (forEach (block stateparser.convertToHCLLine k lvl) (e0 :: rest) b
       ≫= stateparser.convertToHCLLine (VMap m) lvl).
Proof.
  intros Hc.
  assert (∀ sl b,
    (fix blocks (sl : list (value float64)) (builder : Builder) : result Builder :=
       match sl with
       | [] => Ok builder
       | e :: sl' =>
           let builder :=
             WriteString builder
               (ToLower (cat [LF; indent lvl; ToSnakeCase k; " {"; LF])) in
           builder ← stateparser.convertToHCLLine e (S lvl) builder;
           blocks sl' (WriteString builder (cat [indent lvl; "}"; LF]))
       end) sl b = forEach (block stateparser.convertToHCLLine k lvl) sl b) as Hloop.
  { intros sl. induction sl as [|e sl IH]; intros b0; [done|].
    cbn [forEach]. unfold block. cbv zeta.
    destruct (stateparser.convertToHCLLine e (S lvl) _) as [b1|]; [|done].
    rewrite !bind_Ok. apply IH. }
  destruct e0; try done;
    exact (f_equal (λ r, r ≫= stateparser.convertToHCLLine (VMap m) lvl)
             (Hloop (_ :: rest) b)).
Qed.

Lemma tfimport_blocks_cons k e0 rest m lvl b :
  composite e0 = true →
  tfimport.convertToHCLLine (VMap ((k, VList (e0 :: rest)) :: m)) lvl b =
    (forEach (block tfimport.convertToHCLLine k lvl) (e0 :: rest) b
       ≫= tfimport.convertToHCLLine (VMap m) lvl).
Proof.
  intros Hc.
  assert (∀ sl b,
    (fix blocks (sl : list (value float64)) (builder : Builder) : result Builder :=
       match sl with
       | [] => Ok builder
       | e :: sl' =>
           let builder :=
             WriteString builder
               (ToLower (cat [LF; indent lvl; ToSnakeCase k; " {"; LF])) in
           builder ← tfimport.convertToHCLLine e (S lvl) builder;
           blocks sl' (WriteString builder (cat [indent lvl; "}"; LF]))
       end) sl b = forEach (block tfimport.convertToHCLLine k lvl) sl b) as Hloop.
  { intros sl. induction sl as [|e sl IH]; intros b0; [done|].
    cbn [forEach]. unfold block. cbv zeta.
    destruct (tfimport.convertToHCLLine e (S lvl) _) as [b1|]; [|done].
    rewrite !bind_Ok. apply IH. }
  destruct e0; try done;
    exact (f_equal (λ r, r ≫= tfimport.convertToHCLLine (VMap m) lvl)
             (Hloop (_ :: rest) b)).
Qed.

End Serializers.

(* ===================================================================== *)
(** * Steps that only append to the builder                               *)
(* ===================================================================== *)

(** Induction on values, with the hypothesis for the elements of a list
    and for the values of a map. *)
Lemma value_ind_nested {F} (P : value F → Prop) :
  P VNil → (∀ b, P (VBool b)) → (∀ x, P (VNum x)) → (∀ s, P (VStr s)) →
  (∀ sl, Forall P sl → P (VList sl)) →
  (∀ m, Forall (λ kv, P kv.2) m → P (VMap m)) →
  ∀ v, P v.
Proof.
  intros HN HB HX HS HL HM. fix IH 1. intros [|b|x|s|sl|m].
  - exact HN.
  - apply HB.
  - apply HX.
  - apply HS.
  - apply HL. induction sl as [|e sl IHsl]; constructor; [apply IH|exact IHsl].
  - apply HM. induction m as [|[k v] m IHm]; constructor; [apply IH|exact IHm].
Qed.

Section Appends.

Implicit Types (f g : Builder → result Builder) (b : Builder).

Lemma prepend_prepend b t r : prepend b (prepend t r) = prepend (b +:+ t) r.
Proof. destruct r; simpl; [|done]. by rewrite string_app_assoc. Qed.

Lemma prepend_empty r : prepend "" r = r.
Proof. by destruct r. Qed.

Lemma appends_Ok : appends Ok.
Proof. intros b. simpl. by rewrite string_app_nil_r. Qed.

Lemma appends_Panic : appends (λ _, Panic).
Proof. done. Qed.

Lemma appends_write s : appends (λ b, Ok (WriteString b s)).
Proof. done. Qed.

Lemma appends_ext f g : (∀ b, f b = g b) → appends g → appends f.
Proof. intros E Hg b. by rewrite !E. Qed.

Lemma appends_bind f g : appends f → appends g → appends (λ b, f b ≫= g).
Proof.
  intros Hf Hg b. rewrite Hf. destruct (f "") as [t|]; [|done].
  cbn [prepend]. rewrite !bind_Ok. rewrite (Hg (b +:+ t)), (Hg t).
  by rewrite prepend_prepend.
Qed.

Lemma appends_forEach {A} (body : Builder → A → result Builder) (l : list A) :
  (∀ x, x ∈ l → appends (λ b, body b x)) → appends (forEach body l).
Proof.
  induction l as [|x l IH]; intros Hbody.
  - apply appends_Ok.
  - apply (appends_bind (λ b, body b x) (forEach body l)).
    + apply Hbody. left.
    + apply IH. intros y Hy. apply Hbody. by right.
Qed.

(** A step that appends leaves the text in front of it alone. *)
Lemma appends_Ok_inv f b b' :
  appends f → f b = Ok b' → ∃ t, f "" = Ok t ∧ b' = b +:+ t.
Proof.
  intros Hf E. rewrite Hf in E. destruct (f "") as [t|]; [|done].
  injection E as <-. by exists t.
Qed.

End Appends.

Section SerializersAppend.

Context `{Env}.

Implicit Types (m : list (string * value float64)) (sl : list (value float64)).
Implicit Types (v e : value float64) (b : Builder) (lvl : nat).

Lemma stateparser_cons k v m lvl b :
  stateparser.convertToHCLLine (VMap ((k, v) :: m)) lvl b =
    (stateparser.convertToHCLLine (VMap [(k, v)]) lvl b
       ≫= stateparser.convertToHCLLine (VMap m) lvl).
Proof. apply (stateparser_range_app [(k, v)] m). Qed.

Lemma tfimport_cons k v m lvl b :
  tfimport.convertToHCLLine (VMap ((k, v) :: m)) lvl b =
    (tfimport.convertToHCLLine (VMap [(k, v)]) lvl b
       ≫= tfimport.convertToHCLLine (VMap m) lvl).
Proof. apply (tfimport_range_app [(k, v)] m). Qed.

(** A key with a non-empty map in front of the rest of a map. *)
Lemma stateparser_map_cons k vm m lvl b :
  vm ≠ [] →
  stateparser.convertToHCLLine (VMap ((k, VMap vm) :: m)) lvl b =
    (b2 ← stateparser.convertToHCLLine (VMap vm) (S lvl)
            (b +:+ ToLower (cat [LF; indent lvl; ToSnakeCase k; " = {"; LF]));
     stateparser.convertToHCLLine (VMap m) lvl (b2 +:+ cat [indent lvl; "}"; LF])).
Proof.
  intros Hvm. destruct vm as [|kv vm]; [done|].
  transitivity
    ((stateparser.convertToHCLLine (VMap (kv :: vm)) (S lvl)
        (b +:+ ToLower (cat [LF; indent lvl; ToSnakeCase k; " = {"; LF]))
        ≫= λ b2, Ok (b2 +:+ cat [indent lvl; "}"; LF]))
       ≫= stateparser.convertToHCLLine (VMap m) lvl); [reflexivity|].
  by rewrite bind_assoc.
Qed.

(** The steps of one nested block only append, if the serialization of
    the element does. *)
Lemma block_appends conv k lvl e :
  appends (conv e (S lvl)) → appends (λ b, block conv k lvl b e).
Proof.
  intros He. unfold block.
  apply (appends_bind
           (λ b, conv e (S lvl)
                   (WriteString b (ToLower (cat [LF; indent lvl; ToSnakeCase k; " {"; LF]))))
           (λ b, Ok (WriteString b (cat [indent lvl; "}"; LF])))).
  - apply (appends_ext _
             (λ b, Ok (WriteString b (ToLower (cat [LF; indent lvl; ToSnakeCase k; " {"; LF])))
                     ≫= conv e (S lvl))); [done|].
    apply appends_bind; [apply appends_write|exact He].
  - apply appends_write.
Qed.

(** Serializing one key only appends, if serializing its value and the
    elements of its value do. *)
Lemma stateparser_entry_appends k v lvl :
  (∀ l, appends (stateparser.convertToHCLLine v l)) →
  (∀ sl, v = VList sl → Forall (λ e, ∀ l, appends (stateparser.convertToHCLLine e l)) sl) →
  appends (stateparser.convertToHCLLine (VMap [(k, v)]) lvl).
Proof.
  intros Hv Hsl. destruct v as [|x|x|s|sl|vm].
  - by apply (appends_ext _ Ok), appends_Ok.
  - eapply appends_ext; [|apply appends_write]. intros b. reflexivity.
  - eapply appends_ext; [|apply appends_write]. intros b. reflexivity.
  - eapply appends_ext; [|apply appends_write]. intros b. reflexivity.
  - specialize (Hsl sl eq_refl). destruct sl as [|e0 rest].
    { by apply (appends_ext _ Ok), appends_Ok. }
    destruct (composite e0) eqn:Hc.
    + eapply appends_ext.
      { intros b. by apply stateparser_blocks_cons. }
      apply (appends_bind (forEach _ _) (stateparser.convertToHCLLine (VMap []) lvl)).
      * apply appends_forEach. intros e He. apply block_appends.
        rewrite Forall_forall in Hsl. by apply Hsl.
      * apply appends_Ok.
    + destruct (scalar e0) eqn:Hs.
      * eapply appends_ext.
        { intros b. by apply stateparser_array_cons. }
        apply (appends_write (array_line (element_verb e0) ", " k lvl (e0 :: rest))).
      * by destruct e0.
  - destruct vm as [|kv vm].
    { by apply (appends_ext _ Ok), appends_Ok. }
    eapply appends_ext.
    { intros b. by apply stateparser_map_cons. }
    apply (appends_bind
             (λ b, stateparser.convertToHCLLine (VMap (kv :: vm)) (S lvl)
                     (b +:+ ToLower (cat [LF; indent lvl; ToSnakeCase k; " = {"; LF])))
             (λ b2, Ok (WriteString b2 (cat [indent lvl; "}"; LF])))).
    + apply (appends_ext _
               (λ b, Ok (WriteString b (ToLower (cat [LF; indent lvl; ToSnakeCase k; " = {"; LF])))
                       ≫= stateparser.convertToHCLLine (VMap (kv :: vm)) (S lvl))); [done|].
      apply appends_bind; [apply appends_write|apply Hv].
    + apply appends_write.
Qed.

Lemma tfimport_entry_appends k v lvl :
  (∀ sl, v = VList sl → Forall (λ e, ∀ l, appends (tfimport.convertToHCLLine e l)) sl) →
  appends (tfimport.convertToHCLLine (VMap [(k, v)]) lvl).
Proof.
  intros Hsl. destruct v as [|x|x|s|sl|vm].
  - by apply (appends_ext _ (λ _, Panic)).
  - eapply appends_ext; [|apply appends_write]. intros b. reflexivity.
  - eapply appends_ext; [|apply appends_write]. intros b. reflexivity.
  - eapply appends_ext; [|apply appends_write]. intros b. reflexivity.
  - specialize (Hsl sl eq_refl). destruct sl as [|e0 rest].
    { by apply (appends_ext _ Ok), appends_Ok. }
    destruct (composite e0) eqn:Hc.
    + eapply appends_ext.
      { intros b. by apply tfimport_blocks_cons. }
      apply (appends_bind (forEach _ _) (tfimport.convertToHCLLine (VMap []) lvl)).
      * apply appends_forEach. intros e He. apply block_appends.
        rewrite Forall_forall in Hsl. by apply Hsl.
      * apply appends_Ok.
    + destruct (scalar e0) eqn:Hs.
      * eapply appends_ext.
        { intros b. by apply tfimport_array_cons. }
        apply (appends_write (array_line Sprintf_q "," k lvl (e0 :: rest))).
      * by destruct e0.
  - by apply (appends_ext _ Ok), appends_Ok.
Qed.

(** Both serializers only append to the builder they are given. *)
Lemma stateparser_appends v lvl : appends (stateparser.convertToHCLLine v lvl).
Proof.
  revert lvl.
  cut ((∀ l, appends (stateparser.convertToHCLLine v l))
       ∧ (∀ sl, v = VList sl →
                Forall (λ e, ∀ l, appends (stateparser.convertToHCLLine e l)) sl)).
  { by intros [? _]. }
  induction v as [|x|x|s|sl IH|m IH] using value_ind_nested; split;
    try (intros sl' [=]);
    try (intros l; by apply (appends_ext _ Ok), appends_Ok).
  - subst sl'. eapply Forall_impl; [exact IH|]. by intros e [? _].
  - intros l. induction m as [|[k v] m IHm].
    { by apply (appends_ext _ Ok), appends_Ok. }
    apply Forall_cons in IH as [[Hv Hsl] IH].
    eapply appends_ext; [intros b; apply stateparser_cons|].
    apply appends_bind; [by apply stateparser_entry_appends|by apply IHm].
Qed.

Lemma tfimport_appends v lvl : appends (tfimport.convertToHCLLine v lvl).
Proof.
  revert lvl.
  cut ((∀ l, appends (tfimport.convertToHCLLine v l))
       ∧ (∀ sl, v = VList sl →
                Forall (λ e, ∀ l, appends (tfimport.convertToHCLLine e l)) sl)).
  { by intros [? _]. }
  induction v as [|x|x|s|sl IH|m IH] using value_ind_nested; split;
    try (intros sl' [=]);
    try (intros l; by apply (appends_ext _ Ok), appends_Ok).
  - subst sl'. eapply Forall_impl; [exact IH|]. by intros e [? _].
  - intros l. induction m as [|[k v] m IHm].
    { by apply (appends_ext _ Ok), appends_Ok. }
    apply Forall_cons in IH as [[Hv Hsl] IH].
    eapply appends_ext; [intros b; apply tfimport_cons|].
    apply appends_bind; [by apply tfimport_entry_appends|by apply IHm].
Qed.

End SerializersAppend.

Section SerializerClaims.

Context `{Env}.

Implicit Types (m : list (string * value float64)) (sl : list (value float64)).
Implicit Types (v e : value float64) (b : Builder) (lvl : nat).

(** A key of the [stateparser] serializer whose value is null, an empty
    list or an empty map leaves no trace: the output is that of the map
    without the key. *)
Lemma stateparser_elides m1 k v m2 lvl b :
  v = VNil ∨ v = VList [] ∨ v = VMap [] →
  stateparser.convertToHCLLine (VMap (m1 ++ (k, v) :: m2)) lvl b =
    stateparser.convertToHCLLine (VMap (m1 ++ m2)) lvl b.
Proof.
  intros Hv. rewrite !stateparser_range_app. f_equal.
  by destruct Hv as [->|[->| ->]].
Qed.

(** The [tfimport] serializer drops empty lists and every map. *)
Lemma tfimport_elides m1 k v m2 lvl b :
  v = VList [] ∨ (∃ vm, v = VMap vm) →
  tfimport.convertToHCLLine (VMap (m1 ++ (k, v) :: m2)) lvl b =
    tfimport.convertToHCLLine (VMap (m1 ++ m2)) lvl b.
Proof.
  intros Hv. rewrite !tfimport_range_app. f_equal.
  by destruct Hv as [->|[vm ->]].
Qed.

(** It has no nil check: a null value stops the run with a panic, as
    soon as the keys in front of it are written. *)
Lemma tfimport_nil_panics m1 k m2 lvl b b1 :
  tfimport.convertToHCLLine (VMap m1) lvl b = Ok b1 →
  tfimport.convertToHCLLine (VMap (m1 ++ (k, VNil) :: m2)) lvl b = Panic.
Proof. intros H1. by rewrite tfimport_range_app, H1. Qed.

(** A list that starts with null panics in both serializers. *)
Lemma nil_first_panics k rest m lvl b :
  stateparser.convertToHCLLine (VMap ((k, VList (VNil :: rest)) :: m)) lvl b = Panic
  ∧ tfimport.convertToHCLLine (VMap ((k, VList (VNil :: rest)) :: m)) lvl b = Panic.
Proof. done. Qed.

(** An element that is not a map gets a block with an empty body. *)
Lemma block_not_map conv k lvl b e :
  (∀ v l b, (∀ m, v ≠ VMap m) → conv v l b = Ok b) →
  (∀ m, e ≠ VMap m) →
  block conv k lvl b e =
    Ok (b +:+ ToLower (cat [LF; indent lvl; ToSnakeCase k; " {"; LF])
          +:+ cat [indent lvl; "}"; LF]).
Proof.
  intros Hconv He. unfold block. rewrite Hconv by done.
  rewrite bind_Ok. unfold WriteString. by rewrite string_app_assoc.
Qed.

End SerializerClaims.

(* ===================================================================== *)
(** * The serializers: statements about single keys                       *)
(* ===================================================================== *)

(** C4 (the code departs from the claim). The [tfimport] serializer has
    no nil check, unlike its [stateparser] sibling: on the map
    [{"a": null, "b": "x"}] it panics in [reflect.TypeOf(v).Kind()]
    instead of omitting [a] and writing [b], which is what the sibling
    does on the same input. *)
Theorem tfimport_null_value_panics :
  tfimport.convertToHCLLine (VMap [("a", VNil); ("b", VStr "x")]) 1 "" = Panic
  ∧ stateparser.convertToHCLLine (VMap [("a", VNil); ("b", VStr "x")]) 1 ""
    = Ok (cat [TAB; "b = "; QUOTE; "x"; QUOTE; LF]).
Proof. split; vm_compute; reflexivity. Qed.

(** C5, as the code has it. A key whose value is a non-empty list of
    strings is written as one line [key = [e1, e2, ...]], each element
    rendered with [%q], which quotes it. The [stateparser] serializer
    separates the elements by comma-space, the [tfimport] serializer by
    a bare comma. A non-empty list of numbers is written by the
    [stateparser] serializer in the same way, each number rendered with
    [%0.f]. *)
Theorem list_of_scalars_line `{Env} (m1 m2 : list (string * value float64))
    (k : string) (s0 : string) (ss : list string)
    (x0 : float64) (xs : list float64) (lvl : nat) (b : Builder) :
  stateparser.convertToHCLLine
    (VMap (m1 ++ (k, VList (VStr <$> s0 :: ss)) :: m2)) lvl b =
    (b1 ← stateparser.convertToHCLLine (VMap m1) lvl b;
     stateparser.convertToHCLLine (VMap m2) lvl
       (b1 +:+ array_line Sprintf_q ", " k lvl (VStr <$> s0 :: ss)))
  ∧ tfimport.convertToHCLLine
      (VMap (m1 ++ (k, VList (VStr <$> s0 :: ss)) :: m2)) lvl b =
    (b1 ← tfimport.convertToHCLLine (VMap m1) lvl b;
     tfimport.convertToHCLLine (VMap m2) lvl
       (b1 +:+ array_line Sprintf_q "," k lvl (VStr <$> s0 :: ss)))
  ∧ stateparser.convertToHCLLine
      (VMap (m1 ++ (k, VList (VNum <$> x0 :: xs)) :: m2)) lvl b =
    (b1 ← stateparser.convertToHCLLine (VMap m1) lvl b;
     stateparser.convertToHCLLine (VMap m2) lvl
       (b1 +:+ array_line Sprintf_0f ", " k lvl (VNum <$> x0 :: xs))).
Proof.
  split; [|split].
  - rewrite stateparser_range_app.
    destruct (stateparser.convertToHCLLine (VMap m1) lvl b) as [b1|]; [|done].
    rewrite !bind_Ok. by apply (stateparser_array_cons k (VStr s0)).
  - rewrite tfimport_range_app.
    destruct (tfimport.convertToHCLLine (VMap m1) lvl b) as [b1|]; [|done].
    rewrite !bind_Ok. by apply (tfimport_array_cons k (VStr s0)).
  - rewrite stateparser_range_app.
    destruct (stateparser.convertToHCLLine (VMap m1) lvl b) as [b1|]; [|done].
    rewrite !bind_Ok. by apply (stateparser_array_cons k (VNum x0)).
Qed.

(** C5 fails as stated. The [tfimport] serializer writes
    [roles = ["a","b"]], with no space after the comma; and in the
    [stateparser] serializer a list that starts with a number renders a
    later string with [%0.f], unquoted. *)
Lemma list_of_scalars_counterexample :
  tfimport.convertToHCLLine (VMap [("Roles", VList [VStr "a"; VStr "b"])]) 1 ""
    = Ok (cat [TAB; "roles = ["; QUOTE; "a"; QUOTE; ","; QUOTE; "b"; QUOTE; "]"; LF])
  ∧ tfimport.convertToHCLLine (VMap [("Roles", VList [VStr "a"; VStr "b"])]) 1 ""
    ≠ Ok (array_line Sprintf_q ", " "Roles" 1 [VStr "a"; VStr "b"])
  ∧ stateparser.convertToHCLLine (VMap [("n", VList [VNum 1%Z; VStr "a"])]) 1 ""
    = Ok (cat [TAB; "n = [1, %!f(string=a)]"; LF]).
Proof. split; [|split]; vm_compute; congruence. Qed.



(** C7, as the code has it. In the [stateparser] serializer a key whose
    value is a non-empty map is written as a header line with the key
    and [= {] (after an empty line, the whole header in lower case), the
    serialization of the map one level deeper, and the closing brace.
    The [tfimport] serializer has no case for maps: the key ends in its
    default branch and nothing is written for it. *)
Theorem nested_map_block `{Env} (m1 m2 vm : list (string * value float64))
    (k : string) (lvl : nat) (b : Builder) :
  vm ≠ [] →
  stateparser.convertToHCLLine (VMap (m1 ++ (k, VMap vm) :: m2)) lvl b =
    (b1 ← stateparser.convertToHCLLine (VMap m1) lvl b;
     b2 ← stateparser.convertToHCLLine (VMap vm) (S lvl)
            (b1 +:+ ToLower (cat [LF; indent lvl; ToSnakeCase k; " = {"; LF]));
     stateparser.convertToHCLLine (VMap m2) lvl (b2 +:+ cat [indent lvl; "}"; LF]))
  ∧ tfimport.convertToHCLLine (VMap (m1 ++ (k, VMap vm) :: m2)) lvl b =
    tfimport.convertToHCLLine (VMap (m1 ++ m2)) lvl b.
Proof.
  intros Hvm. split.
  - rewrite stateparser_range_app.
    destruct (stateparser.convertToHCLLine (VMap m1) lvl b) as [b1|]; [|done].
    rewrite !bind_Ok. destruct vm as [|kv vm]; [done|].
    transitivity
      ((stateparser.convertToHCLLine (VMap (kv :: vm)) (S lvl)
          (b1 +:+ ToLower (cat [LF; indent lvl; ToSnakeCase k; " = {"; LF]))
          ≫= λ b2, Ok (b2 +:+ cat [indent lvl; "}"; LF]))
         ≫= stateparser.convertToHCLLine (VMap m2) lvl); [reflexivity|].
    by rewrite bind_assoc.
  - apply tfimport_elides. right. by exists vm.
Qed.

(** The statement on the map [{"a": {"b": "c"}}]. *)
Lemma nested_map_block_witness :
  [("b", VStr "c" : value Z)] ≠ []
  ∧ stateparser.convertToHCLLine (VMap [("a", VMap [("b", VStr "c")])]) 1 ""
    = Ok (cat [LF; TAB; "a = {"; LF; TAB; TAB; "b = "; QUOTE; "c"; QUOTE; LF;
               TAB; "}"; LF])
  ∧ tfimport.convertToHCLLine (VMap [("a", VMap [("b", VStr "c")])]) 1 "" = Ok "".
Proof.
  assert ([("b", VStr "c" : value Z)] ≠ []) as Hne by discriminate.
  split; [exact Hne|].
  exact (nested_map_block (H := Model.env) [] [] [("b", VStr "c")] "a" 1 "" Hne).
Defined.

(** C7 fails as stated: the [tfimport] serializer writes nothing for a
    key whose value is a non-empty map. *)
Lemma nested_map_counterexample :
  tfimport.convertToHCLLine (VMap [("a", VMap [("b", VStr "c")])]) 1 "" = Ok "".
Proof. reflexivity. Qed.

(** C10, as the code has it. For a non-empty list whose first element is
    not null, the rendering is chosen by the kind of the first element
    alone. If it is a list or a map, every element gets a nested block;
    otherwise the list is written as an array literal. On the block
    path an element that is not a map (a scalar, null or a list) has an
    empty body, but its header line and closing brace are written. *)
Theorem list_rendering_by_first_element `{Env}
    (m1 m2 : list (string * value float64)) (k : string) (e0 : value float64)
    (rest : list (value float64)) (lvl : nat) (b : Builder) :
  e0 ≠ VNil →
  (if composite e0 then
     stateparser.convertToHCLLine (VMap (m1 ++ (k, VList (e0 :: rest)) :: m2)) lvl b =
       (b1 ← stateparser.convertToHCLLine (VMap m1) lvl b;
        b2 ← forEach (block stateparser.convertToHCLLine k lvl) (e0 :: rest) b1;
        stateparser.convertToHCLLine (VMap m2) lvl b2)
     ∧ tfimport.convertToHCLLine (VMap (m1 ++ (k, VList (e0 :: rest)) :: m2)) lvl b =
       (b1 ← tfimport.convertToHCLLine (VMap m1) lvl b;
        b2 ← forEach (block tfimport.convertToHCLLine k lvl) (e0 :: rest) b1;
        tfimport.convertToHCLLine (VMap m2) lvl b2)
   else
     stateparser.convertToHCLLine (VMap (m1 ++ (k, VList (e0 :: rest)) :: m2)) lvl b =
       (b1 ← stateparser.convertToHCLLine (VMap m1) lvl b;
        stateparser.convertToHCLLine (VMap m2) lvl
          (b1 +:+ array_line (element_verb e0) ", " k lvl (e0 :: rest)))
     ∧ tfimport.convertToHCLLine (VMap (m1 ++ (k, VList (e0 :: rest)) :: m2)) lvl b =
       (b1 ← tfimport.convertToHCLLine (VMap m1) lvl b;
        tfimport.convertToHCLLine (VMap m2) lvl
          (b1 +:+ array_line Sprintf_q "," k lvl (e0 :: rest))))
  ∧ (∀ (e : value float64) (b' : Builder),
       (∀ m, e ≠ VMap m) →
       block stateparser.convertToHCLLine k lvl b' e =
         Ok (b' +:+ ToLower (cat [LF; indent lvl; ToSnakeCase k; " {"; LF])
               +:+ cat [indent lvl; "}"; LF])
       ∧ block tfimport.convertToHCLLine k lvl b' e =
         Ok (b' +:+ ToLower (cat [LF; indent lvl; ToSnakeCase k; " {"; LF])
               +:+ cat [indent lvl; "}"; LF])).
Proof.
  intros Hnil. split.
  - destruct (composite e0) eqn:Hc.
    + split.
      * rewrite stateparser_range_app.
        destruct (stateparser.convertToHCLLine (VMap m1) lvl b) as [b1|]; [|done].
        rewrite !bind_Ok. by apply stateparser_blocks_cons.
      * rewrite tfimport_range_app.
        destruct (tfimport.convertToHCLLine (VMap m1) lvl b) as [b1|]; [|done].
        rewrite !bind_Ok. by apply tfimport_blocks_cons.
    + assert (scalar e0 = true) as Hs by (by destruct e0).
      split.
      * rewrite stateparser_range_app.
        destruct (stateparser.convertToHCLLine (VMap m1) lvl b) as [b1|]; [|done].
        rewrite !bind_Ok. by apply stateparser_array_cons.
      * rewrite tfimport_range_app.
        destruct (tfimport.convertToHCLLine (VMap m1) lvl b) as [b1|]; [|done].
        rewrite !bind_Ok. by apply tfimport_array_cons.
  - intros e b' He. split; apply block_not_map; try done.
    + intros. by apply stateparser_not_map.
    + intros. by apply tfimport_not_map.
Qed.

(** The statement on the map [{"k": [{"a": "b"}, "s"]}]. *)
Lemma list_rendering_by_first_element_witness :
  (VMap [("a", VStr "b")] : value Z) ≠ VNil
  ∧ stateparser.convertToHCLLine
      (VMap [("k", VList [VMap [("a", VStr "b")]; VStr "s"])]) 1 ""
    = Ok (cat [LF; TAB; "k {"; LF; TAB; TAB; "a = "; QUOTE; "b"; QUOTE; LF; TAB; "}"; LF;
               LF; TAB; "k {"; LF; TAB; "}"; LF]).
Proof.
  assert ((VMap [("a", VStr "b")] : value Z) ≠ VNil) as Hne by discriminate.
  split; [exact Hne|].
  exact (proj1 (proj1 (list_rendering_by_first_element (H := Model.env) [] [] "k"
                         (VMap [("a", VStr "b")]) [VStr "s"] 1 "" Hne))).
Defined.

(** C10 fails as stated. A scalar on the block path is not silent: its
    empty block is written, so the output with the element differs from
    the output without it. And a list that starts with null selects
    neither rendering: the serializer panics. *)
Lemma list_rendering_counterexample :
  stateparser.convertToHCLLine
    (VMap [("k", VList [VMap [("a", VStr "b")]; VStr "s"])]) 1 ""
    = Ok (cat [LF; TAB; "k {"; LF; TAB; TAB; "a = "; QUOTE; "b"; QUOTE; LF; TAB; "}"; LF;
               LF; TAB; "k {"; LF; TAB; "}"; LF])
  ∧ stateparser.convertToHCLLine
      (VMap [("k", VList [VMap [("a", VStr "b")]; VStr "s"])]) 1 ""
    ≠ stateparser.convertToHCLLine
        (VMap [("k", VList [VMap [("a", VStr "b")]])]) 1 ""
  ∧ tfimport.convertToHCLLine
      (VMap [("k", VList [VMap [("a", VStr "b")]; VStr "s"])]) 1 ""
    ≠ tfimport.convertToHCLLine
        (VMap [("k", VList [VMap [("a", VStr "b")]])]) 1 ""
  ∧ stateparser.convertToHCLLine (VMap [("k", VList [VNil; VStr "s"])]) 1 "" = Panic
  ∧ tfimport.convertToHCLLine (VMap [("k", VList [VNil; VStr "s"])]) 1 "" = Panic.
Proof. repeat split; vm_compute; congruence. Qed.

(* ===================================================================== *)
(** * The import loop: distinct identities                                *)
(* ===================================================================== *)

(** C1, as the code has it. For every batch whose resource types
    contain no dot, and whose working slice stays within the largest
    slice length, the identities handed to the importer are pairwise
    distinct and there is exactly one per definition of the batch; in
    particular the batch of two definitions [{Type: "app", Name: "x"}]
    yields two distinct identities. *)
Theorem disambiguation_identities (batch : list ResourceDefinition) :
  Forall dot_free batch →
  (Z.of_nat (length (cmd.final_slice batch)) ≤ Go.MaxInt)%Z →
  NoDup (cmd.identities batch)
  ∧ length (cmd.identities batch) = length batch
  ∧ (∀ p1 i1 p2 i2, ∃ first second,
       cmd.identities [mkResourceDefinition "app" "x" p1 i1;
                       mkResourceDefinition "app" "x" p2 i2]
       = [first; second] ∧ first ≠ second).
Proof.
  intros Hdot Hmax. split; [|split].
  - by apply import_args_NoDup.
  - unfold cmd.identities. by rewrite length_fmap, import_args_length.
  - intros p1 i1 p2 i2. by exists "app._x_1", "app._x_3".
Qed.

(** The statement on a batch with two definitions of one name. *)
Lemma disambiguation_identities_witness :
  Forall dot_free [mkResourceDefinition "app" "x" "onelogin" "1";
                   mkResourceDefinition "app" "x" "onelogin" "2";
                   mkResourceDefinition "app" "y" "onelogin" "3"]
  ∧ NoDup (cmd.identities [mkResourceDefinition "app" "x" "onelogin" "1";
                           mkResourceDefinition "app" "x" "onelogin" "2";
                           mkResourceDefinition "app" "y" "onelogin" "3"]).
Proof.
  assert (Forall dot_free [mkResourceDefinition "app" "x" "onelogin" "1";
                           mkResourceDefinition "app" "x" "onelogin" "2";
                           mkResourceDefinition "app" "y" "onelogin" "3"]) as Hdot.
  { repeat constructor. }
  split; [exact Hdot|].
  apply (disambiguation_identities _ Hdot). vm_compute. discriminate.
Defined.

(** C1 fails as stated. The two definitions named [x] get the
    identities [app._x_1] and [app._x_3], not [x] and [_x_0]; and two
    definitions whose types contain a dot can end up with one and the
    same identity. *)
Lemma disambiguation_counterexample :
  cmd.identities [mkResourceDefinition "app" "x" "onelogin" "1";
                  mkResourceDefinition "app" "x" "onelogin" "2"]
    = ["app._x_1"; "app._x_3"]
  ∧ cmd.identities [mkResourceDefinition "app" "x" "onelogin" "1";
                    mkResourceDefinition "app" "x" "onelogin" "2"]
    ≠ ["app.x"; "app._x_0"]
  ∧ ¬ NoDup (cmd.identities [mkResourceDefinition "a" "b._c" "onelogin" "1";
                             mkResourceDefinition "a._b" "c" "onelogin" "2"]).
Proof.
  split; [reflexivity|]. split; [vm_compute; congruence|].
  vm_compute. intros Hnd. apply NoDup_cons in Hnd as [Hnotin _].
  apply Hnotin. left.
Qed.

(* ===================================================================== *)
(** * The handle of main.tf                                               *)
(* ===================================================================== *)

Section Handle.

Context `{Env}.

(** When every import succeeds the loop runs to its end and invokes the
    importer once per definition, with the disambiguated identities. *)
Lemma import_loop_all_ok (w : World) todo cur :
  (∀ name id, import_ok w name id = true) →
  cmd.import_loop w todo cur = (import_events (cmd.import_args todo cur).1, true).
Proof.
  intros Hok. revert cur. induction todo as [|rd todo IH]; intros cur; [done|].
  rewrite import_args_cons_fst. cbn [cmd.import_loop].
  destruct (cmd.disambiguate rd cur) as [name cur'] eqn:Ed.
  rewrite Hok, IH. done.
Qed.

(** A failing import ends the run inside the loop, which never closes
    the file. *)
Lemma import_loop_no_close (w : World) todo cur :
  Close ∉ (cmd.import_loop w todo cur).1.
Proof.
  revert cur. induction todo as [|rd todo IH]; intros cur; cbn [cmd.import_loop].
  - simpl. by intros ?%elem_of_nil.
  - destruct (cmd.disambiguate rd cur) as [name cur'].
    destruct (import_ok w name (ImportID rd)).
    + specialize (IH cur'). destruct (cmd.import_loop w todo cur') as [t done'].
      simpl in *. intros [?|?]%elem_of_cons; [done|by apply IH].
    + simpl. intros Hin. repeat (apply elem_of_cons in Hin as [?|Hin]; [done|]).
      by apply elem_of_nil in Hin.
Qed.

(** Every run of [tfImport] in which no import fails and the final
    conversion does not panic closes the file. *)
Lemma tfImport_releases_otherwise (w : World) (autoApprove : bool) :
  (∀ name id, import_ok w name id = true) →
  (∀ state, tfstate w = Decoded state →
            stateparser.ConvertTFStateToHCL state ≠ Panic) →
  released (cmd.tfImport w autoApprove).
Proof.
  intros Hok Hconv Hopen. unfold cmd.tfImport in *.
  destruct (open_ok w); cbn [negb] in *.
  2:{ apply list_elem_of_singleton in Hopen. discriminate. }
  clear Hopen. apply elem_of_cons. right.
  destruct (tfimport.filterExistingDefinitions _ _) as [news provs].
  destruct (length news =? 0); [set_solver|].
  destruct (negb autoApprove && _); [set_solver|].
  destruct (headers_ok w); cbn [negb]; [|set_solver].
  do 2 (apply elem_of_cons; right).
  destruct (init_ok w); cbn [negb]; [|set_solver].
  rewrite import_loop_all_ok by done. cbn [negb].
  apply elem_of_app. right.
  destruct (tfstate w) as [| |state] eqn:Est; [set_solver..|].
  specialize (Hconv state eq_refl).
  destruct (stateparser.ConvertTFStateToHCL state) as [buffer|]; [|done].
  destruct (final_write_ok w); set_solver.
Qed.

End Handle.

(** C9 (the code departs from the claim). When a [terraform import]
    invocation fails, both command functions end in [log.Fatal] inside
    the import loop without closing main.tf: the run opens the file,
    writes the headers, runs [terraform init] and the import, and exits
    with status 1. Every other fatal path of [tfImport] closes the file
    first. *)
Theorem import_failure_leaves_file_open :
  cmd.tfImport import_fails false
    = [Open;
       Write (tfimport.createHCLDefinitionsBuffer (remote import_fails) ["onelogin"]);
       Exec ["terraform"; "init"];
       Exec ["terraform"; "import"; "onelogin_apps._x-1_0"; "1"];
       Exit 1]
  ∧ ¬ released (cmd.tfImport import_fails false)
  ∧ tfimport.ImportTFStateFromRemote import_fails
    = [Open;
       Write (tfimport.createHCLDefinitionsBuffer (remote import_fails) ["onelogin"]);
       Exec ["terraform"; "init"];
       Exec ["terraform"; "import"; "onelogin_apps.x-1"; "1"];
       Exit 1]
  ∧ ¬ released (tfimport.ImportTFStateFromRemote import_fails).
Proof.
  assert (cmd.tfImport import_fails false
    = [Open;
       Write (tfimport.createHCLDefinitionsBuffer (remote import_fails) ["onelogin"]);
       Exec ["terraform"; "init"];
       Exec ["terraform"; "import"; "onelogin_apps._x-1_0"; "1"];
       Exit 1]) as E1 by (vm_compute; reflexivity).
  assert (tfimport.ImportTFStateFromRemote import_fails
    = [Open;
       Write (tfimport.createHCLDefinitionsBuffer (remote import_fails) ["onelogin"]);
       Exec ["terraform"; "init"];
       Exec ["terraform"; "import"; "onelogin_apps.x-1"; "1"];
       Exit 1]) as E2 by (vm_compute; reflexivity).
  split; [exact E1|]. split; [|split; [exact E2|]].
  - rewrite E1. unfold released. intros Hr.
    specialize (Hr ltac:(left)).
    repeat (apply elem_of_cons in Hr as [?|Hr]; [discriminate|]).
    by apply elem_of_nil in Hr.
  - rewrite E2. unfold released. intros Hr.
    specialize (Hr ltac:(left)).
    repeat (apply elem_of_cons in Hr as [?|Hr]; [discriminate|]).
    by apply elem_of_nil in Hr.
Qed.

(* ===================================================================== *)
(** * The reconciliation filter                                           *)
(* ===================================================================== *)

Section Filter.

Implicit Types (rd : ResourceDefinition) (defs : list ResourceDefinition).

Lemma elem_of_List_filter {A} (f : A → bool) (l : list A) (x : A) :
  x ∈ List.filter f l ↔ x ∈ l ∧ f x = true.
Proof. rewrite !list_elem_of_In. apply filter_In. Qed.

(** The providers counted by the first loop: those of all definitions
    of the batch, surviving or not. *)
Lemma count_providers_fold defs (acc : gmap string nat) p :
  is_Some (fold_left (λ providerMap rd,
                        <[Provider rd := S (default 0 (providerMap !! Provider rd))]>
                          providerMap) defs acc !! p)
  ↔ is_Some (acc !! p) ∨ ∃ rd, rd ∈ defs ∧ Provider rd = p.
Proof.
  revert acc. induction defs as [|rd defs IH]; intros acc; simpl.
  - split; [by left|]. intros [?|(rd & Hin & _)]; [done|].
    by apply elem_of_nil in Hin.
  - rewrite IH. split.
    + intros [Hs|(rd' & Hin & E)].
      * destruct (decide (Provider rd = p)) as [E|E].
        -- right. exists rd. split; [left|done].
        -- rewrite lookup_insert_ne in Hs by done. by left.
      * right. exists rd'. split; [by right|done].
    + intros [Hs|(rd' & Hin & E)].
      * left. destruct (decide (Provider rd = p)) as [->|E].
        -- rewrite lookup_insert_eq. by eexists.
        -- by rewrite lookup_insert_ne.
      * apply elem_of_cons in Hin as [->|Hin].
        -- left. rewrite E, lookup_insert_eq. by eexists.
        -- right. by exists rd'.
Qed.

Lemma count_providers_dom defs p :
  p ∈ (map_to_list (tfimport.count_providers defs)).*1
  ↔ ∃ rd, rd ∈ defs ∧ Provider rd = p.
Proof.
  unfold tfimport.count_providers. split.
  - intros ((p' & n) & -> & Hin)%list_elem_of_fmap.
    apply elem_of_map_to_list in Hin.
    assert (is_Some (fold_left (λ providerMap rd,
                        <[Provider rd := S (default 0 (providerMap !! Provider rd))]>
                          providerMap) defs (∅ : gmap string nat) !! p')) as Hs by (by eexists).
    apply count_providers_fold in Hs as [[? Hs]|Hs]; [|done].
    by rewrite lookup_empty in Hs.
  - intros Hex.
    assert (is_Some (fold_left (λ providerMap rd,
                        <[Provider rd := S (default 0 (providerMap !! Provider rd))]>
                          providerMap) defs (∅ : gmap string nat) !! p)) as [n Hn].
    { apply count_providers_fold. by right. }
    apply list_elem_of_fmap. exists (p, n). split; [done|].
    by apply elem_of_map_to_list.
Qed.

End Filter.

(** C3, as the code has it. The filter returns the definitions whose
    [Type.Name] the scan of the file has not found; and it returns,
    without repetition, the providers that are referenced by any
    definition of the incoming batch, filtered out or not, and that the
    scan has not found declared. *)
Theorem filter_providers_of_whole_batch (f : string)
    (defs : list ResourceDefinition) :
  (∀ rd, rd ∈ (tfimport.filterExistingDefinitions f defs).1
         ↔ rd ∈ defs
           ∧ tfimport.count (tfimport.scan_file f) "resource"
               (Type_ rd +:+ "." +:+ Name rd) = 0)
  ∧ NoDup (tfimport.filterExistingDefinitions f defs).2
  ∧ (∀ p, p ∈ (tfimport.filterExistingDefinitions f defs).2
          ↔ (∃ rd, rd ∈ defs ∧ Provider rd = p)
            ∧ tfimport.count (tfimport.scan_file f) "provider" p = 0).
Proof.
  unfold tfimport.filterExistingDefinitions. cbn [fst snd]. split; [|split].
  - intros rd. rewrite elem_of_List_filter. by rewrite Nat.eqb_eq.
  - apply NoDup_ListNoDup, List.NoDup_filter, NoDup_ListNoDup, NoDup_fst_map_to_list.
  - intros p. rewrite elem_of_List_filter, count_providers_dom.
    by rewrite Nat.eqb_eq.
Qed.

(** C3 fails as stated. With a file that declares the resource [app.x]
    but no provider, the only incoming definition is filtered out as
    already declared, and its provider is returned all the same. *)
Lemma filter_providers_counterexample :
  tfimport.filterExistingDefinitions (cat ["resource app x {"; LF; "}"; LF])
    [mkResourceDefinition "app" "x" "onelogin" "1"]
  = ([], ["onelogin"]).
Proof. vm_compute. reflexivity. Qed.

(* ===================================================================== *)
(** * The converters: trailing content                                    *)
(* ===================================================================== *)

Section Converters.

Context `{Env}.

Implicit Types (r : stateparser.StateResource) (b : Builder).
Implicit Types (pre post rs : list stateparser.StateResource).

Lemma stateparser_instance_appends r i :
  appends (λ b, stateparser.instance_body r b i).
Proof.
  unfold stateparser.instance_body.
  apply (appends_bind
           (λ b, stateparser.convertToHCLLine
                   (HCLShape (stateparser.Type_ r) (stateparser.Data i)) 1
                   (WriteString b (cat ["resource "; stateparser.Type_ r; " ";
                                        stateparser.Name r; " {"; LF])))
           (λ b, Ok (WriteString b (cat ["}"; LF; LF])))); [|apply appends_write].
  apply (appends_ext _
           (λ b, Ok (WriteString b (cat ["resource "; stateparser.Type_ r; " ";
                                         stateparser.Name r; " {"; LF]))
                   ≫= stateparser.convertToHCLLine
                        (HCLShape (stateparser.Type_ r) (stateparser.Data i)) 1));
    [done|].
  apply appends_bind; [apply appends_write|apply stateparser_appends].
Qed.

Lemma stateparser_resource_appends r :
  appends (λ b, stateparser.resource_body b r).
Proof.
  unfold stateparser.resource_body.
  apply (appends_bind (forEach _ _)
           (λ b, Ok (WriteString b (stateparser.Content r)))); [|apply appends_write].
  apply appends_forEach. intros i _. apply stateparser_instance_appends.
Qed.

(** The trailing content is the last thing written for a resource. *)
Lemma stateparser_resource_content r b :
  stateparser.resource_body b r =
    (b' ← stateparser.resource_body b (without_content r);
     Ok (b' +:+ stateparser.Content r)).
Proof.
  unfold stateparser.resource_body, without_content. cbn.
  destruct (forEach _ _ b) as [b'|]; [|done].
  rewrite !bind_Ok. unfold WriteString. by rewrite string_app_nil_r.
Qed.

Lemma tfimport_instance_appends r pd i :
  appends (λ b, tfimport.instance_body r pd b i).
Proof.
  unfold tfimport.instance_body.
  apply (appends_bind
           (λ b, tfimport.convertToHCLLine
                   (sculpt (stateparser.Type_ r) (stateparser.Data i)) 1
                   (WriteString
                      (WriteString b (cat ["resource "; stateparser.Type_ r; " ";
                                           stateparser.Name r; " {"; LF]))
                      (cat [TAB; "provider = "; pd; LF])))
           (λ b, Ok (WriteString b (cat ["}"; LF; LF])))); [|apply appends_write].
  apply (appends_ext _
           (λ b, (Ok (WriteString b (cat ["resource "; stateparser.Type_ r; " ";
                                          stateparser.Name r; " {"; LF]))
                    ≫= λ b, Ok (WriteString b (cat [TAB; "provider = "; pd; LF])))
                   ≫= tfimport.convertToHCLLine
                        (sculpt (stateparser.Type_ r) (stateparser.Data i)) 1));
    [done|].
  apply appends_bind; [|apply tfimport_appends].
  apply (appends_bind (λ b, Ok (WriteString b _)) (λ b, Ok (WriteString b _)));
    apply appends_write.
Qed.

Lemma tfimport_resource_prepend r b (kp : gmap string nat) :
  tfimport.resource_body (b, kp) r = prepend_st b (tfimport.resource_body ("", kp) r).
Proof.
  unfold tfimport.resource_body.
  set (pd := Go.ReplaceFirst (stateparser.Provider r) "provider." "").
  assert (∀ b0, appends (λ b, forEach (tfimport.instance_body r pd)
                                 (stateparser.Instances r) (WriteString b b0))) as Hi.
  { intros b0.
    apply (appends_ext _ (λ b, Ok (WriteString b b0)
                                 ≫= forEach (tfimport.instance_body r pd)
                                      (stateparser.Instances r))); [done|].
    apply appends_bind; [apply appends_write|].
    apply appends_forEach. intros i _. apply tfimport_instance_appends. }
  destruct (default 0 (kp !! pd) =? 0).
  - rewrite (Hi _ b). cbn [WriteString String.append].
    destruct (forEach _ _ _) as [t|]; [|done].
    cbn. unfold WriteString. by rewrite string_app_assoc.
  - specialize (Hi "" b). unfold WriteString in Hi.
    rewrite !string_app_nil_r in Hi. rewrite Hi. clear Hi.
    destruct (forEach _ _ _) as [t|]; [|done].
    cbn. unfold WriteString. by rewrite string_app_assoc.
Qed.

Lemma tfimport_resources_prepend rs b (kp : gmap string nat) :
  forEach tfimport.resource_body rs (b, kp) =
    prepend_st b (forEach tfimport.resource_body rs ("", kp)).
Proof.
  revert b kp. induction rs as [|r rs IH]; intros b kp.
  - simpl. by rewrite string_app_nil_r.
  - cbn [forEach]. rewrite tfimport_resource_prepend.
    destruct (tfimport.resource_body ("", kp) r) as [[t kp']|]; [|done].
    cbn [prepend_st]. rewrite !bind_Ok. rewrite (IH (b +:+ t)), (IH t).
    destruct (forEach _ _ _) as [[u kp'']|]; [|done].
    cbn. by rewrite string_app_assoc.
Qed.

Lemma tfimport_resource_content r (st : Builder * gmap string nat) :
  tfimport.resource_body st r =
    (st' ← tfimport.resource_body st (without_content r);
     Ok (st'.1 +:+ stateparser.Content r, st'.2)).
Proof.
  destruct st as [b kp]. unfold tfimport.resource_body, without_content. cbn.
  destruct (default 0 (kp !! _) =? 0);
    (destruct (forEach _ _ _) as [b'|]; [|done]);
    rewrite !bind_Ok; unfold WriteString; cbn; by rewrite string_app_nil_r.
Qed.

End Converters.

(** C8, as the code has it. For every resource of the snapshot, in both
    converters: when the conversion completes, its output is the output
    for the resources in front of this one, followed by the blocks
    generated for this resource, followed by the bytes of its [Content]
    as they are, followed by the text of the resources behind it. The
    blocks are what the conversion adds for the resource when its
    content is removed. *)
Theorem content_passthrough `{Env} (pre post : list stateparser.StateResource)
    (r : stateparser.StateResource) :
  (∀ out,
     stateparser.ConvertTFStateToHCL (stateparser.mkState (pre ++ r :: post)) = Ok out →
     ∃ before blocks after,
       stateparser.ConvertTFStateToHCL (stateparser.mkState pre) = Ok before
       ∧ stateparser.ConvertTFStateToHCL
           (stateparser.mkState (pre ++ [without_content r]))
         = Ok (before +:+ blocks)
       ∧ out = before +:+ blocks +:+ stateparser.Content r +:+ after)
  ∧ (∀ out,
       tfimport.convertTFStateToHCL (stateparser.mkState (pre ++ r :: post)) = Ok out →
       ∃ before blocks after,
         tfimport.convertTFStateToHCL (stateparser.mkState pre) = Ok before
         ∧ tfimport.convertTFStateToHCL
             (stateparser.mkState (pre ++ [without_content r]))
           = Ok (before +:+ blocks)
         ∧ out = before +:+ blocks +:+ stateparser.Content r +:+ after).
Proof.
  split; intros out.
  - unfold stateparser.ConvertTFStateToHCL. cbn [stateparser.Resources].
    rewrite !forEach_app. cbn [forEach].
    destruct (forEach stateparser.resource_body pre stateparser.preamble)
      as [before|]; [|done].
    rewrite !bind_Ok, stateparser_resource_content.
    pose proof (stateparser_resource_appends (without_content r) before) as Hr.
    destruct (stateparser.resource_body before (without_content r)) as [b'|];
      [|done].
    rewrite !bind_Ok. intros Hout.
    apply (appends_Ok_inv (forEach stateparser.resource_body post)) in Hout
      as (after & _ & ->).
    2:{ apply appends_forEach. intros x _. apply stateparser_resource_appends. }
    destruct (stateparser.resource_body "" (without_content r)) as [blocks|];
      [|done].
    injection Hr as ->. exists before, blocks, after.
    split; [done|]. split; [done|]. by rewrite !string_app_assoc.
  - unfold tfimport.convertTFStateToHCL. cbn [stateparser.Resources].
    rewrite !forEach_app. cbn [forEach].
    destruct (forEach tfimport.resource_body pre ("", ∅))
      as [[before kp1]|]; [|done].
    rewrite !bind_Ok, tfimport_resource_content.
    pose proof (tfimport_resource_prepend (without_content r) before kp1) as Hr.
    destruct (tfimport.resource_body (before, kp1) (without_content r))
      as [[b' kp2]|]; [|done].
    rewrite !bind_Ok. cbn [fst snd]. rewrite tfimport_resources_prepend.
    destruct (forEach tfimport.resource_body post ("", kp2)) as [[after kp3]|];
      [|done].
    cbn. intros [= <-].
    destruct (tfimport.resource_body ("", kp1) (without_content r))
      as [[blocks kp2']|]; [|done].
    injection Hr as -> ->. exists before, blocks, after.
    split; [done|]. split; [done|]. by rewrite !string_app_assoc.
Qed.

(** The statement on the first resource of the sample snapshot, for
    both converters. *)
Lemma content_passthrough_witness :
  (stateparser.ConvertTFStateToHCL sample_state
     = Ok (text_of (stateparser.ConvertTFStateToHCL sample_state))
   ∧ ∃ before blocks after,
       stateparser.ConvertTFStateToHCL (stateparser.mkState []) = Ok before
       ∧ stateparser.ConvertTFStateToHCL
           (stateparser.mkState ([] ++ [without_content sample_first]))
         = Ok (before +:+ blocks)
       ∧ text_of (stateparser.ConvertTFStateToHCL sample_state)
         = before +:+ blocks +:+ stateparser.Content sample_first +:+ after)
  ∧ (tfimport.convertTFStateToHCL sample_state
       = Ok (text_of (tfimport.convertTFStateToHCL sample_state))
     ∧ ∃ before blocks after,
         tfimport.convertTFStateToHCL (stateparser.mkState []) = Ok before
         ∧ tfimport.convertTFStateToHCL
             (stateparser.mkState ([] ++ [without_content sample_first]))
           = Ok (before +:+ blocks)
         ∧ text_of (tfimport.convertTFStateToHCL sample_state)
           = before +:+ blocks +:+ stateparser.Content sample_first +:+ after).
Proof.
  assert (stateparser.ConvertTFStateToHCL sample_state
          = Ok (text_of (stateparser.ConvertTFStateToHCL sample_state))) as Es
    by (vm_compute; reflexivity).
  assert (tfimport.convertTFStateToHCL sample_state
          = Ok (text_of (tfimport.convertTFStateToHCL sample_state))) as Et
    by (vm_compute; reflexivity).
  split; (split; [assumption|]).
  - exact (proj1 (content_passthrough (H := Model.env) [] [sample_second] sample_first)
             _ Es).
  - exact (proj2 (content_passthrough (H := Model.env) [] [sample_second] sample_first)
             _ Et).
Defined.

(** C8 fails as stated. A conversion that panics in the serializer ends
    without any output, so the content of no resource is written: with
    a list that starts with a null among the attributes both converters
    panic, and with a null attribute [convertTFStateToHCL] does, while
    [ConvertTFStateToHCL] writes the block and the content. *)
Lemma content_passthrough_counterexample :
  stateparser.ConvertTFStateToHCL null_head_state = Panic
  ∧ tfimport.convertTFStateToHCL null_head_state = Panic
  ∧ tfimport.convertTFStateToHCL null_attribute_state = Panic
  ∧ stateparser.ConvertTFStateToHCL null_attribute_state
    = Ok (stateparser.preamble
            +:+ cat ["resource onelogin_apps x-1 {"; LF;
                     TAB; "name = "; QUOTE; "x"; QUOTE; LF;
                     "}"; LF; LF;
                     "# kept as it is"; LF]).
Proof. repeat split; vm_compute; reflexivity. Qed.

(* ===================================================================== *)
(** * Running the reconciliation twice                                    *)
(* ===================================================================== *)

(** C2 (the code departs from the claim). The first run imports the
    application [office365-7] and writes its block to main.tf. The
    resource pattern accepts digits only at the end of a name, so the
    scan of that text does not find [onelogin_apps.office365-7], and
    the filter of the second run returns the definition as new again.
    A name such as [mail-7] is found, and nothing is new. *)
Theorem second_run_imports_again :
  tfimport.ImportTFStateFromRemote first_run
    = [Open;
       Write (tfimport.createHCLDefinitionsBuffer [office] ["onelogin"]);
       Exec ["terraform"; "init"];
       Exec ["terraform"; "import"; "onelogin_apps.office365-7"; "7"];
       Seek;
       Write (text_of (tfimport.convertTFStateToHCL office_state));
       Close;
       Return]
  ∧ tfimport.convertTFStateToHCL office_state
    = Ok (cat ["provider onelogin {"; LF; TAB; "alias = "; QUOTE; "onelogin"; QUOTE; LF;
               "}"; LF; LF;
               "resource onelogin_apps office365-7 {"; LF;
               TAB; "provider = onelogin"; LF;
               TAB; "name = "; QUOTE; "Office 365"; QUOTE; LF;
               "}"; LF; LF])
  ∧ Go.FindStringSubmatch tfimport.resourceRegexp "resource onelogin_apps office365-7 {"
    = []
  ∧ (tfimport.filterExistingDefinitions
       (text_of (tfimport.convertTFStateToHCL office_state)) [office]).1
    = [office]
  ∧ (tfimport.filterExistingDefinitions
       (text_of (tfimport.convertTFStateToHCL mail_state)) [mail]).1
    = [].
Proof. repeat split; vm_compute; reflexivity. Qed.

(* ===================================================================== *)
(** * The scanner: what the resource pattern recognizes                   *)
(* ===================================================================== *)

Section Patterns.

Lemma take_app_length (t rest : string) :
  Go.take (String.length t) (t +:+ rest) = t.
Proof. induction t as [|a t IH]; simpl; [by destruct rest|]. by rewrite IH. Qed.

Lemma consumed_app (t rest : string) : Go.consumed (t +:+ rest) rest = t.
Proof.
  unfold Go.consumed. rewrite string_app_length.
  replace (String.length t + String.length rest - String.length rest)
    with (String.length t) by lia.
  apply take_app_length.
Qed.

Lemma consumed_all (s : string) : Go.consumed s "" = s.
Proof.
  rewrite <- (string_app_nil_r s) at 1. apply consumed_app.
Qed.

(** A greedy repetition runs through a text of its class when the text
    ends where the class does and the rest of the pattern matches there. *)
Lemma star_skip {A} (p : ascii → bool) (t rest : string)
    (k : string → option A) (r : A) :
  all_bytes p t = true → stops p rest = true → k rest = Some r →
  Go.star p (t +:+ rest) k = Some r.
Proof.
  intros Ht Hrest Hk. induction t as [|a t IH]; simpl in *.
  - destruct rest as [|c rest]; simpl in *; [done|].
    apply negb_true_iff in Hrest. by rewrite Hrest.
  - apply andb_true_iff in Ht as [-> Ht]. by rewrite IH.
Qed.

Lemma stops_digits_then (d rest : string) :
  all_bytes Go.is_digit d = true → stops Go.is_alpha_dash rest = true →
  stops Go.is_alpha_dash (d +:+ rest) = true.
Proof.
  destruct d as [|a d]; simpl; [done|]. intros [Ha _]%andb_true_iff _.
  apply negb_true_iff. revert Ha.
  unfold Go.is_digit, Go.is_alpha_dash, Go.is_alpha.
  destruct a as [[] [] [] [] [] [] [] []]; vm_compute; congruence.
Qed.

(** The first group of the resource pattern on a line that starts with
    the keyword and a space: only the empty prefix lets the keyword
    match. *)
Lemma star_word_resource {A} (tail : string) (k : string → option A) :
  Go.star Go.is_word
    (String "r" (String "e" (String "s" (String "o" (String "u" (String "r"
       (String "c" (String "e" (String " " tail)))))))))
    (λ s1, match Go.strip "resource" s1 with
           | Some s2 => Go.star Go.is_word s2 k
           | None => None
           end)
  = k (String " " tail).
Proof. reflexivity. Qed.

Lemma consumed_resource (tail : string) :
  Go.consumed
    (String "r" (String "e" (String "s" (String "o" (String "u" (String "r"
       (String "c" (String "e" (String " " tail)))))))))
    (String " " tail)
  = "resource".
Proof. exact (consumed_app "resource" (String " " tail)). Qed.

(** The header line of a resource whose type and name have the shape
    the pattern expects matches at its start, and the groups hold the
    type and the name. *)
Lemma resource_header_match (type l d : string) :
  all_bytes Go.is_alpha_dash type = true →
  all_bytes Go.is_alpha_dash l = true →
  all_bytes Go.is_digit d = true →
  Go.FindStringSubmatch tfimport.resourceRegexp (resource_header type (l +:+ d))
  = [resource_header type (l +:+ d); "resource"; type; l +:+ d].
Proof.
  intros Ht Hl Hd.
  assert (Go.match_here tfimport.resourceRegexp (resource_header type (l +:+ d))
          = Some [resource_header type (l +:+ d); "resource"; type; l +:+ d]) as E.
  2:{ unfold resource_header, cat in *. cbn [String.concat String.append] in *.
      cbn [Go.FindStringSubmatch]. by rewrite E. }
  unfold Go.match_here, tfimport.resourceRegexp, resource_header, cat.
  cbn [String.concat String.append Go.NumSubexp Nat.add replicate Go.run].
  rewrite star_word_resource.
  change (Go.is_space " ") with true. cbv iota.
  eapply star_skip; [exact Ht|reflexivity|].
  change (Go.is_space " ") with true. cbv iota.
  rewrite (string_app_assoc l d " {").
  eapply star_skip; [exact Hl|by apply stops_digits_then|].
  eapply star_skip; [exact Hd|reflexivity|].
  cbn [Go.strip Ascii.eqb Bool.eqb]. change (Go.is_space " ") with true. cbv iota.
  rewrite consumed_resource, consumed_all, (consumed_app type).
  rewrite <- (string_app_assoc l d " {"), (consumed_app (l +:+ d) " {").
  reflexivity.
Qed.

End Patterns.

Section Index.

Implicit Types (collection : gmap string (gmap string nat)) (t key : string).

Lemma count_insert_inner collection regexName inner name key :
  tfimport.count (<[regexName := inner]> collection) name key =
    if decide (regexName = name) then default 0 (inner !! key)
    else tfimport.count collection name key.
Proof.
  unfold tfimport.count. rewrite lookup_insert. by case_decide.
Qed.

(** Visiting a line with one pattern never lowers a count. *)
Lemma scan_pattern_mono t collection entry name key :
  tfimport.count collection name key
  ≤ tfimport.count (tfimport.scan_pattern t collection entry) name key.
Proof.
  destruct entry as [regexName r]. unfold tfimport.scan_pattern.
  set (c1 := match collection !! regexName with
             | None => <[regexName := ∅]> collection
             | Some _ => collection
             end).
  assert (∀ n k, tfimport.count c1 n k = tfimport.count collection n k) as Hc1.
  { intros n k. unfold c1. destruct (collection !! regexName) eqn:E; [done|].
    rewrite count_insert_inner. case_decide as En; [|done]. subst n.
    unfold tfimport.count. by rewrite E. }
  destruct (0 <? length _); [|by rewrite Hc1].
  rewrite count_insert_inner. case_decide as En; [|by rewrite Hc1]. subst name.
  match goal with |- context [<[?dk := _]> _] => set (definitionKey := dk) end.
  destruct (decide (definitionKey = key)) as [->|Hne].
  - rewrite lookup_insert_eq. simpl. rewrite Hc1. lia.
  - rewrite lookup_insert_ne by done. rewrite <- Hc1. done.
Qed.

Lemma scan_line_mono collection t name key :
  tfimport.count collection name key
  ≤ tfimport.count (tfimport.scan_line collection t) name key.
Proof.
  unfold tfimport.scan_line, tfimport.searchCriteria. cbn [fold_left].
  etrans; [|apply scan_pattern_mono]. apply scan_pattern_mono.
Qed.

Lemma scan_lines_mono lines collection name key :
  tfimport.count collection name key
  ≤ tfimport.count (fold_left tfimport.scan_line lines collection) name key.
Proof.
  revert collection. induction lines as [|t lines IH]; intros collection; [done|].
  simpl. etrans; [|apply IH]. apply scan_line_mono.
Qed.

(** A line on which the resource pattern finds a type and a name puts
    [type.name] into the index. *)
Lemma scan_line_found collection t whole keyword type name :
  Go.FindStringSubmatch tfimport.resourceRegexp t = [whole; keyword; type; name] →
  1 ≤ tfimport.count (tfimport.scan_line collection t) "resource"
        (type +:+ "." +:+ name).
Proof.
  intros Hm. unfold tfimport.scan_line, tfimport.searchCriteria. cbn [fold_left].
  set (c0 := tfimport.scan_pattern t collection ("provider", tfimport.providerRegexp)).
  clearbody c0. unfold tfimport.scan_pattern. rewrite Hm. simpl.
  rewrite count_insert_inner. rewrite decide_True by done.
  rewrite lookup_insert_eq. simpl. lia.
Qed.

Lemma scan_lines_found lines collection t whole keyword type name :
  t ∈ lines →
  Go.FindStringSubmatch tfimport.resourceRegexp t = [whole; keyword; type; name] →
  1 ≤ tfimport.count (fold_left tfimport.scan_line lines collection) "resource"
        (type +:+ "." +:+ name).
Proof.
  intros Hin Hm. revert collection.
  induction lines as [|t' lines IH]; intros collection.
  { by apply elem_of_nil in Hin. }
  apply elem_of_cons in Hin as [<-|Hin]; simpl.
  - etrans; [|apply scan_lines_mono]. by eapply scan_line_found.
  - by apply IH.
Qed.

(** The order in which a line visits the patterns does not matter: a
    visit reads and writes the inner map of its own pattern only. *)
Lemma scan_pattern_other t collection regexName r name :
  name ≠ regexName →
  tfimport.scan_pattern t collection (regexName, r) !! name = collection !! name.
Proof.
  intros Hne. unfold tfimport.scan_pattern.
  destruct (collection !! regexName); destruct (0 <? length _);
    by rewrite ?lookup_insert_ne by done.
Qed.

Lemma scan_pattern_own t collection collection' regexName r :
  collection !! regexName = collection' !! regexName →
  tfimport.scan_pattern t collection (regexName, r) !! regexName
  = tfimport.scan_pattern t collection' (regexName, r) !! regexName.
Proof.
  intros E. unfold tfimport.scan_pattern, tfimport.count. rewrite <- E.
  destruct (collection !! regexName) as [inner|] eqn:Ei;
    destruct (0 <? length _);
    rewrite ?lookup_insert_eq, ?Ei, <- ?E; done.
Qed.

Lemma scan_pattern_comm t collection n1 r1 n2 r2 :
  n1 ≠ n2 →
  tfimport.scan_pattern t (tfimport.scan_pattern t collection (n1, r1)) (n2, r2)
  = tfimport.scan_pattern t (tfimport.scan_pattern t collection (n2, r2)) (n1, r1).
Proof.
  intros Hne. apply map_eq. intros i.
  destruct (decide (i = n1)) as [->|H1]; [|destruct (decide (i = n2)) as [->|H2]].
  - rewrite scan_pattern_other by done. apply scan_pattern_own.
    by rewrite scan_pattern_other.
  - rewrite (scan_pattern_other _ _ n1) by done. apply scan_pattern_own.
    by rewrite scan_pattern_other.
  - by rewrite !scan_pattern_other.
Qed.

Lemma scan_line_any_order collection t :
  tfimport.scan_line collection t
  = fold_left (tfimport.scan_pattern t) (reverse tfimport.searchCriteria) collection.
Proof.
  unfold tfimport.scan_line, tfimport.searchCriteria. cbn [reverse fold_left].
  by apply scan_pattern_comm.
Qed.

End Index.

Section Lines.

Implicit Types (data line pre post rest acc : string).

Lemma ScanLines_line line post acc :
  has_byte "010" line = false →
  Go.ScanLines (line +:+ LF +:+ post) acc =
    if Go.fits (acc +:+ line) then Go.dropCR (acc +:+ line) :: Go.ScanLines post ""
    else [].
Proof.
  revert acc. induction line as [|c line IH]; intros acc Hl; simpl in *.
  - by rewrite string_app_nil_r.
  - apply orb_false_iff in Hl as [-> Hl]. rewrite IH by done.
    by rewrite string_app_assoc.
Qed.

Lemma lines_fit_line line post acc :
  has_byte "010" line = false →
  lines_fit (line +:+ LF +:+ post) acc = Go.fits (acc +:+ line) && lines_fit post "".
Proof.
  revert acc. induction line as [|c line IH]; intros acc Hl; simpl in *.
  - by rewrite string_app_nil_r.
  - apply orb_false_iff in Hl as [-> Hl]. rewrite IH by done.
    by rewrite string_app_assoc.
Qed.

(** The scan of a text that fits reaches whatever follows a line feed. *)
Lemma ScanLines_after pre rest acc :
  lines_fit ((pre +:+ LF) +:+ rest) acc = true →
  lines_fit rest "" = true
  ∧ ∀ x, x ∈ Go.ScanLines rest "" → x ∈ Go.ScanLines ((pre +:+ LF) +:+ rest) acc.
Proof.
  revert acc. induction pre as [|c pre IH]; intros acc; simpl.
  - intros [Hf Hr]%andb_true_iff. rewrite Hf. split; [done|].
    intros x Hx. by right.
  - destruct (Ascii.eqb c "010").
    + intros [Hf Hr]%andb_true_iff. rewrite Hf.
      destruct (IH "" Hr) as [Hrest Hin]. split; [done|].
      intros x Hx. right. by apply Hin.
    + apply IH.
Qed.

(** A line that starts on a line of its own is delivered by the scan. *)
Lemma ScanLines_finds pre line post :
  aligned pre → has_byte "010" line = false →
  lines_fit (pre +:+ line +:+ LF +:+ post) "" = true →
  Go.dropCR line ∈ Go.ScanLines (pre +:+ line +:+ LF +:+ post) "".
Proof.
  intros [->|[pre' ->]] Hl Hfit.
  - change ("" +:+ line +:+ LF +:+ post) with (line +:+ LF +:+ post) in *.
    rewrite lines_fit_line in Hfit by done.
    apply andb_true_iff in Hfit as [Hf _].
    rewrite ScanLines_line by done.
    change ("" +:+ line) with line in *. rewrite Hf. left.
  - apply ScanLines_after in Hfit as [Hfit Hin]. apply Hin.
    rewrite lines_fit_line in Hfit by done.
    apply andb_true_iff in Hfit as [Hf _].
    rewrite ScanLines_line by done.
    change ("" +:+ line) with line in *. rewrite Hf. left.
Qed.

Lemma dropCR_cons a s : s ≠ "" → Go.dropCR (String a s) = String a (Go.dropCR s).
Proof.
  destruct s as [|c s]; [done|]. intros _.
  by destruct a as [[] [] [] [] [] [] [] []].
Qed.

Lemma dropCR_app x y :
  y ≠ "" → Go.dropCR y = y → Go.dropCR (x +:+ y) = x +:+ y.
Proof.
  intros Hy Hd. induction x as [|a x IH]; [done|].
  cbn [String.append]. rewrite dropCR_cons; [by rewrite IH|].
  destruct x; [done|discriminate].
Qed.

(** A header line ends with a brace: there is no carriage return to drop. *)
Lemma dropCR_header type name :
  Go.dropCR (resource_header type name) = resource_header type name.
Proof.
  assert (resource_header type name
          = ("resource " +:+ type +:+ " " +:+ name) +:+ " {") as ->.
  { unfold resource_header, cat. cbn [String.concat String.append].
    by rewrite !string_app_assoc. }
  by apply dropCR_app.
Qed.

End Lines.

(* ===================================================================== *)
(** * The second run: names the resource pattern recognizes               *)
(* ===================================================================== *)

Section SecondRun.

Context `{Env}.

Implicit Types (r : stateparser.StateResource) (b : Builder).
Implicit Types (rs : list stateparser.StateResource) (kp : gmap string nat).

Lemma aligned_LF (s : string) : aligned (s +:+ LF).
Proof. right. by exists s. Qed.

Lemma aligned_app (s t : string) : aligned s → aligned t → aligned (s +:+ t).
Proof.
  intros Hs [->|[t' ->]].
  - by rewrite string_app_nil_r.
  - rewrite <- string_app_assoc. apply aligned_LF.
Qed.

Lemma aligned_app_r (s t : string) : (∃ t', t = t' +:+ LF) → aligned (s +:+ t).
Proof. intros [t' ->]. rewrite <- string_app_assoc. apply aligned_LF. Qed.

Lemma header_cat type name :
  cat ["resource "; type; " "; name; " {"; LF] = resource_header type name +:+ LF.
Proof.
  unfold resource_header, cat. cbn [String.concat String.append].
  by repeat (rewrite string_app_assoc; cbn [String.append]).
Qed.

(** One instance block starts with the header line of the resource and
    ends with a line feed. *)
Lemma tfimport_instance_out r pd b i b' :
  tfimport.instance_body r pd b i = Ok b' →
  aligned b'
  ∧ ∃ t, b' = b +:+ (resource_header (stateparser.Type_ r) (stateparser.Name r)
                       +:+ LF) +:+ t.
Proof.
  unfold tfimport.instance_body. rewrite header_cat. unfold WriteString.
  intros Hb.
  destruct (tfimport.convertToHCLLine _ _ _) as [b1|] eqn:E; [|done].
  rewrite bind_Ok in Hb. injection Hb as <-.
  apply (appends_Ok_inv _ _ _ (tfimport_appends _ _)) in E as (t & _ & ->).
  split.
  - apply aligned_app_r. by exists ("}" +:+ LF).
  - eexists. rewrite !string_app_assoc. reflexivity.
Qed.

Lemma tfimport_instances_aligned r pd insts b b' :
  forEach (tfimport.instance_body r pd) insts b = Ok b' → aligned b → aligned b'.
Proof.
  revert b. induction insts as [|i insts IH]; intros b; simpl.
  - by intros [= <-].
  - destruct (tfimport.instance_body r pd b i) as [b1|] eqn:E; [|done].
    rewrite bind_Ok. intros Hrest _. apply (IH b1 Hrest).
    by apply tfimport_instance_out in E as [? _].
Qed.

Lemma tfimport_instances_out r pd i insts b b' :
  forEach (tfimport.instance_body r pd) (i :: insts) b = Ok b' →
  ∃ t, b' = b +:+ (resource_header (stateparser.Type_ r) (stateparser.Name r)
                     +:+ LF) +:+ t.
Proof.
  cbn [forEach].
  destruct (tfimport.instance_body r pd b i) as [b1|] eqn:E; [|done].
  rewrite bind_Ok. intros Hrest.
  apply tfimport_instance_out in E as [_ [t ->]].
  apply (appends_Ok_inv (forEach (tfimport.instance_body r pd) insts)) in Hrest
    as (t' & _ & ->).
  2:{ apply appends_forEach. intros x _. apply tfimport_instance_appends. }
  eexists. rewrite !string_app_assoc. reflexivity.
Qed.

(** What the loop body writes for one resource: the text stays aligned,
    and the first instance block sits at the start of a line. *)
Lemma tfimport_resource_out r b kp b' kp' :
  tfimport.resource_body (b, kp) r = Ok (b', kp') →
  aligned b → aligned (stateparser.Content r) →
  aligned b'
  ∧ (stateparser.Instances r ≠ [] →
     ∃ b0 t, aligned b0
             ∧ b' = b0 +:+ (resource_header (stateparser.Type_ r) (stateparser.Name r)
                              +:+ LF) +:+ t).
Proof.
  unfold tfimport.resource_body.
  set (pd := Go.ReplaceFirst (stateparser.Provider r) "provider." "").
  intros Hb Ha Hc.
  assert (∃ b0 kp0, aligned b0
            ∧ (forEach (tfimport.instance_body r pd) (stateparser.Instances r) b0
                 ≫= λ builder, Ok (WriteString builder (stateparser.Content r), kp0))
              = Ok (b', kp')) as (b0 & kp0 & Hb0 & Hrun).
  { destruct (default 0 (kp !! pd) =? 0).
    - eexists _, _. split; [|exact Hb]. unfold WriteString.
      apply aligned_app_r.
      exists (cat ["provider "; pd; " {"; LF; TAB; "alias = "; QUOTE; pd; QUOTE;
                   LF; "}"; LF]).
      unfold cat. cbn [String.concat String.append].
      by repeat (rewrite string_app_assoc; cbn [String.append]).
    - eexists _, _. split; [exact Ha|exact Hb]. }
  clear Hb.
  destruct (forEach _ _ b0) as [b1|] eqn:E; [|done].
  rewrite bind_Ok in Hrun. injection Hrun as <- <-. unfold WriteString. split.
  - apply aligned_app; [|done]. by eapply tfimport_instances_aligned.
  - intros Hne. destruct (stateparser.Instances r) as [|i insts]; [done|].
    apply tfimport_instances_out in E as [t ->].
    exists b0, (t +:+ stateparser.Content r). split; [done|].
    generalize (resource_header (stateparser.Type_ r) (stateparser.Name r) +:+ LF).
    intros h. by rewrite !string_app_assoc.
Qed.

Lemma tfimport_resources_out rs b kp b' kp' :
  forEach tfimport.resource_body rs (b, kp) = Ok (b', kp') →
  aligned b → Forall (λ r, aligned (stateparser.Content r)) rs →
  aligned b'
  ∧ ∀ r, r ∈ rs → stateparser.Instances r ≠ [] →
      ∃ b0 t, aligned b0
              ∧ b' = b0 +:+ (resource_header (stateparser.Type_ r) (stateparser.Name r)
                               +:+ LF) +:+ t.
Proof.
  revert b kp. induction rs as [|r rs IH]; intros b kp.
  - simpl. intros [= <- <-] Ha _. split; [done|].
    intros r Hin. by apply elem_of_nil in Hin.
  - cbn [forEach].
    destruct (tfimport.resource_body (b, kp) r) as [[b1 kp1]|] eqn:E; [|done].
    rewrite bind_Ok. intros Hrest Ha [Hc Hall]%Forall_cons.
    destruct (tfimport_resource_out _ _ _ _ _ E Ha Hc) as [Ha1 Hfirst].
    destruct (IH _ _ Hrest Ha1 Hall) as [Ha' Hothers]. split; [done|].
    intros r' [->|Hin]%elem_of_cons Hne; [|by apply Hothers].
    destruct (Hfirst Hne) as (b0 & t & Hb0 & Eb1).
    rewrite tfimport_resources_prepend in Hrest.
    destruct (forEach tfimport.resource_body rs ("", kp1)) as [[t' kp2]|]; [|done].
    injection Hrest as <- <-.
    exists b0, (t +:+ t'). split; [done|]. rewrite Eb1.
    generalize (resource_header (stateparser.Type_ r) (stateparser.Name r) +:+ LF).
    intros h. by rewrite !string_app_assoc.
Qed.

Lemma all_bytes_has_byte (p : ascii → bool) (c : ascii) (s : string) :
  all_bytes p s = true → p c = false → has_byte c s = false.
Proof.
  intros Hs Hc. induction s as [|a s IH]; simpl in *; [done|].
  apply andb_true_iff in Hs as [Ha Hs]. rewrite IH by done.
  rewrite orb_false_r. destruct (Ascii.eqb_spec a c); [congruence|done].
Qed.

Lemma header_one_line type name :
  pattern_type type → pattern_name name →
  has_byte "010" (resource_header type name) = false.
Proof.
  intros Ht (l & d & -> & Hl & Hd).
  unfold resource_header, cat. cbn [String.concat String.append has_byte].
  repeat (rewrite has_byte_app; cbn [has_byte]).
  rewrite (all_bytes_has_byte _ _ _ Ht), (all_bytes_has_byte _ _ _ Hl),
    (all_bytes_has_byte _ _ _ Hd); done.
Qed.

(** The scan of a file that starts with the text of a completed
    conversion finds every resource that has an instance and whose type
    and name the pattern recognizes, when the trailing contents keep the
    text aligned and every line fits the buffer of the scanner. *)
Lemma second_run_finds (state : stateparser.State) (text tail : string) r :
  tfimport.convertTFStateToHCL state = Ok text →
  Forall (λ r, aligned (stateparser.Content r)) (stateparser.Resources state) →
  lines_fit (text +:+ tail) "" = true →
  r ∈ stateparser.Resources state → stateparser.Instances r ≠ [] →
  pattern_type (stateparser.Type_ r) → pattern_name (stateparser.Name r) →
  1 ≤ tfimport.count (tfimport.scan_file (text +:+ tail)) "resource"
        (stateparser.Type_ r +:+ "." +:+ stateparser.Name r).
Proof.
  unfold tfimport.convertTFStateToHCL. intros Hc Hall Hfit Hin Hne Ht Hn.
  destruct (forEach tfimport.resource_body _ _) as [[b' kp']|] eqn:E; [|done].
  rewrite bind_Ok in Hc. injection Hc as <-. cbn [fst] in *.
  apply tfimport_resources_out in E as [_ Hr]; [|by left|done].
  destruct (Hr r Hin Hne) as (b0 & t & Hb0 & ->).
  assert ((b0 +:+ (resource_header (stateparser.Type_ r) (stateparser.Name r) +:+ LF)
             +:+ t) +:+ tail
          = b0 +:+ resource_header (stateparser.Type_ r) (stateparser.Name r)
              +:+ LF +:+ (t +:+ tail)) as Etext.
  { generalize (resource_header (stateparser.Type_ r) (stateparser.Name r)).
    intros h. by rewrite !string_app_assoc. }
  rewrite Etext in *.
  pose proof (ScanLines_finds b0 _ _ Hb0 (header_one_line _ _ Ht Hn) Hfit) as Hline.
  rewrite dropCR_header in Hline.
  destruct Hn as (l & d & Hname & Hl & Hd). rewrite Hname in *.
  unfold tfimport.scan_file.
  eapply scan_lines_found; [exact Hline|].
  by apply resource_header_match.
Qed.

Lemma List_filter_none {A} (f : A → bool) (l : list A) :
  (∀ x, x ∈ l → f x = false) → List.filter f l = [].
Proof.
  induction l as [|x l IH]; intros Hf; simpl; [done|].
  rewrite Hf by left. apply IH. intros y Hy. apply Hf. by right.
Qed.

(** Then the filter of the second run has nothing new to return. *)
Lemma second_run_nothing_new (state : stateparser.State) (text tail : string)
    (defs : list ResourceDefinition) :
  tfimport.convertTFStateToHCL state = Ok text →
  Forall (λ r, aligned (stateparser.Content r)) (stateparser.Resources state) →
  lines_fit (text +:+ tail) "" = true →
  (∀ rd, rd ∈ defs →
     pattern_type (Type_ rd) ∧ pattern_name (Name rd)
     ∧ ∃ r, r ∈ stateparser.Resources state ∧ stateparser.Instances r ≠ []
            ∧ stateparser.Type_ r = Type_ rd ∧ stateparser.Name r = Name rd) →
  (tfimport.filterExistingDefinitions (text +:+ tail) defs).1 = [].
Proof.
  intros Hc Hall Hfit Hdefs. unfold tfimport.filterExistingDefinitions. cbn [fst].
  apply List_filter_none. intros rd Hin.
  destruct (Hdefs rd Hin) as (Ht & Hn & r & Hr & Hne & ET & EN).
  rewrite <- ET, <- EN in *.
  pose proof (second_run_finds state text tail r Hc Hall Hfit Hr Hne Ht Hn) as Hcount.
  apply Nat.eqb_neq. lia.
Qed.

End SecondRun.

(* ===================================================================== *)
(** * Further properties: the serializers                               *)
(* ===================================================================== *)

Section Texts.

Lemma concat_cons_string (x : string) (l : list string) :
  String.concat "" (x :: l) = x +:+ String.concat "" l.
Proof. destruct l; simpl; [by rewrite string_app_nil_r|done]. Qed.

Lemma concat_app_string (l1 l2 : list string) :
  String.concat "" (l1 ++ l2) = String.concat "" l1 +:+ String.concat "" l2.
Proof.
  induction l1 as [|x l1 IH]; [done|].
  rewrite <- app_comm_cons, !concat_cons_string, IH. by rewrite string_app_assoc.
Qed.

Lemma concat_aligned (l : list string) :
  Forall (λ s, ∃ s', s = s' +:+ LF) l → aligned (String.concat "" l).
Proof.
  induction 1 as [|x l Hx _ IH]; [by left|].
  rewrite concat_cons_string. apply aligned_app; [|done].
  destruct Hx as [s' ->]. apply aligned_LF.
Qed.

End Texts.

Section SerializerFacts.

Context `{Env}.

Implicit Types (m : list (string * value float64)) (sl : list (value float64)).
Implicit Types (v e : value float64) (b : Builder) (lvl : nat).

(** Induction on values in which the case of a map also has the
    hypothesis for the elements of the lists among its values. *)
Lemma value_ind_lists (Q : value float64 → Prop) :
  Q VNil → (∀ x, Q (VBool x)) → (∀ x, Q (VNum x)) → (∀ s, Q (VStr s)) →
  (∀ sl, Forall Q sl → Q (VList sl)) →
  (∀ m, Forall (λ kv, Q kv.2 ∧ ∀ sl, kv.2 = VList sl → Forall Q sl) m → Q (VMap m)) →
  ∀ v, Q v.
Proof.
  intros HN HB HX HS HL HM v.
  cut (Q v ∧ ∀ sl, v = VList sl → Forall Q sl); [by intros [? _]|].
  induction v as [|x|x|s|sl IH|m IH] using value_ind_nested; split;
    try (intros sl' [=]); try done.
  - apply HL. eapply Forall_impl; [exact IH|]. by intros e [? _].
  - subst sl'. eapply Forall_impl; [exact IH|]. by intros e [? _].
  - by apply HM.
Qed.

Lemma forEach_block_ext (conv1 conv2 : value float64 → nat → Builder → result Builder)
    k lvl sl b :
  Forall (λ e, ∀ l b', conv1 e l b' = conv2 e l b') sl →
  forEach (block conv1 k lvl) sl b = forEach (block conv2 k lvl) sl b.
Proof.
  intros Hsl. revert b. induction Hsl as [|e sl He _ IH]; intros b; [done|].
  cbn [forEach].
  assert (block conv1 k lvl b e = block conv2 k lvl b e) as ->.
  { unfold block. by rewrite He. }
  destruct (block conv2 k lvl b e) as [b1|]; [|done]. rewrite !bind_Ok. apply IH.
Qed.

Lemma forEach_block_total (conv : value float64 → nat → Builder → result Builder)
    k lvl sl b :
  Forall (λ e, ∀ l b', ∃ out, conv e l b' = Ok out) sl →
  ∃ out, forEach (block conv k lvl) sl b = Ok out.
Proof.
  intros Hsl. revert b. induction Hsl as [|e sl He _ IH]; intros b; [by eexists|].
  cbn [forEach].
  assert (∃ b1, block conv k lvl b e = Ok b1) as [b1 ->].
  { unfold block.
    destruct (He (S lvl) (WriteString b (ToLower (cat [LF; indent lvl; ToSnakeCase k;
                                                     " {"; LF])))) as [b1 ->].
    by eexists. }
  rewrite !bind_Ok. apply IH.
Qed.

Lemma not_composite_scalar e : e ≠ VNil → composite e = false → scalar e = true.
Proof. by destruct e. Qed.

(** Without a null in the value nothing makes the [tfimport] serializer
    panic. *)
Lemma tfimport_never_panics v lvl b :
  null_free v = true →
  ∃ out, tfimport.convertToHCLLine v lvl b = Ok out.
Proof.
  revert lvl b.
  induction v as [|x|x|s|sl IH|m IH] using value_ind_lists; intros lvl b Hv;
    try (by eexists).
  revert b. induction m as [|[k v] m IHm]; intros b; [by eexists|].
  apply Forall_cons in IH as [[Hv1 Hsl] IH]. cbn [snd] in Hv1, Hsl.
  cbn [null_free forallb snd] in Hv. apply andb_true_iff in Hv as [Hnv Hm].
  rewrite tfimport_cons.
  assert (∃ b1, tfimport.convertToHCLLine (VMap [(k, v)]) lvl b = Ok b1) as [b1 ->].
  { destruct v as [|x|x|s|sl|vm]; try done; try (by eexists).
    specialize (Hsl sl eq_refl).
    assert (∀ e, e ∈ sl → null_free e = true) as Hall.
    { intros e He. cbn [null_free] in Hnv. rewrite forallb_forall in Hnv.
      apply Hnv. by apply list_elem_of_In. }
    destruct sl as [|e0 rest]; [by eexists|].
    destruct (composite e0) eqn:Hc.
    - rewrite tfimport_blocks_cons by done.
      destruct (forEach_block_total tfimport.convertToHCLLine k lvl (e0 :: rest) b)
        as [out ->]; [|by eexists].
      rewrite Forall_forall in Hsl. apply Forall_forall. intros e He l b'.
      apply Hsl; [done|]. by apply Hall.
    - rewrite tfimport_array_cons; [by eexists|].
      apply not_composite_scalar; [|done]. intros ->.
      by specialize (Hall VNil ltac:(left)). }
  rewrite bind_Ok. by apply IHm.
Qed.

(** The [stateparser] serializer panics on a null at the head of a list
    only. *)
Lemma stateparser_never_panics v lvl b :
  null_headed v = false →
  ∃ out, stateparser.convertToHCLLine v lvl b = Ok out.
Proof.
  revert lvl b.
  induction v as [|x|x|s|sl IH|m IH] using value_ind_lists; intros lvl b Hv;
    try (by eexists).
  revert b. induction m as [|[k v] m IHm]; intros b; [by eexists|].
  apply Forall_cons in IH as [[Hv1 Hsl] IH]. cbn [snd] in Hv1, Hsl.
  cbn [null_headed existsb snd] in Hv. apply orb_false_iff in Hv as [Hnv Hm].
  rewrite stateparser_cons.
  assert (∃ b1, stateparser.convertToHCLLine (VMap [(k, v)]) lvl b = Ok b1) as [b1 ->].
  { destruct v as [|x|x|s|sl|vm]; try (by eexists).
    - specialize (Hsl sl eq_refl).
      cbn [null_headed] in Hnv. apply orb_false_iff in Hnv as [He0 Hnv].
      assert (∀ e, e ∈ sl → null_headed e = false) as Hall.
      { intros e He. destruct (null_headed e) eqn:Ee; [|done].
        assert (existsb null_headed sl = true) as Hex; [|congruence].
        apply existsb_exists. exists e. split; [by apply list_elem_of_In|done]. }
      destruct sl as [|e0 rest]; [by eexists|].
      destruct (composite e0) eqn:Hc.
      + rewrite stateparser_blocks_cons by done.
        destruct (forEach_block_total stateparser.convertToHCLLine k lvl (e0 :: rest) b)
          as [out ->]; [|by eexists].
        rewrite Forall_forall in Hsl. apply Forall_forall. intros e He l b'.
        apply Hsl; [done|]. by apply Hall.
      + rewrite stateparser_array_cons; [by eexists|].
        apply not_composite_scalar; [|done]. by intros ->.
    - destruct vm as [|kv vm]; [by eexists|].
      rewrite stateparser_map_cons by done.
      destruct (Hv1 (S lvl) (b +:+ ToLower (cat [LF; indent lvl; ToSnakeCase k;
                                              " = {"; LF])) Hnv) as [b2 ->].
      by eexists. }
  rewrite bind_Ok. by apply IHm.
Qed.

End SerializerFacts.

(** X1. Neither serializer touches the text the builder already
    holds: what it does to a builder [b] is what it does to the empty
    builder, after [b]; whether it panics does not depend on [b]. *)
Theorem serializers_only_append `{Env} (v : value float64) (lvl : nat) :
  appends (stateparser.convertToHCLLine v lvl)
  ∧ appends (tfimport.convertToHCLLine v lvl).
Proof. split; [apply stateparser_appends|apply tfimport_appends]. Qed.

(** X2. The entries of a map are serialized one after the other, in
    the order of the range: serializing [m1 ++ m2] is serializing [m1]
    and then [m2] on the builder that leaves; a panic in [m1] ends the
    run. *)
Theorem map_entries_in_order `{Env} (m1 m2 : list (string * value float64))
    (lvl : nat) (b : Builder) :
  stateparser.convertToHCLLine (VMap (m1 ++ m2)) lvl b
  = (b1 ← stateparser.convertToHCLLine (VMap m1) lvl b;
     stateparser.convertToHCLLine (VMap m2) lvl b1)
  ∧ tfimport.convertToHCLLine (VMap (m1 ++ m2)) lvl b
    = (b1 ← tfimport.convertToHCLLine (VMap m1) lvl b;
       tfimport.convertToHCLLine (VMap m2) lvl b1).
Proof. split; [apply stateparser_range_app|apply tfimport_range_app]. Qed.

(** X3. A key with a string, a number or a boolean gives one line,
    the same in both serializers: the indentation, the key in snake
    case, an equals sign, the value ([%q] for a string, [%v] for a
    number or a boolean) and a line feed. *)
Theorem scalar_entry_line `{Env} (m1 m2 : list (string * value float64))
    (k : string) (v : value float64) (lvl : nat) (b : Builder) :
  scalar v = true →
  stateparser.convertToHCLLine (VMap (m1 ++ (k, v) :: m2)) lvl b
  = (b1 ← stateparser.convertToHCLLine (VMap m1) lvl b;
     stateparser.convertToHCLLine (VMap m2) lvl (b1 +:+ scalar_line k lvl v))
  ∧ tfimport.convertToHCLLine (VMap (m1 ++ (k, v) :: m2)) lvl b
    = (b1 ← tfimport.convertToHCLLine (VMap m1) lvl b;
       tfimport.convertToHCLLine (VMap m2) lvl (b1 +:+ scalar_line k lvl v)).
Proof.
  intros Hv. rewrite stateparser_range_app, tfimport_range_app. split.
  - destruct (stateparser.convertToHCLLine (VMap m1) lvl b) as [b1|]; [|done].
    rewrite !bind_Ok. by destruct v.
  - destruct (tfimport.convertToHCLLine (VMap m1) lvl b) as [b1|]; [|done].
    rewrite !bind_Ok. by destruct v.
Qed.

(** An instance: a string, a number and a boolean. *)
Lemma scalar_entry_line_witness :
  stateparser.convertToHCLLine
    (VMap ([("Name", VStr "x")] ++ ("SessionTimeout", VNum 30%Z) :: [("Visible", VBool true)]))
    1 ""
  = Ok (cat [TAB; "name = "; QUOTE; "x"; QUOTE; LF;
             TAB; "session_timeout = 30"; LF;
             TAB; "visible = true"; LF])
  ∧ tfimport.convertToHCLLine
      (VMap ([("Name", VStr "x")] ++ ("SessionTimeout", VNum 30%Z) :: [("Visible", VBool true)]))
      1 ""
    = Ok (cat [TAB; "name = "; QUOTE; "x"; QUOTE; LF;
               TAB; "session_timeout = 30"; LF;
               TAB; "visible = true"; LF]).
Proof.
  exact (scalar_entry_line (H := Model.env) [("Name", VStr "x")] [("Visible", VBool true)]
           "SessionTimeout" (VNum 30%Z) 1 "" eq_refl).
Defined.

(** X4. Empty values leave no trace: a key whose value is an empty
    list or an empty map writes nothing in either serializer, and
    neither does a key whose value is null in [stateparser]. *)
Theorem empty_values_are_skipped `{Env} (m1 m2 : list (string * value float64))
    (k : string) (v : value float64) (lvl : nat) (b : Builder) :
  v = VList [] ∨ v = VMap [] →
  stateparser.convertToHCLLine (VMap (m1 ++ (k, v) :: m2)) lvl b
  = stateparser.convertToHCLLine (VMap (m1 ++ m2)) lvl b
  ∧ tfimport.convertToHCLLine (VMap (m1 ++ (k, v) :: m2)) lvl b
    = tfimport.convertToHCLLine (VMap (m1 ++ m2)) lvl b
  ∧ stateparser.convertToHCLLine (VMap (m1 ++ (k, VNil) :: m2)) lvl b
    = stateparser.convertToHCLLine (VMap (m1 ++ m2)) lvl b.
Proof.
  intros Hv. split; [|split].
  - apply stateparser_elides. tauto.
  - apply tfimport_elides. destruct Hv as [->| ->]; [by left|right; by eexists].
  - apply stateparser_elides. by left.
Qed.

(** An instance: an empty list between two strings. *)
Lemma empty_values_are_skipped_witness :
  stateparser.convertToHCLLine
    (VMap ([("a", VStr "x")] ++ ("roles", VList []) :: [("b", VStr "y")])) 1 ""
  = stateparser.convertToHCLLine (VMap ([("a", VStr "x")] ++ [("b", VStr "y")])) 1 ""
  ∧ tfimport.convertToHCLLine
      (VMap ([("a", VStr "x")] ++ ("roles", VList []) :: [("b", VStr "y")])) 1 ""
    = tfimport.convertToHCLLine (VMap ([("a", VStr "x")] ++ [("b", VStr "y")])) 1 "".
Proof.
  destruct (empty_values_are_skipped (H := Model.env) [("a", VStr "x")] [("b", VStr "y")]
              "roles" (VList []) 1 "" (or_introl eq_refl)) as (H1 & H2 & _).
  exact (conj H1 H2).
Defined.

(** X5. The [tfimport] serializer completes on every value that
    holds no null: its panics are the calls of [Kind()] on the type of
    a nil interface, and nothing else. *)
Theorem tfimport_total_without_null `{Env} (v : value float64) (lvl : nat) (b : Builder) :
  null_free v = true →
  ∃ out, tfimport.convertToHCLLine v lvl b = Ok out.
Proof. apply tfimport_never_panics. Qed.

(** An instance: a name and a list with one block. *)
Lemma tfimport_total_without_null_witness :
  ∃ out,
    tfimport.convertToHCLLine
      (VMap [("name", VStr "x"); ("rules", VList [VMap [("op", VStr "eq")]])]) 1 ""
    = Ok out.
Proof.
  exact (tfimport_total_without_null (H := Model.env)
           (VMap [("name", VStr "x"); ("rules", VList [VMap [("op", VStr "eq")]])])
           1 "" eq_refl).
Defined.

(** X6. The [stateparser] serializer completes on every value in
    which no list starts with a null; a null as the value of a key, or
    further on in a list of scalars, does no harm. *)
Theorem stateparser_total_without_null_heads `{Env} (v : value float64) (lvl : nat)
    (b : Builder) :
  null_headed v = false →
  ∃ out, stateparser.convertToHCLLine v lvl b = Ok out.
Proof. apply stateparser_never_panics. Qed.

(** An instance: a null value and a null inside a list of strings. *)
Lemma stateparser_total_without_null_heads_witness :
  ∃ out,
    stateparser.convertToHCLLine
      (VMap [("name", VStr "x"); ("notes", VNil); ("roles", VList [VStr "a"; VNil])]) 1 ""
    = Ok out.
Proof.
  exact (stateparser_total_without_null_heads (H := Model.env)
           (VMap [("name", VStr "x"); ("notes", VNil); ("roles", VList [VStr "a"; VNil])])
           1 "" eq_refl).
Defined.

(** X7. On values made of scalars and repeated blocks only (below
    a key a string, a number, a boolean, or a list of maps and lists;
    no null, no map as the value of a key, no list of scalars) the two
    serializers write the same text. *)
Theorem serializers_agree_on_blocks `{Env} (v : value float64) (lvl : nat) (b : Builder) :
  blocks_only v = true →
  tfimport.convertToHCLLine v lvl b = stateparser.convertToHCLLine v lvl b.
Proof.
  revert lvl b.
  induction v as [|x|x|s|sl IH|m IH] using value_ind_lists; intros lvl b Hv;
    try done.
  revert b. induction m as [|[k v] m IHm]; intros b; [done|].
  apply Forall_cons in IH as [[Hv1 Hsl] IH]. cbn [snd] in Hv1, Hsl.
  cbn [blocks_only forallb snd] in Hv. apply andb_true_iff in Hv as [Hnv Hm].
  rewrite tfimport_cons, stateparser_cons.
  assert (tfimport.convertToHCLLine (VMap [(k, v)]) lvl b
          = stateparser.convertToHCLLine (VMap [(k, v)]) lvl b) as ->.
  { destruct v as [|x|x|s|sl|vm]; try done.
    specialize (Hsl sl eq_refl).
    assert (∀ e, e ∈ sl → composite e = true ∧ blocks_only e = true) as Hall.
    { intros e He. rewrite forallb_forall in Hnv.
      specialize (Hnv e ltac:(by apply list_elem_of_In)). by destruct e. }
    destruct sl as [|e0 rest]; [done|].
    destruct (Hall e0 ltac:(left)) as [Hc _].
    rewrite tfimport_blocks_cons, stateparser_blocks_cons by done.
    rewrite (forEach_block_ext tfimport.convertToHCLLine stateparser.convertToHCLLine);
      [done|].
    rewrite Forall_forall in Hsl. apply Forall_forall. intros e He l b'.
    apply Hsl; [done|]. by apply Hall. }
  destruct (stateparser.convertToHCLLine (VMap [(k, v)]) lvl b) as [b1|]; [|done].
  rewrite !bind_Ok. by apply IHm.
Qed.

(** An instance: a name and a list with one block. *)
Lemma serializers_agree_on_blocks_witness :
  tfimport.convertToHCLLine
    (VMap [("name", VStr "x"); ("rules", VList [VMap [("op", VStr "eq")]])]) 1 ""
  = stateparser.convertToHCLLine
      (VMap [("name", VStr "x"); ("rules", VList [VMap [("op", VStr "eq")]])]) 1 "".
Proof.
  exact (serializers_agree_on_blocks (H := Model.env)
           (VMap [("name", VStr "x"); ("rules", VList [VMap [("op", VStr "eq")]])])
           1 "" eq_refl).
Defined.

(* ===================================================================== *)
(** * Further properties: the converters                                *)
(* ===================================================================== *)

Section KnownProviders.

Context `{Env}.

Implicit Types (r : stateparser.StateResource) (b : Builder).
Implicit Types (rs : list stateparser.StateResource) (kp : gmap string nat).

(** [knownProviders] holds exactly the providers of the resources
    visited so far. *)
Lemma known_providers rs b kp b' kp' pd :
  forEach tfimport.resource_body rs (b, kp) = Ok (b', kp') →
  default 0 (kp' !! pd) = 0
  ↔ default 0 (kp !! pd) = 0 ∧ pd ∉ provider_of <$> rs.
Proof.
  revert b kp. induction rs as [|r rs IH]; intros b kp.
  - simpl. intros [= <- <-]. split; [|by intros [? _]].
    intros ?. split; [done|]. by intros ?%elem_of_nil.
  - cbn [forEach].
    destruct (tfimport.resource_body (b, kp) r) as [[b1 kp1]|] eqn:E; [|done].
    rewrite bind_Ok. intros Hrest. rewrite (IH _ _ Hrest). clear IH Hrest.
    rewrite fmap_cons, not_elem_of_cons.
    assert (default 0 (kp1 !! pd) = 0
            ↔ default 0 (kp !! pd) = 0 ∧ pd ≠ provider_of r) as ->; [|tauto].
    unfold tfimport.resource_body in E. fold (provider_of r) in E.
    destruct (default 0 (kp !! provider_of r) =? 0) eqn:Ez;
      destruct (forEach _ _ _) as [b2|]; try done;
      rewrite bind_Ok in E; injection E as _ <-.
    + apply Nat.eqb_eq in Ez.
      destruct (decide (pd = provider_of r)) as [->|Hne].
      * rewrite lookup_insert_eq. simpl. split; [done|by intros [_ ?]].
      * rewrite lookup_insert_ne by done. tauto.
    + apply Nat.eqb_neq in Ez.
      destruct (decide (pd = provider_of r)) as [->|Hne]; tauto.
Qed.

End KnownProviders.

(** X8. [convertTFStateToHCL] writes the block of a provider once,
    in front of the first resource that uses it. Appending a resource
    to a snapshot appends the provider block only when no earlier
    resource has the same provider name (the [Provider] field without
    its first [provider.]), then the blocks of the instances, then the
    content. *)
Theorem provider_block_written_once `{Env} (rs : list stateparser.StateResource)
    (r : stateparser.StateResource) :
  tfimport.convertTFStateToHCL (stateparser.mkState (rs ++ [r]))
  = (out ← tfimport.convertTFStateToHCL (stateparser.mkState rs);
     out ← forEach (tfimport.instance_body r (provider_of r)) (stateparser.Instances r)
             (if bool_decide (provider_of r ∈ provider_of <$> rs) then out
              else out +:+ provider_block (provider_of r));
     Ok (out +:+ stateparser.Content r)).
Proof.
  unfold tfimport.convertTFStateToHCL. cbn [stateparser.Resources].
  rewrite forEach_app.
  destruct (forEach tfimport.resource_body rs ("", ∅)) as [[b kp]|] eqn:E; [|done].
  rewrite !bind_Ok. cbn [forEach fst].
  pose proof (known_providers rs "" ∅ b kp (provider_of r) E) as Hkp.
  rewrite lookup_empty in Hkp. cbn [default] in Hkp.
  unfold tfimport.resource_body. fold (provider_of r).
  destruct (default 0 (kp !! provider_of r) =? 0) eqn:Ez.
  - apply Nat.eqb_eq in Ez. apply Hkp in Ez as [_ Hnot].
    rewrite bool_decide_eq_false_2 by done.
    change (WriteString b _) with (b +:+ provider_block (provider_of r)).
    destruct (forEach (tfimport.instance_body r (provider_of r))
                (stateparser.Instances r) _) as [b2|]; reflexivity.
  - apply Nat.eqb_neq in Ez.
    rewrite bool_decide_eq_true_2.
    + destruct (forEach (tfimport.instance_body r (provider_of r))
                  (stateparser.Instances r) _) as [b2|]; reflexivity.
    + destruct (decide (provider_of r ∈ provider_of <$> rs)) as [|Hn]; [done|].
      destruct Ez. by apply Hkp.
Qed.

(** X9. The text of [ConvertTFStateToHCL] is the fixed preamble
    followed by the texts of the resources in order, and the text of a
    resource is what the loop body writes for it on an empty builder:
    it does not depend on the resources around it. *)
Theorem converted_text_is_preamble_and_resources `{Env} (state : stateparser.State)
    (out : string) :
  stateparser.ConvertTFStateToHCL state = Ok out →
  ∃ texts,
    Forall2 (λ r t, stateparser.resource_body "" r = Ok t)
      (stateparser.Resources state) texts
    ∧ out = stateparser.preamble +:+ String.concat "" texts.
Proof.
  unfold stateparser.ConvertTFStateToHCL.
  generalize stateparser.preamble. revert out.
  induction (stateparser.Resources state) as [|r rs IH]; intros out b.
  - simpl. intros [= <-]. exists []. split; [constructor|].
    simpl. by rewrite string_app_nil_r.
  - cbn [forEach].
    destruct (stateparser.resource_body b r) as [b1|] eqn:E; [|done].
    rewrite bind_Ok. intros Hrest.
    apply (appends_Ok_inv _ _ _ (stateparser_resource_appends r)) in E as (t & Et & ->).
    apply IH in Hrest as (texts & Hall & ->).
    exists (t :: texts). split; [by constructor|].
    by rewrite concat_cons_string, string_app_assoc.
Qed.

(** An instance: the snapshot of two resources. *)
Lemma converted_text_is_preamble_and_resources_witness :
  ∃ texts,
    Forall2 (λ r t, stateparser.resource_body "" r = Ok t)
      (stateparser.Resources sample_state) texts
    ∧ text_of (stateparser.ConvertTFStateToHCL sample_state)
      = stateparser.preamble +:+ String.concat "" texts.
Proof.
  apply (converted_text_is_preamble_and_resources (H := Model.env) sample_state).
  vm_compute. reflexivity.
Defined.

Section Conversion.

Context `{Env}.

Lemma forEach_total {A S} (body : S → A → result S) (l : list A) (s : S) :
  Forall (λ x, ∀ s', ∃ s'', body s' x = Ok s'') l →
  ∃ s'', forEach body l s = Ok s''.
Proof.
  intros Hl. revert s. induction Hl as [|x l Hx _ IH]; intros s; [by eexists|].
  cbn [forEach]. destruct (Hx s) as [s1 ->]. rewrite bind_Ok. apply IH.
Qed.

End Conversion.

(** X10. Both converters complete, whatever the number of resources
    and instances, when the shaped data of no instance can make the
    serializer panic: no list starting with a null for [stateparser],
    no null at all for [tfimport]. *)
Theorem conversion_completes `{Env} (state : stateparser.State) :
  Forall (λ r, Forall (λ i, null_headed (HCLShape (stateparser.Type_ r)
                                           (stateparser.Data i)) = false)
                 (stateparser.Instances r))
    (stateparser.Resources state) →
  Forall (λ r, Forall (λ i, null_free (sculpt (stateparser.Type_ r)
                                         (stateparser.Data i)) = true)
                 (stateparser.Instances r))
    (stateparser.Resources state) →
  (∃ out, stateparser.ConvertTFStateToHCL state = Ok out)
  ∧ (∃ out, tfimport.convertTFStateToHCL state = Ok out).
Proof.
  intros Hsp Htf. split.
  - unfold stateparser.ConvertTFStateToHCL. apply forEach_total.
    eapply Forall_impl; [exact Hsp|]. intros r Hr b. cbn beta.
    unfold stateparser.resource_body.
    destruct (forEach_total (stateparser.instance_body r) (stateparser.Instances r) b)
      as [b1 ->]; [|by eexists].
    eapply Forall_impl; [exact Hr|]. intros i Hi b'. cbn beta.
    unfold stateparser.instance_body.
    destruct (stateparser_never_panics _ 1
                (WriteString b' (cat ["resource "; stateparser.Type_ r; " ";
                                      stateparser.Name r; " {"; LF])) Hi) as [b2 ->].
    by eexists.
  - unfold tfimport.convertTFStateToHCL.
    destruct (forEach_total tfimport.resource_body (stateparser.Resources state)
                ("", ∅)) as [st ->]; [|by eexists].
    eapply Forall_impl; [exact Htf|]. intros r Hr [b kp]. cbn beta.
    unfold tfimport.resource_body.
    assert (∀ pd b0, ∃ b1, forEach (tfimport.instance_body r pd)
                             (stateparser.Instances r) b0 = Ok b1) as Hinst.
    { intros pd b0. apply forEach_total.
      eapply Forall_impl; [exact Hr|]. intros i Hi b'. cbn beta.
      unfold tfimport.instance_body.
      match goal with
      | |- context [tfimport.convertToHCLLine ?v ?l ?b2] =>
          destruct (tfimport_never_panics v l b2 Hi) as [b3 ->]
      end.
      by eexists. }
    destruct (default 0 (kp !! _) =? 0).
    + match goal with
      | |- context [forEach (tfimport.instance_body r ?pd) ?l ?b0] =>
          destruct (Hinst pd b0) as [b1 ->]
      end.
      by eexists.
    + match goal with
      | |- context [forEach (tfimport.instance_body r ?pd) ?l ?b0] =>
          destruct (Hinst pd b0) as [b1 ->]
      end.
      by eexists.
Qed.

(** An instance: the snapshot of two resources. *)
Lemma conversion_completes_witness :
  (∃ out, stateparser.ConvertTFStateToHCL sample_state = Ok out)
  ∧ (∃ out, tfimport.convertTFStateToHCL sample_state = Ok out).
Proof.
  apply (conversion_completes (H := Model.env) sample_state).
  - repeat constructor.
  - repeat constructor.
Defined.

(* ===================================================================== *)
(** * Further properties: the scanner and the filter                    *)
(* ===================================================================== *)

Section FilterFacts.

Implicit Types (rd : ResourceDefinition) (defs : list ResourceDefinition).

Lemma List_filter_sublist {A} (f : A → bool) (l : list A) : sublist (List.filter f l) l.
Proof.
  induction l as [|x l IH]; simpl; [constructor|].
  destruct (f x); by constructor.
Qed.

Lemma List_filter_count_occ {A} (dec : ∀ x y : A, {x = y} + {x ≠ y})
    (f : A → bool) (l : list A) (x : A) :
  count_occ dec (List.filter f l) x = if f x then count_occ dec l x else 0.
Proof.
  induction l as [|y l IH]; simpl.
  - by destruct (f x).
  - destruct (f y) eqn:Ey; simpl; destruct (dec y x) as [->|Hne]; rewrite IH.
    + by rewrite Ey.
    + done.
    + by rewrite Ey.
    + done.
Qed.

Lemma List_filter_twice {A} (f : A → bool) (l : list A) :
  List.filter f (List.filter f l) = List.filter f l.
Proof.
  induction l as [|x l IH]; simpl; [done|].
  destruct (f x) eqn:Ex; simpl; [|done]. by rewrite Ex, IH.
Qed.

(** The text [createHCLDefinitionsBuffer] writes: the provider blocks,
    then one line per resource. *)
Lemma fold_WriteString {A} (g : A → string) (l : list A) (b : Builder) :
  fold_left (λ builder x, WriteString builder (g x)) l b
  = b +:+ String.concat "" (g <$> l).
Proof.
  revert b. induction l as [|x l IH]; intros b.
  - simpl. by rewrite string_app_nil_r.
  - rewrite fmap_cons, concat_cons_string. cbn [fold_left]. rewrite IH.
    unfold WriteString. by rewrite string_app_assoc.
Qed.

End FilterFacts.

Section Margins.

Lemma non_word_not_r (c : ascii) : non_word c = true → Ascii.eqb "r" c = false.
Proof. destruct c as [[] [] [] [] [] [] [] []]; vm_compute; congruence. Qed.

Lemma non_word_not_p (c : ascii) : non_word c = true → Ascii.eqb "p" c = false.
Proof. destruct c as [[] [] [] [] [] [] [] []]; vm_compute; congruence. Qed.

Lemma resource_match_here (type l d tail : string) :
  all_bytes Go.is_alpha_dash type = true →
  all_bytes Go.is_alpha_dash l = true →
  all_bytes Go.is_digit d = true →
  Go.match_here tfimport.resourceRegexp (resource_header type (l +:+ d) +:+ tail)
  = Some [resource_header type (l +:+ d); "resource"; type; l +:+ d].
Proof.
  intros Ht Hl Hd.
  assert (resource_header type (l +:+ d) +:+ tail
          = "resource " +:+ type +:+ " " +:+ l +:+ d +:+ " {" +:+ tail) as Eline.
  { unfold resource_header, cat. cbn [String.concat].
    by rewrite !string_app_assoc. }
  rewrite Eline.
  unfold Go.match_here, tfimport.resourceRegexp.
  cbn [String.append Go.NumSubexp Nat.add replicate Go.run].
  rewrite star_word_resource.
  change (Go.is_space " ") with true. cbv iota.
  eapply star_skip; [exact Ht|reflexivity|].
  cbn [String.append].
  change (Go.is_space " ") with true. cbv iota.
  eapply star_skip; [exact Hl|by apply stops_digits_then|].
  eapply star_skip; [exact Hd|reflexivity|].
  cbn [String.append Go.strip Ascii.eqb Bool.eqb]. change (Go.is_space " ") with true.
  cbv iota.
  match goal with
  | |- context [<[0 := Go.consumed ?whole tail]> _] =>
      assert (Go.consumed whole tail = resource_header type (l +:+ d)) as ->
  end.
  { transitivity (Go.consumed (resource_header type (l +:+ d) +:+ tail) tail);
      [by rewrite Eline|apply consumed_app]. }
  rewrite consumed_resource, (consumed_app type).
  rewrite <- (string_app_assoc l d), (consumed_app (l +:+ d)).
  reflexivity.
Qed.

Lemma star_word_provider {A} (tail : string) (k : string → option A) :
  Go.star Go.is_word
    (String "p" (String "r" (String "o" (String "v" (String "i" (String "d"
       (String "e" (String "r" (String " " tail)))))))))
    (λ s1, match Go.strip "provider" s1 with
           | Some s2 => Go.star Go.is_word s2 k
           | None => None
           end)
  = k (String " " tail).
Proof. reflexivity. Qed.

Lemma consumed_provider (tail : string) :
  Go.consumed
    (String "p" (String "r" (String "o" (String "v" (String "i" (String "d"
       (String "e" (String "r" (String " " tail)))))))))
    (String " " tail)
  = "provider".
Proof. exact (consumed_app "provider" (String " " tail)). Qed.

Lemma provider_match_here (p tail : string) :
  all_bytes Go.is_alpha_ p = true →
  Go.match_here tfimport.providerRegexp (provider_header p +:+ tail)
  = Some [provider_header p; "provider"; p; p].
Proof.
  intros Hp.
  assert (provider_header p +:+ tail = "provider " +:+ p +:+ " {" +:+ tail) as Eline.
  { unfold provider_header, cat. cbn [String.concat].
    by rewrite !string_app_assoc. }
  rewrite Eline.
  unfold Go.match_here, tfimport.providerRegexp.
  cbn [String.append Go.NumSubexp Nat.add replicate Go.run].
  rewrite star_word_provider.
  change (Go.is_space " ") with true. cbv iota.
  eapply star_skip; [exact Hp|reflexivity|].
  cbn [String.append Go.strip Ascii.eqb Bool.eqb]. change (Go.is_space " ") with true.
  cbv iota.
  match goal with
  | |- context [<[0 := Go.consumed ?whole tail]> _] =>
      assert (Go.consumed whole tail = provider_header p) as ->
  end.
  { transitivity (Go.consumed (provider_header p +:+ tail) tail);
      [by rewrite Eline|apply consumed_app]. }
  rewrite consumed_provider, (consumed_app p).
  reflexivity.
Qed.

(** Bytes outside [\w] in front of a header do not keep the patterns
    from finding it: no match starts inside them. *)
Lemma resource_line_match (pre type l d tail : string) :
  all_bytes non_word pre = true →
  all_bytes Go.is_alpha_dash type = true →
  all_bytes Go.is_alpha_dash l = true →
  all_bytes Go.is_digit d = true →
  Go.FindStringSubmatch tfimport.resourceRegexp
    (pre +:+ resource_header type (l +:+ d) +:+ tail)
  = [resource_header type (l +:+ d); "resource"; type; l +:+ d].
Proof.
  intros Hpre Ht Hl Hd. induction pre as [|c pre IH].
  - cbn [String.append].
    pose proof (resource_match_here type l d tail Ht Hl Hd) as E.
    destruct (resource_header type (l +:+ d) +:+ tail);
      cbn [Go.FindStringSubmatch]; by rewrite E.
  - cbn [all_bytes] in Hpre. apply andb_true_iff in Hpre as [Hc Hpre].
    cbn [String.append Go.FindStringSubmatch].
    assert (Go.match_here tfimport.resourceRegexp
              (String c (pre +:+ resource_header type (l +:+ d) +:+ tail)) = None) as ->.
    { unfold Go.match_here, tfimport.resourceRegexp.
      cbn [Go.NumSubexp Nat.add replicate Go.run Go.star].
      unfold non_word in Hc. apply negb_true_iff in Hc as Hw. rewrite Hw.
      cbn [Go.strip]. by rewrite (non_word_not_r c Hc). }
    by apply IH.
Qed.

Lemma provider_line_match (pre p tail : string) :
  all_bytes non_word pre = true →
  all_bytes Go.is_alpha_ p = true →
  Go.FindStringSubmatch tfimport.providerRegexp (pre +:+ provider_header p +:+ tail)
  = [provider_header p; "provider"; p; p].
Proof.
  intros Hpre Hp. induction pre as [|c pre IH].
  - cbn [String.append].
    pose proof (provider_match_here p tail Hp) as E.
    destruct (provider_header p +:+ tail); cbn [Go.FindStringSubmatch]; by rewrite E.
  - cbn [all_bytes] in Hpre. apply andb_true_iff in Hpre as [Hc Hpre].
    cbn [String.append Go.FindStringSubmatch].
    assert (Go.match_here tfimport.providerRegexp
              (String c (pre +:+ provider_header p +:+ tail)) = None) as ->.
    { unfold Go.match_here, tfimport.providerRegexp.
      cbn [Go.NumSubexp Nat.add replicate Go.run Go.star].
      unfold non_word in Hc. apply negb_true_iff in Hc as Hw. rewrite Hw.
      cbn [Go.strip]. by rewrite (non_word_not_p c Hc). }
    by apply IH.
Qed.

End Margins.

Section Declarations.

Implicit Types (collection : gmap string (gmap string nat)).

(** A line on which the provider pattern finds a name puts the name
    into the index. *)
Lemma scan_line_found_provider collection t whole keyword name name' :
  Go.FindStringSubmatch tfimport.providerRegexp t = [whole; keyword; name'; name] →
  1 ≤ tfimport.count (tfimport.scan_line collection t) "provider" name.
Proof.
  intros Hm. unfold tfimport.scan_line, tfimport.searchCriteria. cbn [fold_left].
  etrans; [|apply scan_pattern_mono].
  unfold tfimport.scan_pattern. rewrite Hm. simpl.
  rewrite count_insert_inner. rewrite decide_True by done.
  rewrite lookup_insert_eq. simpl. lia.
Qed.

Lemma scan_lines_found_provider lines collection t whole keyword name name' :
  t ∈ lines →
  Go.FindStringSubmatch tfimport.providerRegexp t = [whole; keyword; name'; name] →
  1 ≤ tfimport.count (fold_left tfimport.scan_line lines collection) "provider" name.
Proof.
  intros Hin Hm. revert collection.
  induction lines as [|t' lines IH]; intros collection.
  { by apply elem_of_nil in Hin. }
  apply elem_of_cons in Hin as [<-|Hin]; simpl.
  - etrans; [|apply scan_lines_mono]. by eapply scan_line_found_provider.
  - by apply IH.
Qed.

(** A line keeps what follows its opening brace, up to one trailing
    carriage return. *)
Lemma dropCR_brace (x y : string) :
  Go.dropCR (x +:+ String "{" y) = x +:+ String "{" (Go.dropCR y).
Proof.
  induction x as [|a x IH]; cbn [String.append].
  - by destruct y.
  - rewrite dropCR_cons; [by rewrite IH|]. by destruct x.
Qed.

Lemma resource_header_brace type name :
  resource_header type name = ("resource " +:+ type +:+ " " +:+ name +:+ " ") +:+ "{".
Proof.
  unfold resource_header, cat. cbn [String.concat].
  by rewrite !string_app_assoc.
Qed.

Lemma provider_header_brace p :
  provider_header p = ("provider " +:+ p +:+ " ") +:+ "{".
Proof.
  unfold provider_header, cat. cbn [String.concat].
  by rewrite !string_app_assoc.
Qed.

Lemma provider_header_one_line p :
  pattern_provider p → has_byte "010" (provider_header p) = false.
Proof.
  intros Hp. unfold provider_header, cat. cbn [String.concat String.append has_byte].
  repeat (rewrite has_byte_app; cbn [has_byte]).
  by rewrite (all_bytes_has_byte _ _ _ Hp).
Qed.

(** A resource header on a line of the file, after a margin of bytes
    outside [\\w] and in front of anything, is found by the scan. *)
Lemma resource_line_found (before pre type name tail after : string) :
  aligned before →
  all_bytes non_word pre = true → has_byte "010" pre = false →
  pattern_type type → pattern_name name →
  has_byte "010" tail = false →
  lines_fit (before +:+ (pre +:+ resource_header type name +:+ tail) +:+ LF +:+ after) ""
    = true →
  1 ≤ tfimport.count
        (tfimport.scan_file
           (before +:+ (pre +:+ resource_header type name +:+ tail) +:+ LF +:+ after))
        "resource" (type +:+ "." +:+ name).
Proof.
  intros Hb Hpre HpreLF Ht Hn Htail Hfit.
  assert (has_byte "010" (pre +:+ resource_header type name +:+ tail) = false) as Hline.
  { by rewrite !has_byte_app, HpreLF, header_one_line, Htail. }
  pose proof (ScanLines_finds before _ after Hb Hline Hfit) as Hin.
  assert (Go.dropCR (pre +:+ resource_header type name +:+ tail)
          = pre +:+ resource_header type name +:+ Go.dropCR tail) as Ed.
  { rewrite resource_header_brace.
    generalize ("resource " +:+ type +:+ " " +:+ name +:+ " "). intros h.
    assert (∀ t, pre +:+ (h +:+ "{") +:+ t = (pre +:+ h) +:+ String "{" t) as E.
    { intros t. by rewrite !string_app_assoc. }
    rewrite !E. apply dropCR_brace. }
  rewrite Ed in Hin. destruct Hn as (l & d & -> & Hl & Hd).
  unfold tfimport.scan_file.
  eapply scan_lines_found; [exact Hin|].
  by apply resource_line_match.
Qed.

Lemma provider_line_found (before pre p tail after : string) :
  aligned before →
  all_bytes non_word pre = true → has_byte "010" pre = false →
  pattern_provider p →
  has_byte "010" tail = false →
  lines_fit (before +:+ (pre +:+ provider_header p +:+ tail) +:+ LF +:+ after) "" = true →
  1 ≤ tfimport.count
        (tfimport.scan_file
           (before +:+ (pre +:+ provider_header p +:+ tail) +:+ LF +:+ after))
        "provider" p.
Proof.
  intros Hb Hpre HpreLF Hp Htail Hfit.
  assert (has_byte "010" (pre +:+ provider_header p +:+ tail) = false) as Hline.
  { by rewrite !has_byte_app, HpreLF, provider_header_one_line, Htail. }
  pose proof (ScanLines_finds before _ after Hb Hline Hfit) as Hin.
  assert (Go.dropCR (pre +:+ provider_header p +:+ tail)
          = pre +:+ provider_header p +:+ Go.dropCR tail) as Ed.
  { rewrite provider_header_brace.
    generalize ("provider " +:+ p +:+ " "). intros h.
    assert (∀ t, pre +:+ (h +:+ "{") +:+ t = (pre +:+ h) +:+ String "{" t) as E.
    { intros t. by rewrite !string_app_assoc. }
    rewrite !E. apply dropCR_brace. }
  rewrite Ed in Hin.
  unfold tfimport.scan_file.
  eapply scan_lines_found_provider; [exact Hin|].
  by apply provider_line_match.
Qed.

End Declarations.

Section Headers.

Implicit Types (rd : ResourceDefinition) (defs : list ResourceDefinition).

Lemma createHCLDefinitionsBuffer_text defs (provs : list string) :
  tfimport.createHCLDefinitionsBuffer defs provs
  = String.concat "" (provider_block <$> provs)
      +:+ String.concat "" (declaration_stub <$> defs).
Proof.
  change (tfimport.createHCLDefinitionsBuffer defs provs)
    with (fold_left (λ builder rd, WriteString builder (declaration_stub rd)) defs
            (fold_left (λ builder p, WriteString builder (provider_block p))
               provs "")).
  by rewrite !fold_WriteString.
Qed.

Lemma provider_block_lines p :
  provider_block p
  = provider_header p +:+ LF
      +:+ cat [TAB; "alias = "; QUOTE; p; QUOTE; LF; "}"; LF; LF].
Proof.
  unfold provider_block, provider_header, cat. cbn [String.concat String.append].
  by repeat (rewrite string_app_assoc; cbn [String.append]).
Qed.

Lemma declaration_stub_line rd :
  declaration_stub rd = resource_header (Type_ rd) (Name rd) +:+ "}" +:+ LF.
Proof.
  unfold declaration_stub, resource_header, cat. cbn [String.concat String.append].
  by repeat (rewrite string_app_assoc; cbn [String.append]).
Qed.

Lemma provider_blocks_aligned (provs : list string) :
  aligned (String.concat "" (provider_block <$> provs)).
Proof.
  apply concat_aligned, Forall_fmap, Forall_forall. intros p _. cbn.
  exists (cat ["provider "; p; " {"; LF; TAB; "alias = "; QUOTE; p; QUOTE; LF; "}"; LF]).
  unfold provider_block, cat. cbn [String.concat String.append].
  by repeat (rewrite string_app_assoc; cbn [String.append]).
Qed.

Lemma declaration_stubs_aligned defs :
  aligned (String.concat "" (declaration_stub <$> defs)).
Proof.
  apply concat_aligned, Forall_fmap, Forall_forall. intros rd _. cbn.
  exists (cat ["resource "; Type_ rd; " "; Name rd; " {}"]).
  unfold declaration_stub, cat. cbn [String.concat String.append].
  by repeat (rewrite string_app_assoc; cbn [String.append]).
Qed.

(** The scan of a file that holds the headers finds each of them. *)
Lemma written_resource_found (before after : string) defs (provs : list string) rd :
  aligned before → rd ∈ defs →
  pattern_type (Type_ rd) → pattern_name (Name rd) →
  lines_fit (before +:+ tfimport.createHCLDefinitionsBuffer defs provs +:+ after) ""
    = true →
  1 ≤ tfimport.count
        (tfimport.scan_file
           (before +:+ tfimport.createHCLDefinitionsBuffer defs provs +:+ after))
        "resource" (Type_ rd +:+ "." +:+ Name rd).
Proof.
  intros Hb Hin Ht Hn. rewrite createHCLDefinitionsBuffer_text.
  apply list_elem_of_split in Hin as (d1 & d2 & ->).
  rewrite fmap_app, fmap_cons, concat_app_string, concat_cons_string.
  rewrite declaration_stub_line.
  pose proof (provider_blocks_aligned provs) as Hp.
  pose proof (declaration_stubs_aligned d1) as Hd1.
  set (PB := String.concat "" (provider_block <$> provs)) in *.
  set (L1 := String.concat "" (declaration_stub <$> d1)) in *.
  set (L2 := String.concat "" (declaration_stub <$> d2)).
  set (h := resource_header (Type_ rd) (Name rd)).
  assert (before +:+ (PB +:+ L1 +:+ (h +:+ "}" +:+ LF) +:+ L2) +:+ after
          = (before +:+ PB +:+ L1) +:+ ("" +:+ h +:+ "}") +:+ LF +:+ (L2 +:+ after))
    as ->.
  { clearbody PB L1 L2 h. cbn [String.append]. by rewrite !string_app_assoc. }
  intros Hfit. apply resource_line_found; try done.
  by repeat apply aligned_app.
Qed.

Lemma written_provider_found (before after : string) defs (provs : list string) p :
  aligned before → p ∈ provs → pattern_provider p →
  lines_fit (before +:+ tfimport.createHCLDefinitionsBuffer defs provs +:+ after) ""
    = true →
  1 ≤ tfimport.count
        (tfimport.scan_file
           (before +:+ tfimport.createHCLDefinitionsBuffer defs provs +:+ after))
        "provider" p.
Proof.
  intros Hb Hin Hp. rewrite createHCLDefinitionsBuffer_text.
  apply list_elem_of_split in Hin as (p1 & p2 & ->).
  rewrite fmap_app, fmap_cons, concat_app_string, concat_cons_string.
  rewrite provider_block_lines.
  pose proof (provider_blocks_aligned p1) as Hp1.
  set (PB1 := String.concat "" (provider_block <$> p1)) in *.
  set (PB2 := String.concat "" (provider_block <$> p2)).
  set (L := String.concat "" (declaration_stub <$> defs)).
  set (h := provider_header p).
  set (body := cat [TAB; "alias = "; QUOTE; p; QUOTE; LF; "}"; LF; LF]).
  assert (before +:+ ((PB1 +:+ (h +:+ LF +:+ body) +:+ PB2) +:+ L) +:+ after
          = (before +:+ PB1) +:+ ("" +:+ h +:+ "") +:+ LF
              +:+ (body +:+ PB2 +:+ L +:+ after)) as ->.
  { clearbody PB1 PB2 L h body. cbn [String.append].
    by rewrite !string_app_assoc, ?string_app_nil_r. }
  intros Hfit. apply provider_line_found; try done.
  by apply aligned_app.
Qed.

End Headers.

(** X11. The patterns of the scanner are not anchored. A resource
    header counts as a declaration also behind a margin of bytes
    outside the word class (indentation, a comment mark) and in front of
    any text on the same line: the filter never returns a definition of
    that type and name. *)
Theorem commented_declaration_still_counts (before pre type name tail after : string)
    (defs : list ResourceDefinition) :
  aligned before →
  all_bytes non_word pre = true → has_byte "010" pre = false →
  pattern_type type → pattern_name name →
  has_byte "010" tail = false →
  lines_fit (before +:+ (pre +:+ resource_header type name +:+ tail) +:+ LF +:+ after) ""
    = true →
  Forall (λ rd, ¬ (Type_ rd = type ∧ Name rd = name))
    (tfimport.filterExistingDefinitions
       (before +:+ (pre +:+ resource_header type name +:+ tail) +:+ LF +:+ after)
       defs).1.
Proof.
  intros Hb Hpre HpreLF Ht Hn Htail Hfit.
  pose proof (resource_line_found before pre type name tail after
                Hb Hpre HpreLF Ht Hn Htail Hfit) as Hcount.
  apply Forall_forall. intros rd Hin [<- <-].
  unfold tfimport.filterExistingDefinitions in Hin. cbn [fst] in Hin.
  apply elem_of_List_filter in Hin as [_ Hz]. apply Nat.eqb_eq in Hz. lia.
Qed.

(** An instance: a declaration behind a comment mark. *)
Lemma commented_declaration_still_counts_witness :
  lines_fit ("" +:+ ("# " +:+ resource_header "app" "x" +:+ " # kept") +:+ LF +:+ "") ""
    = true
  ∧ Forall (λ rd, ¬ (Type_ rd = "app" ∧ Name rd = "x"))
      (tfimport.filterExistingDefinitions
         ("" +:+ ("# " +:+ resource_header "app" "x" +:+ " # kept") +:+ LF +:+ "")
         [mkResourceDefinition "app" "x" "onelogin" "1";
          mkResourceDefinition "app" "y" "onelogin" "2"]).1.
Proof.
  split; [reflexivity|].
  apply (commented_declaration_still_counts "" "# " "app" "x" " # kept" "").
  - by left.
  - reflexivity.
  - reflexivity.
  - reflexivity.
  - exists "x", "". by repeat split.
  - reflexivity.
  - reflexivity.
Defined.

(** X12. What [createHCLDefinitionsBuffer] writes,
    [filterExistingDefinitions] finds again. In a file that holds the
    headers of a batch (after aligned text, in front of anything) no
    definition of the batch is new and none of the written providers is
    returned, for types, names and providers of the shape the patterns
    expect; a run of [tfImport] on that file and batch ends at once with
    nothing to import. This is the state a run leaves behind when it
    dies in the import loop. *)
Theorem written_headers_are_found `{Env} (before after : string)
    (defs : list ResourceDefinition) (provs : list string) :
  aligned before →
  Forall (λ rd, pattern_type (Type_ rd) ∧ pattern_name (Name rd)) defs →
  Forall pattern_provider provs →
  lines_fit (before +:+ tfimport.createHCLDefinitionsBuffer defs provs +:+ after) ""
    = true →
  (tfimport.filterExistingDefinitions
     (before +:+ tfimport.createHCLDefinitionsBuffer defs provs +:+ after) defs).1 = []
  ∧ Forall (λ p, p ∉ (tfimport.filterExistingDefinitions
                        (before +:+ tfimport.createHCLDefinitionsBuffer defs provs
                           +:+ after) defs).2) provs
  ∧ ∀ (w : World) (autoApprove : bool),
      open_ok w = true → remote w = defs →
      main_tf w = before +:+ tfimport.createHCLDefinitionsBuffer defs provs +:+ after →
      cmd.tfImport w autoApprove = [Open; Close; Exit 0].
Proof.
  intros Hb Hdefs Hprovs Hfit.
  assert ((tfimport.filterExistingDefinitions
             (before +:+ tfimport.createHCLDefinitionsBuffer defs provs +:+ after)
             defs).1 = []) as Hnone.
  { unfold tfimport.filterExistingDefinitions. cbn [fst].
    apply List_filter_none. intros rd Hin.
    rewrite Forall_forall in Hdefs. destruct (Hdefs rd Hin) as [Ht Hn].
    pose proof (written_resource_found before after defs provs rd Hb Hin Ht Hn Hfit).
    apply Nat.eqb_neq. lia. }
  split; [exact Hnone|]. split.
  - apply Forall_forall. intros p Hin Hret.
    rewrite Forall_forall in Hprovs.
    pose proof (written_provider_found before after defs provs p Hb Hin
                  (Hprovs p Hin) Hfit).
    unfold tfimport.filterExistingDefinitions in Hret. cbn [snd] in Hret.
    apply elem_of_List_filter in Hret as [_ Hz]. apply Nat.eqb_eq in Hz. lia.
  - intros w autoApprove Ho Er Em. unfold cmd.tfImport.
    rewrite Ho, Er, Em. cbn [negb].
    destruct (tfimport.filterExistingDefinitions _ defs) as [news ps].
    cbn [fst] in Hnone. by rewrite Hnone.
Qed.

(** An instance: the headers of one definition on an empty file. *)
Lemma written_headers_are_found_witness :
  lines_fit ("" +:+ tfimport.createHCLDefinitionsBuffer [mail] ["onelogin"] +:+ "") ""
    = true
  ∧ (tfimport.filterExistingDefinitions
       ("" +:+ tfimport.createHCLDefinitionsBuffer [mail] ["onelogin"] +:+ "")
       [mail]).1 = [].
Proof.
  split; [vm_compute; reflexivity|].
  refine (proj1 (written_headers_are_found (H := Model.env) "" "" [mail] ["onelogin"]
                   _ _ _ _)).
  - by left.
  - constructor; [|constructor]. split; [reflexivity|].
    exists "mail-", "7". by repeat split.
  - constructor; [reflexivity|constructor].
  - vm_compute. reflexivity.
Defined.

Section Overlong.

Lemma ScanLines_overlong (pre long rest acc : string) :
  has_byte "010" long = false → Go.fits long = false →
  Go.ScanLines (pre +:+ LF +:+ long +:+ LF +:+ rest) acc = Go.ScanLines (pre +:+ LF) acc.
Proof.
  intros Hl Hf. revert acc. induction pre as [|c pre IH]; intros acc.
  - cbn [String.append LF Go.ScanLines Ascii.eqb Bool.eqb].
    change (String "010" rest) with (LF +:+ rest).
    rewrite (ScanLines_line long rest "" Hl). cbn [String.append]. rewrite Hf.
    by destruct acc.
  - cbn [String.append Go.ScanLines]. destruct (Ascii.eqb c "010").
    + by rewrite IH.
    + apply IH.
Qed.

Lemma ScanLines_overlong_aligned (before long rest : string) :
  aligned before → has_byte "010" long = false → Go.fits long = false →
  Go.ScanLines (before +:+ long +:+ LF +:+ rest) "" = Go.ScanLines before "".
Proof.
  intros [->|[pre ->]] Hl Hf.
  - cbn [String.append]. rewrite (ScanLines_line long rest "" Hl).
    cbn [String.append]. by rewrite Hf.
  - rewrite string_app_assoc. by apply ScanLines_overlong.
Qed.

Lemma repeat_byte_length n c : String.length (repeat_byte n c) = n.
Proof. induction n as [|n IH]; simpl; [done|]. by rewrite IH. Qed.

Lemma repeat_byte_has_byte n c c' :
  Ascii.eqb c c' = false → has_byte c' (repeat_byte n c) = false.
Proof. intros Hc. induction n as [|n IH]; simpl; [done|]. by rewrite Hc, IH. Qed.

End Overlong.

(** X13. A line that does not fit the buffer of the scanner (65536
    bytes or more) ends the scan, and the error is not looked at: what
    follows the line in the file is invisible to the filter, which
    answers as for the text in front of the line. *)
Theorem overlong_line_ends_the_scan (before long rest : string)
    (defs : list ResourceDefinition) :
  aligned before → has_byte "010" long = false → Go.fits long = false →
  tfimport.filterExistingDefinitions (before +:+ long +:+ LF +:+ rest) defs
  = tfimport.filterExistingDefinitions before defs.
Proof.
  intros Hb Hl Hf. unfold tfimport.filterExistingDefinitions, tfimport.scan_file.
  by rewrite ScanLines_overlong_aligned.
Qed.

(** An instance: a declaration behind a line of 65536 bytes. *)
Lemma overlong_line_ends_the_scan_witness :
  Go.fits (repeat_byte (N.to_nat 65536) "#") = false
  ∧ tfimport.filterExistingDefinitions
      ("" +:+ repeat_byte (N.to_nat 65536) "#" +:+ LF
         +:+ cat ["resource app x {"; LF; "}"; LF])
      [mkResourceDefinition "app" "x" "onelogin" "1"]
    = ([mkResourceDefinition "app" "x" "onelogin" "1"], ["onelogin"]).
Proof.
  assert (Go.fits (repeat_byte (N.to_nat 65536) "#") = false) as Hf.
  { unfold Go.fits. rewrite repeat_byte_length. reflexivity. }
  split; [exact Hf|].
  rewrite (overlong_line_ends_the_scan "" (repeat_byte (N.to_nat 65536) "#")
             (cat ["resource app x {"; LF; "}"; LF])
             [mkResourceDefinition "app" "x" "onelogin" "1"]
             (or_introl eq_refl)
             (repeat_byte_has_byte (N.to_nat 65536) "#" "010" eq_refl) Hf).
  reflexivity.
Defined.

(** X14. The index the scan builds does not depend on the order in
    which the range over the map [searchCriteria] visits the two
    patterns. *)
Theorem pattern_order_is_irrelevant (f : string) (order : list (string * Go.regex)) :
  order ≡ₚ tfimport.searchCriteria →
  fold_left (λ collection t, fold_left (tfimport.scan_pattern t) order collection)
    (Go.ScanLines f "") ∅
  = tfimport.scan_file f.
Proof.
  intros Hp. unfold tfimport.scan_file.
  assert (∀ collection t,
            fold_left (tfimport.scan_pattern t) order collection
            = tfimport.scan_line collection t) as Hline.
  { intros collection t. symmetry in Hp.
    apply Permutation_length_2_inv in Hp as [-> | ->].
    - done.
    - symmetry. apply scan_line_any_order. }
  generalize (∅ : gmap string (gmap string nat)).
  induction (Go.ScanLines f "") as [|t lines IH]; intros collection; [done|].
  cbn [fold_left]. by rewrite Hline, IH.
Qed.

(** An instance: the resource pattern visited first. *)
Lemma pattern_order_is_irrelevant_witness :
  fold_left (λ collection t,
               fold_left (tfimport.scan_pattern t)
                 [("resource", tfimport.resourceRegexp);
                  ("provider", tfimport.providerRegexp)] collection)
    (Go.ScanLines (cat ["provider onelogin {"; LF; "resource app x {}"; LF]) "") ∅
  = tfimport.scan_file (cat ["provider onelogin {"; LF; "resource app x {}"; LF]).
Proof.
  apply pattern_order_is_irrelevant. apply perm_swap.
Defined.

(** X15. The filter keeps the order of the incoming definitions and
    their multiplicity: a definition that is not declared comes back as
    often as it came in (the slice is not made unique), a declared one
    not at all. Filtering the result again changes nothing, and an
    empty file filters nothing out. *)
Theorem filter_keeps_order_and_duplicates (f : string) (defs : list ResourceDefinition) :
  sublist (tfimport.filterExistingDefinitions f defs).1 defs
  ∧ (∀ rd,
       count_occ ResourceDefinition_eq_dec (tfimport.filterExistingDefinitions f defs).1 rd
       = if tfimport.count (tfimport.scan_file f) "resource"
              (Type_ rd +:+ "." +:+ Name rd) =? 0
         then count_occ ResourceDefinition_eq_dec defs rd
         else 0)
  ∧ (tfimport.filterExistingDefinitions f
       (tfimport.filterExistingDefinitions f defs).1).1
    = (tfimport.filterExistingDefinitions f defs).1
  ∧ (tfimport.filterExistingDefinitions "" defs).1 = defs.
Proof.
  unfold tfimport.filterExistingDefinitions. cbn [fst]. split; [|split; [|split]].
  - apply List_filter_sublist.
  - intros rd. by rewrite List_filter_count_occ.
  - apply List_filter_twice.
  - induction defs as [|rd defs IH]; [done|]. cbn [List.filter].
    change (tfimport.scan_file "") with (∅ : gmap string (gmap string nat)) in *.
    unfold tfimport.count at 1. rewrite lookup_empty. cbn [default].
    rewrite lookup_empty. cbn [default Nat.eqb]. by rewrite IH.
Qed.

Section SecondRunStateparser.

Context `{Env}.

Implicit Types (r : stateparser.StateResource) (b : Builder).
Implicit Types (rs : list stateparser.StateResource).

Lemma stateparser_instance_out r b i b' :
  stateparser.instance_body r b i = Ok b' →
  aligned b'
  ∧ ∃ t, b' = b +:+ (resource_header (stateparser.Type_ r) (stateparser.Name r)
                       +:+ LF) +:+ t.
Proof.
  unfold stateparser.instance_body. rewrite header_cat. unfold WriteString.
  intros Hb.
  destruct (stateparser.convertToHCLLine _ _ _) as [b1|] eqn:E; [|done].
  rewrite bind_Ok in Hb. injection Hb as <-.
  apply (appends_Ok_inv _ _ _ (stateparser_appends _ _)) in E as (t & _ & ->).
  split.
  - apply aligned_app_r. by exists ("}" +:+ LF).
  - eexists. rewrite !string_app_assoc. reflexivity.
Qed.

Lemma stateparser_instances_aligned r insts b b' :
  forEach (stateparser.instance_body r) insts b = Ok b' → aligned b → aligned b'.
Proof.
  revert b. induction insts as [|i insts IH]; intros b; simpl.
  - by intros [= <-].
  - destruct (stateparser.instance_body r b i) as [b1|] eqn:E; [|done].
    rewrite bind_Ok. intros Hrest _. apply (IH b1 Hrest).
    by apply stateparser_instance_out in E as [? _].
Qed.

Lemma stateparser_instances_out r i insts b b' :
  forEach (stateparser.instance_body r) (i :: insts) b = Ok b' →
  ∃ t, b' = b +:+ (resource_header (stateparser.Type_ r) (stateparser.Name r)
                     +:+ LF) +:+ t.
Proof.
  cbn [forEach].
  destruct (stateparser.instance_body r b i) as [b1|] eqn:E; [|done].
  rewrite bind_Ok. intros Hrest.
  apply stateparser_instance_out in E as [_ [t ->]].
  apply (appends_Ok_inv (forEach (stateparser.instance_body r) insts)) in Hrest
    as (t' & _ & ->).
  2:{ apply appends_forEach. intros x _. apply stateparser_instance_appends. }
  eexists. rewrite !string_app_assoc. reflexivity.
Qed.

Lemma stateparser_resource_out r b b' :
  stateparser.resource_body b r = Ok b' →
  aligned b → aligned (stateparser.Content r) →
  aligned b'
  ∧ (stateparser.Instances r ≠ [] →
     ∃ t, b' = b +:+ (resource_header (stateparser.Type_ r) (stateparser.Name r)
                        +:+ LF) +:+ t).
Proof.
  unfold stateparser.resource_body. intros Hb Ha Hc.
  destruct (forEach _ _ b) as [b1|] eqn:E; [|done].
  rewrite bind_Ok in Hb. injection Hb as <-. unfold WriteString. split.
  - apply aligned_app; [|done]. by eapply stateparser_instances_aligned.
  - intros Hne. destruct (stateparser.Instances r) as [|i insts]; [done|].
    apply stateparser_instances_out in E as [t ->].
    exists (t +:+ stateparser.Content r).
    generalize (resource_header (stateparser.Type_ r) (stateparser.Name r) +:+ LF).
    intros h. by rewrite !string_app_assoc.
Qed.

Lemma stateparser_resources_out rs b b' :
  forEach stateparser.resource_body rs b = Ok b' →
  aligned b → Forall (λ r, aligned (stateparser.Content r)) rs →
  aligned b'
  ∧ ∀ r, r ∈ rs → stateparser.Instances r ≠ [] →
      ∃ b0 t, aligned b0
              ∧ b' = b0 +:+ (resource_header (stateparser.Type_ r) (stateparser.Name r)
                               +:+ LF) +:+ t.
Proof.
  revert b. induction rs as [|r rs IH]; intros b.
  - simpl. intros [= <-] Ha _. split; [done|].
    intros r Hin. by apply elem_of_nil in Hin.
  - cbn [forEach].
    destruct (stateparser.resource_body b r) as [b1|] eqn:E; [|done].
    rewrite bind_Ok. intros Hrest Ha [Hc Hall]%Forall_cons.
    destruct (stateparser_resource_out _ _ _ E Ha Hc) as [Ha1 Hfirst].
    destruct (IH _ Hrest Ha1 Hall) as [Ha' Hothers]. split; [done|].
    intros r' [->|Hin]%elem_of_cons Hne; [|by apply Hothers].
    destruct (Hfirst Hne) as (t & Eb1).
    apply (appends_Ok_inv (forEach stateparser.resource_body rs)) in Hrest
      as (t' & _ & ->).
    2:{ apply appends_forEach. intros x _. apply stateparser_resource_appends. }
    exists b, (t +:+ t'). split; [done|]. rewrite Eb1.
    generalize (resource_header (stateparser.Type_ r) (stateparser.Name r) +:+ LF).
    intros h. by rewrite !string_app_assoc.
Qed.

(** The fixed text in front of every [stateparser] conversion declares
    the provider on a line of its own. *)
Lemma preamble_provider_line :
  ∃ pre post,
    aligned pre
    ∧ stateparser.preamble
      = pre +:+ ("" +:+ provider_header "onelogin" +:+ "") +:+ LF +:+ post.
Proof.
  exists (cat ["terraform {"; LF; TAB; "required_providers {"; LF; TAB; TAB;
               "onelogin = {"; LF; TAB; TAB; TAB; "source = "; QUOTE;
               "onelogin/onelogin"; QUOTE; LF; TAB; TAB; TAB; "}"; LF;
               TAB; TAB; "}"; LF; TAB; "}"; LF; LF]),
         (cat [TAB; "alias = "; QUOTE; "onelogin"; QUOTE; LF; "}"; LF; LF]).
  split; [|reflexivity].
  right.
  exists (cat ["terraform {"; LF; TAB; "required_providers {"; LF; TAB; TAB;
               "onelogin = {"; LF; TAB; TAB; TAB; "source = "; QUOTE;
               "onelogin/onelogin"; QUOTE; LF; TAB; TAB; TAB; "}"; LF;
               TAB; TAB; "}"; LF; TAB; "}"; LF]).
  reflexivity.
Qed.

Lemma preamble_aligned : aligned stateparser.preamble.
Proof.
  right.
  exists (Go.take (String.length stateparser.preamble - 1) stateparser.preamble).
  reflexivity.
Qed.

Lemma stateparser_convert_prefix (state : stateparser.State) (text : string) :
  stateparser.ConvertTFStateToHCL state = Ok text →
  ∃ t, text = stateparser.preamble +:+ t.
Proof.
  unfold stateparser.ConvertTFStateToHCL. intros Hc.
  apply (appends_Ok_inv (forEach stateparser.resource_body _)) in Hc as (t & _ & ->).
  - by exists t.
  - apply appends_forEach. intros x _. apply stateparser_resource_appends.
Qed.

Lemma stateparser_second_run_finds (state : stateparser.State) (text tail : string) r :
  stateparser.ConvertTFStateToHCL state = Ok text →
  Forall (λ r, aligned (stateparser.Content r)) (stateparser.Resources state) →
  lines_fit (text +:+ tail) "" = true →
  r ∈ stateparser.Resources state → stateparser.Instances r ≠ [] →
  pattern_type (stateparser.Type_ r) → pattern_name (stateparser.Name r) →
  1 ≤ tfimport.count (tfimport.scan_file (text +:+ tail)) "resource"
        (stateparser.Type_ r +:+ "." +:+ stateparser.Name r).
Proof.
  unfold stateparser.ConvertTFStateToHCL. intros Hc Hall Hfit Hin Hne Ht Hn.
  apply stateparser_resources_out in Hc as [_ Hr]; [|apply preamble_aligned|done].
  destruct (Hr r Hin Hne) as (b0 & t & Hb0 & ->).
  assert ((b0 +:+ (resource_header (stateparser.Type_ r) (stateparser.Name r) +:+ LF)
             +:+ t) +:+ tail
          = b0 +:+ ("" +:+ resource_header (stateparser.Type_ r) (stateparser.Name r)
                      +:+ "")
              +:+ LF +:+ (t +:+ tail)) as Etext.
  { generalize (resource_header (stateparser.Type_ r) (stateparser.Name r)).
    intros h. cbn [String.append]. by rewrite !string_app_assoc, ?string_app_nil_r. }
  rewrite Etext in *.
  by apply resource_line_found.
Qed.

Lemma stateparser_second_run_provider (state : stateparser.State) (text tail : string) :
  stateparser.ConvertTFStateToHCL state = Ok text →
  lines_fit (text +:+ tail) "" = true →
  1 ≤ tfimport.count (tfimport.scan_file (text +:+ tail)) "provider" "onelogin".
Proof.
  intros Hc Hfit. apply stateparser_convert_prefix in Hc as [t ->].
  destruct preamble_provider_line as (pre & post & Hpre & Ep).
  rewrite Ep in *.
  assert ((pre +:+ ("" +:+ provider_header "onelogin" +:+ "") +:+ LF +:+ post) +:+ t
             +:+ tail
          = pre +:+ ("" +:+ provider_header "onelogin" +:+ "") +:+ LF
              +:+ (post +:+ t +:+ tail)) as Etext.
  { generalize ("" +:+ provider_header "onelogin" +:+ ""). intros h.
    by rewrite !string_app_assoc. }
  rewrite string_app_assoc in Hfit. rewrite string_app_assoc.
  rewrite Etext in *.
  by apply provider_line_found.
Qed.

End SecondRunStateparser.

(** X16. A second run of [ImportTFStateFromRemote] finds the resources
    of the first. That run imports every definition at its own address
    [Type.Name], so the snapshot holds it under its own name. In a file
    that starts with the text [convertTFStateToHCL] writes for such a
    snapshot, no definition is new whose type and name have the shape
    the resource pattern expects and that the snapshot holds with an
    instance: the run ends at once with nothing to import. The contents
    of the resources have to keep the text aligned and the lines within
    the buffer of the scanner. *)
Theorem rerun_reports_nothing_new `{Env} (state : stateparser.State)
    (text tail : string) (defs : list ResourceDefinition) :
  Forall (λ r, aligned (stateparser.Content r)) (stateparser.Resources state) →
  (∀ rd, rd ∈ defs →
     pattern_type (Type_ rd) ∧ pattern_name (Name rd)
     ∧ ∃ r, r ∈ stateparser.Resources state ∧ stateparser.Instances r ≠ []
            ∧ stateparser.Type_ r = Type_ rd ∧ stateparser.Name r = Name rd) →
  tfimport.convertTFStateToHCL state = Ok text →
  lines_fit (text +:+ tail) "" = true →
  (tfimport.filterExistingDefinitions (text +:+ tail) defs).1 = []
  ∧ ∀ w : World,
      open_ok w = true → main_tf w = text +:+ tail → remote w = defs →
      tfimport.ImportTFStateFromRemote w = [Open; Close; Exit 0].
Proof.
  intros Hall Hdefs Hc Hfit.
  pose proof (second_run_nothing_new state text tail defs Hc Hall Hfit Hdefs) as Hnone.
  split; [exact Hnone|].
  intros w Ho Em Er. unfold tfimport.ImportTFStateFromRemote.
  rewrite Ho, Er, Em. cbn [negb].
  destruct (tfimport.filterExistingDefinitions _ defs) as [news ps].
  cbn [fst] in Hnone. by rewrite Hnone.
Qed.

(** An instance: the first run imports [mail-7] at
    [onelogin_apps.mail-7], and the run on the file it leaves has
    nothing to import. *)
Lemma rerun_reports_nothing_new_witness :
  tfimport.ImportTFStateFromRemote mail_first_run
    = [Open;
       Write (tfimport.createHCLDefinitionsBuffer [mail] ["onelogin"]);
       Exec ["terraform"; "init"];
       Exec ["terraform"; "import"; "onelogin_apps.mail-7"; "7"];
       Seek;
       Write (text_of (tfimport.convertTFStateToHCL mail_state));
       Close;
       Return]
  ∧ tfimport.ImportTFStateFromRemote mail_second_run = [Open; Close; Exit 0].
Proof.
  split; [vm_compute; reflexivity|].
  refine (proj2 (rerun_reports_nothing_new (H := Model.env) mail_state
                   (text_of (tfimport.convertTFStateToHCL mail_state)) "" [mail]
                   _ _ _ _) mail_second_run eq_refl eq_refl eq_refl).
  - repeat constructor.
  - intros rd ->%list_elem_of_singleton. split; [reflexivity|]. split.
    + exists "mail-", "7". by repeat split.
    + eexists. split; [left|]. by repeat split.
  - vm_compute. reflexivity.
  - vm_compute. reflexivity.
Defined.

(** X30. The scanner finds what [ConvertTFStateToHCL] writes, under the
    names of the snapshot. In a file that starts with the text of a
    completed conversion, the index holds every resource of the
    snapshot that has an instance and whose type and name have the
    shape the resource pattern expects, so the filter returns no
    definition of that type and name; and it holds the provider of the
    preamble, so [onelogin] is never returned as a new provider. The
    names are those the snapshot holds: after the imports of [tfImport]
    these are the disambiguated ones, and a definition that comes in
    under its remote name is not among them. *)
Theorem converted_headers_are_found `{Env} (state : stateparser.State)
    (text tail : string) (defs : list ResourceDefinition) :
  Forall (λ r, aligned (stateparser.Content r)) (stateparser.Resources state) →
  stateparser.ConvertTFStateToHCL state = Ok text →
  lines_fit (text +:+ tail) "" = true →
  (∀ r, r ∈ stateparser.Resources state → stateparser.Instances r ≠ [] →
        pattern_type (stateparser.Type_ r) → pattern_name (stateparser.Name r) →
        1 ≤ tfimport.count (tfimport.scan_file (text +:+ tail)) "resource"
              (stateparser.Type_ r +:+ "." +:+ stateparser.Name r)
        ∧ Forall (λ rd, ¬ (Type_ rd = stateparser.Type_ r
                           ∧ Name rd = stateparser.Name r))
            (tfimport.filterExistingDefinitions (text +:+ tail) defs).1)
  ∧ 1 ≤ tfimport.count (tfimport.scan_file (text +:+ tail)) "provider" "onelogin"
  ∧ ("onelogin" ∉ (tfimport.filterExistingDefinitions (text +:+ tail) defs).2).
Proof.
  intros Hall Hc Hfit. split; [|split].
  - intros r Hr Hne Ht Hn.
    pose proof (stateparser_second_run_finds state text tail r Hc Hall Hfit Hr Hne
                  Ht Hn) as Hcount.
    split; [exact Hcount|].
    apply Forall_forall. intros rd Hin [ET EN].
    unfold tfimport.filterExistingDefinitions in Hin. cbn [fst] in Hin.
    apply elem_of_List_filter in Hin as [_ Hz]. apply Nat.eqb_eq in Hz.
    rewrite ET, EN in Hz. lia.
  - exact (stateparser_second_run_provider state text tail Hc Hfit).
  - intros Hret. unfold tfimport.filterExistingDefinitions in Hret. cbn [snd] in Hret.
    apply elem_of_List_filter in Hret as [_ Hz]. apply Nat.eqb_eq in Hz.
    pose proof (stateparser_second_run_provider state text tail Hc Hfit). lia.
Qed.

(** An instance: the snapshot holds [_mail_0], the address [tfImport]
    imports the definition [mail] at. The index has the address and the
    provider; the definition itself, under its remote name, comes back
    as new. *)
Lemma converted_headers_are_found_witness :
  1 ≤ tfimport.count
        (tfimport.scan_file
           (text_of (stateparser.ConvertTFStateToHCL renamed_state) +:+ ""))
        "resource" "onelogin_apps._mail_0"
  ∧ 1 ≤ tfimport.count
          (tfimport.scan_file
             (text_of (stateparser.ConvertTFStateToHCL renamed_state) +:+ ""))
          "provider" "onelogin"
  ∧ tfimport.filterExistingDefinitions
      (text_of (stateparser.ConvertTFStateToHCL renamed_state) +:+ "")
      [mkResourceDefinition "onelogin_apps" "mail" "onelogin" "7"]
    = ([mkResourceDefinition "onelogin_apps" "mail" "onelogin" "7"], []).
Proof.
  destruct (converted_headers_are_found (H := Model.env) renamed_state
              (text_of (stateparser.ConvertTFStateToHCL renamed_state)) ""
              [mkResourceDefinition "onelogin_apps" "mail" "onelogin" "7"])
    as (Hres & Hprov & _).
  - repeat constructor.
  - vm_compute. reflexivity.
  - vm_compute. reflexivity.
  - split; [|split; [exact Hprov|vm_compute; reflexivity]].
    refine (proj1 (Hres (stateparser.mkStateResource "" "_mail_0" "onelogin_apps"
                           "provider.onelogin"
                           [stateparser.mkResourceInstance
                              (VMap [("name", VStr "Mail")])])
                     _ _ _ _)).
    + left.
    + discriminate.
    + reflexivity.
    + exists "_mail_", "0". by repeat split.
Defined.

Section Submatches.

Lemma star_result {A} (p : ascii → bool) (s : string) (k : string → option A) (res : A) :
  Go.star p s k = Some res → ∃ s', k s' = Some res.
Proof.
  induction s as [|a s IH]; cbn [Go.star].
  - intros Hk. by exists "".
  - destruct (p a); [|intros Hk; by eexists].
    destruct (Go.star p s k) as [r|] eqn:E.
    + intros [= <-]. by apply IH.
    + intros Hk. by eexists.
Qed.

(** Whatever a pattern matches, the slice of groups handed to the rest
    of the match has kept its length. *)
Lemma run_caps_length {A} (r : Go.regex) (n : nat) (P : A → Prop) :
  ∀ (s : string) (caps : list string) (k : string → list string → option A) (res : A),
    length caps = n →
    (∀ s' caps' res', length caps' = n → k s' caps' = Some res' → P res') →
    Go.run r s caps k = Some res → P res.
Proof.
  induction r as [l|p|p|p|r1 IH1 r2 IH2|i r IH]; intros s caps k res Hn Hk; cbn [Go.run].
  - destruct (Go.strip l s) as [s'|]; [|done]. by apply Hk.
  - destruct s as [|a s]; [done|]. destruct (p a); [|done]. by apply Hk.
  - intros [s' Hs]%star_result. by eapply Hk.
  - destruct s as [|a s]; [by apply Hk|].
    destruct (p a); [|by apply Hk].
    destruct (k s caps) as [r|] eqn:E.
    + intros [= <-]. by eapply Hk.
    + by apply Hk.
  - apply IH1; [done|]. intros s' caps' res' Hn' Hr. by eapply IH2.
  - apply IH; [done|]. intros s' caps' res' Hn' Hr.
    eapply Hk; [|exact Hr]. by rewrite length_insert.
Qed.

Lemma FindStringSubmatch_length (r : Go.regex) (s : string) :
  Go.FindStringSubmatch r s = []
  ∨ length (Go.FindStringSubmatch r s) = S (Go.NumSubexp r).
Proof.
  induction s as [|a s IH]; cbn [Go.FindStringSubmatch].
  - destruct (Go.match_here r "") as [caps|] eqn:E; [right|by left].
    unfold Go.match_here in E.
    eapply (run_caps_length r (S (Go.NumSubexp r))
              (λ res, length res = S (Go.NumSubexp r))); [| |exact E].
    + by rewrite length_replicate.
    + intros s' caps' res' Hn [= <-]. by rewrite length_insert.
  - destruct (Go.match_here r (String a s)) as [caps|] eqn:E; [right|exact IH].
    unfold Go.match_here in E.
    eapply (run_caps_length r (S (Go.NumSubexp r))
              (λ res, length res = S (Go.NumSubexp r))); [| |exact E].
    + by rewrite length_replicate.
    + intros s' caps' res' Hn [= <-]. by rewrite length_insert.
Qed.

End Submatches.

(** X17. The indices [len(subStr)-1] and [len(subStr)-2] of the
    scanner are in range whenever a pattern of [searchCriteria] has
    matched: the slice of submatches is empty or has four elements. *)
Theorem submatch_indices_in_range (t : string) (regexName : string) (r : Go.regex) :
  (regexName, r) ∈ tfimport.searchCriteria →
  Go.FindStringSubmatch r t = []
  ∨ (length (Go.FindStringSubmatch r t) = 4
     ∧ is_Some (Go.FindStringSubmatch r t
                  !! (length (Go.FindStringSubmatch r t) - 1))
     ∧ is_Some (Go.FindStringSubmatch r t
                  !! (length (Go.FindStringSubmatch r t) - 2))).
Proof.
  intros Hin.
  assert (Go.NumSubexp r = 3) as Hn.
  { unfold tfimport.searchCriteria in Hin.
    apply elem_of_cons in Hin as [[= -> ->]|Hin]; [done|].
    apply list_elem_of_singleton in Hin as [= -> ->]. done. }
  destruct (FindStringSubmatch_length r t) as [?|Hlen]; [by left|right].
  rewrite Hn in Hlen. rewrite Hlen. split; [done|].
  split; apply lookup_lt_is_Some; rewrite Hlen; lia.
Qed.

(** An instance: the resource pattern on a header line. *)
Lemma submatch_indices_in_range_witness :
  Go.FindStringSubmatch tfimport.resourceRegexp "resource app x {" = []
  ∨ (length (Go.FindStringSubmatch tfimport.resourceRegexp "resource app x {") = 4
     ∧ is_Some (Go.FindStringSubmatch tfimport.resourceRegexp "resource app x {"
                  !! (length (Go.FindStringSubmatch tfimport.resourceRegexp
                                "resource app x {") - 1))
     ∧ is_Some (Go.FindStringSubmatch tfimport.resourceRegexp "resource app x {"
                  !! (length (Go.FindStringSubmatch tfimport.resourceRegexp
                                "resource app x {") - 2))).
Proof.
  apply (submatch_indices_in_range "resource app x {" "resource").
  right. left.
Defined.

(* ===================================================================== *)
(** * Further properties: the disambiguation loop                       *)
(* ===================================================================== *)

Section Growth.

Implicit Types (rd v : ResourceDefinition) (cur todo batch : list ResourceDefinition).

Lemma occurrences_absent nm l : nm ∉ Name <$> l → occurrences nm l = 0.
Proof.
  induction l as [|v l IH]; simpl; [done|]. intros Hn.
  apply not_elem_of_cons in Hn as [Hne Hn]. rewrite IH by done.
  destruct (String.eqb_spec nm (Name v)); [done|lia].
Qed.

Lemma occurrences_once rd l :
  NoDup (Name <$> l) → rd ∈ l → occurrences (Name rd) l = 1.
Proof.
  induction l as [|v l IH]; simpl; intros Hnd Hin.
  - by apply elem_of_nil in Hin.
  - apply NoDup_cons in Hnd as [Hv Hnd].
    apply elem_of_cons in Hin as [->|Hin].
    + rewrite String.eqb_refl, occurrences_absent; done.
    + rewrite IH by done.
      destruct (String.eqb_spec (Name rd) (Name v)) as [E|]; [|done].
      destruct Hv. rewrite <- E. apply list_elem_of_fmap. by exists rd.
Qed.

Lemma occurrences_all nm l :
  Forall (λ rd, Name rd = nm) l → occurrences nm l = length l.
Proof.
  induction 1 as [|v l Hv _ IH]; simpl; [done|].
  rewrite IH, Hv, String.eqb_refl. done.
Qed.

(** The loop on names that occur once: every remaining definition is
    matched by itself only. *)
Lemma import_args_distinct todo cur :
  NoDup (Name <$> todo) →
  (∀ rd, rd ∈ todo → occurrences (Name rd) cur = 1) →
  cmd.import_args todo cur
  = ((λ rd, (suffixed rd 0, ImportID rd)) <$> todo, cur ++ todo).
Proof.
  revert cur. induction todo as [|rd todo IH]; intros cur Hnd Hone.
  - simpl. by rewrite app_nil_r.
  - apply NoDup_cons in Hnd as [Hrd Hnd].
    assert (cmd.disambiguate rd cur = (suffixed rd 0, cur ++ [rd])) as Ed.
    { unfold cmd.disambiguate. rewrite inner_loop_spec; cbn [cmd.n_ cmd.defs].
      - rewrite (Hone rd) by left. done.
      - done.
      - rewrite (Hone rd) by left. unfold Go.MaxInt. lia. }
    cbn [cmd.import_args]. rewrite Ed, IH; [|done|].
    + by rewrite <- app_assoc.
    + intros rd' Hin. rewrite occurrences_app, Hone by (by right). simpl.
      destruct (String.eqb_spec (Name rd') (Name rd)) as [E|]; [|done].
      destruct Hrd. rewrite <- E. apply list_elem_of_fmap. by exists rd'.
Qed.

(** The loop on one shared name: every element of the slice matches,
    so each outer iteration doubles the slice. *)
Lemma import_args_equal_length nm todo cur :
  Forall (λ rd, Name rd = nm) todo → Forall (λ rd, Name rd = nm) cur →
  length (cmd.import_args todo cur).2 = length cur * 2 ^ length todo.
Proof.
  revert cur. induction todo as [|rd todo IH]; intros cur Htodo Hcur.
  - simpl. lia.
  - apply Forall_cons in Htodo as [Hrd Htodo].
    rewrite import_args_cons_snd, IH; [|done|].
    + rewrite disambiguate_slice, length_app, length_replicate.
      rewrite Hrd, occurrences_all by done. cbn [length]. rewrite Nat.pow_succ_r'. lia.
    + rewrite disambiguate_slice. apply Forall_app. split; [done|].
      by apply Forall_replicate.
Qed.

Lemma import_args_equal_names nm todo cur :
  Forall (λ rd, Name rd = nm) todo → Forall (λ rd, Name rd = nm) cur →
  cur ≠ [] →
  (Z.of_nat (length cur * 2 ^ length todo) ≤ Go.MaxInt)%Z →
  (cmd.import_args todo cur).1
  = imap (λ i rd, (suffixed rd (Z.of_nat (length cur * 2 ^ i) - 1), ImportID rd)) todo.
Proof.
  revert cur. induction todo as [|rd todo IH]; intros cur Htodo Hcur Hne Hmax; [done|].
  apply Forall_cons in Htodo as [Hrd Htodo].
  assert (length cur ≠ 0) as Hlen by (by destruct cur).
  assert (length cur ≤ length cur * 2 ^ length (rd :: todo)) as Hle.
  { pose proof (Nat.pow_nonzero 2 (length (rd :: todo)) ltac:(lia)). nia. }
  rewrite import_args_cons_fst. cbn [imap]. f_equal.
  - f_equal. unfold cmd.disambiguate. cbn [fst].
    pose proof (inner_loop_spec rd cur
                  {| cmd.n_ := 0; cmd.resourceName := Type_ rd +:+ "." +:+ Name rd;
                     cmd.defs := cur |}) as Hspec.
    cbn [cmd.n_ cmd.resourceName cmd.defs] in Hspec.
    rewrite Hrd, occurrences_all in Hspec by done.
    rewrite Hrd, Hspec; [|done|lia]. cbn [cmd.resourceName].
    destruct (length cur) eqn:El; [done|]. f_equal.
    rewrite Nat.pow_0_r, Nat.mul_1_r. lia.
  - assert (length (cmd.disambiguate rd cur).2 = length cur * 2) as E2.
    { rewrite disambiguate_slice, length_app, length_replicate.
      rewrite Hrd, occurrences_all by done. lia. }
    rewrite IH; [| done | | |].
    + apply imap_ext. intros i rd' _. cbn. rewrite E2.
      do 3 f_equal. lia.
    + rewrite disambiguate_slice. apply Forall_app. split; [done|].
      by apply Forall_replicate.
    + rewrite disambiguate_slice. by destruct cur.
    + rewrite E2. cbn [length] in Hmax. rewrite Nat.pow_succ_r' in Hmax.
      replace (length cur * 2 * 2 ^ length todo)
        with (length cur * (2 * 2 ^ length todo)) by lia. done.
Qed.

End Growth.

(** X18. When the names of a batch are pairwise distinct, every
    definition is still renamed: the inner loop matches the definition
    against itself, so the address of each import is
    [Type._Name_0] with the import id of the definition, and the slice
    ends as the batch followed by a copy of itself. *)
Theorem distinct_names_get_suffix_zero (batch : list ResourceDefinition) :
  NoDup (Name <$> batch) →
  (cmd.import_args batch batch).1 = (λ rd, (suffixed rd 0, ImportID rd)) <$> batch
  ∧ cmd.final_slice batch = batch ++ batch.
Proof.
  intros Hnd. unfold cmd.final_slice.
  rewrite import_args_distinct; [done|done|].
  intros rd Hin. by apply occurrences_once.
Qed.

(** An instance: two applications with different names. *)
Lemma distinct_names_get_suffix_zero_witness :
  NoDup (Name <$> [mkResourceDefinition "onelogin_apps" "x-1" "onelogin" "1";
                   mkResourceDefinition "onelogin_apps" "y-2" "onelogin" "2"])
  ∧ (cmd.import_args
       [mkResourceDefinition "onelogin_apps" "x-1" "onelogin" "1";
        mkResourceDefinition "onelogin_apps" "y-2" "onelogin" "2"]
       [mkResourceDefinition "onelogin_apps" "x-1" "onelogin" "1";
        mkResourceDefinition "onelogin_apps" "y-2" "onelogin" "2"]).1
    = [("onelogin_apps._x-1_0", "1"); ("onelogin_apps._y-2_0", "2")].
Proof.
  assert (NoDup (Name <$> [mkResourceDefinition "onelogin_apps" "x-1" "onelogin" "1";
                           mkResourceDefinition "onelogin_apps" "y-2" "onelogin" "2"]))
    as Hnd by (apply (bool_decide_unpack _); by vm_compute).
  split; [exact Hnd|].
  exact (proj1 (distinct_names_get_suffix_zero _ Hnd)).
Defined.

(** X19. When all definitions of a batch share one name, every
    element of the slice matches in every pass of the inner loop: each
    outer iteration doubles the slice, which ends with
    [len * 2^len] elements. *)
Theorem equal_names_double_the_slice (batch : list ResourceDefinition) (nm : string) :
  Forall (λ rd, Name rd = nm) batch →
  length (cmd.final_slice batch) = length batch * 2 ^ length batch.
Proof. intros Hall. by apply (import_args_equal_length nm). Qed.

(** An instance: three definitions named [x]. *)
Lemma equal_names_double_the_slice_witness :
  Forall (λ rd, Name rd = "x")
    [mkResourceDefinition "app" "x" "onelogin" "1";
     mkResourceDefinition "app" "x" "onelogin" "2";
     mkResourceDefinition "app" "x" "onelogin" "3"]
  ∧ length (cmd.final_slice
              [mkResourceDefinition "app" "x" "onelogin" "1";
               mkResourceDefinition "app" "x" "onelogin" "2";
               mkResourceDefinition "app" "x" "onelogin" "3"]) = 24.
Proof.
  assert (Forall (λ rd, Name rd = "x")
            [mkResourceDefinition "app" "x" "onelogin" "1";
             mkResourceDefinition "app" "x" "onelogin" "2";
             mkResourceDefinition "app" "x" "onelogin" "3"]) as Hall.
  { repeat constructor. }
  split; [exact Hall|].
  exact (equal_names_double_the_slice _ _ Hall).
Defined.

(** X20. In a batch of [len] definitions with one shared name the
    [i]-th import address carries the suffix [len * 2^i - 1], as long
    as the counter stays within [int64]. *)
Theorem equal_names_suffixes (batch : list ResourceDefinition) (nm : string) :
  Forall (λ rd, Name rd = nm) batch →
  (Z.of_nat (length batch * 2 ^ length batch) ≤ Go.MaxInt)%Z →
  (cmd.import_args batch batch).1
  = imap (λ i rd, (suffixed rd (Z.of_nat (length batch * 2 ^ i) - 1), ImportID rd)) batch.
Proof.
  intros Hall Hmax. destruct batch as [|rd batch]; [done|].
  by apply (import_args_equal_names nm).
Qed.

(** An instance: three definitions named [x]. *)
Lemma equal_names_suffixes_witness :
  (cmd.import_args
     [mkResourceDefinition "app" "x" "onelogin" "1";
      mkResourceDefinition "app" "x" "onelogin" "2";
      mkResourceDefinition "app" "x" "onelogin" "3"]
     [mkResourceDefinition "app" "x" "onelogin" "1";
      mkResourceDefinition "app" "x" "onelogin" "2";
      mkResourceDefinition "app" "x" "onelogin" "3"]).1
  = [("app._x_2", "1"); ("app._x_5", "2"); ("app._x_11", "3")].
Proof.
  refine (equal_names_suffixes
            [mkResourceDefinition "app" "x" "onelogin" "1";
             mkResourceDefinition "app" "x" "onelogin" "2";
             mkResourceDefinition "app" "x" "onelogin" "3"] "x" _ _).
  - repeat constructor.
  - vm_compute. discriminate.
Defined.

(** X29. No definition is imported under its own name. For every batch
    whose slice stays within the range of [int], every import address
    has the form [Type._Name_k] for a definition of the batch, and [k]
    is at least the number of definitions of the batch that share the
    name, less one: only a name that occurs once can get the suffix
    [_0]. *)
Theorem every_address_is_suffixed (batch : list ResourceDefinition) (id : string) :
  (Z.of_nat (length (cmd.final_slice batch)) ≤ Go.MaxInt)%Z →
  id ∈ cmd.identities batch →
  ∃ rd c, rd ∈ batch ∧ id = suffixed rd (Z.of_nat c - 1)
          ∧ 1 ≤ occurrences (Name rd) batch ≤ c.
Proof.
  intros Hmax Hid.
  destruct (import_args_shape batch batch id) as (rd & c & Hin & -> & Hc); try done.
  exists rd, c. split; [done|]. split; [done|].
  split; [by apply occurrences_elem|done].
Qed.

(** An instance: the second of two definitions named [x]. *)
Lemma every_address_is_suffixed_witness :
  ∃ rd c,
    rd ∈ [mkResourceDefinition "app" "x" "onelogin" "1";
          mkResourceDefinition "app" "x" "onelogin" "2"]
    ∧ "app._x_3" = suffixed rd (Z.of_nat c - 1)
    ∧ 1 ≤ occurrences (Name rd) [mkResourceDefinition "app" "x" "onelogin" "1";
                                 mkResourceDefinition "app" "x" "onelogin" "2"] ≤ c.
Proof.
  apply (every_address_is_suffixed
           [mkResourceDefinition "app" "x" "onelogin" "1";
            mkResourceDefinition "app" "x" "onelogin" "2"] "app._x_3").
  - vm_compute. discriminate.
  - apply list_elem_of_In. vm_compute. tauto.
Defined.

(* ===================================================================== *)
(** * Further properties: the runs of the command                       *)
(* ===================================================================== *)

Section Runs.

Context `{Env}.

Lemma quiet_after_close_sound closed t :
  quiet_after_close closed t = true →
  (closed = true → ∀ e, e ∈ t → uses_file e = false)
  ∧ ∀ t1 t2 e, t = t1 ++ Close :: t2 → e ∈ t2 → uses_file e = false.
Proof.
  revert closed. induction t as [|e0 t IH]; intros closed; cbn [quiet_after_close].
  - intros _. split.
    + intros _ e Hin. by apply elem_of_nil in Hin.
    + intros [|e1 t1] t2 e; discriminate.
  - intros [H0 Ht]%andb_true_iff. destruct (IH _ Ht) as [IH1 IH2]. split.
    + intros -> e [->|Hin]%elem_of_cons.
      * simpl in H0. by apply negb_true_iff in H0.
      * by apply IH1.
    + intros [|e1 t1] t2 e; cbn [app]; intros [= -> ->] Hin.
      * apply IH1; [|done]. rewrite bool_decide_eq_true_2 by done. apply orb_true_r.
      * by eapply IH2.
Qed.

Lemma quiet_no_use_after_close t :
  quiet_after_close false t = true → no_use_after_close t.
Proof. intros Hq. by destruct (quiet_after_close_sound false t Hq). Qed.

Lemma quiet_after_close_loop closed t rest :
  Forall loop_event t →
  quiet_after_close closed (t ++ rest) = quiet_after_close closed rest.
Proof.
  intros Ht. revert closed.
  induction Ht as [|e t He _ IH]; intros closed; [done|].
  cbn [app quiet_after_close].
  rewrite IH. destruct He as [[argv ->]| ->]; cbn [uses_file];
    rewrite bool_decide_eq_false_2 by done;
    by rewrite andb_false_r, orb_false_r.
Qed.

Lemma closes_app t1 t2 : closes (t1 ++ t2) = closes t1 + closes t2.
Proof. apply count_occ_app. Qed.

Lemma closes_loop t : Forall loop_event t → closes t = 0.
Proof.
  induction 1 as [|e t He _ IH]; [done|]. unfold closes in *. cbn [count_occ].
  rewrite IH. by destruct He as [[argv ->]| ->].
Qed.

Lemma loop_no_seek t : Forall loop_event t → Seek ∉ t.
Proof.
  intros Ht Hin. rewrite Forall_forall in Ht.
  by destruct (Ht _ Hin) as [[argv ?]|?].
Qed.

Lemma cmd_import_loop_events (w : World) todo cur :
  Forall loop_event (cmd.import_loop w todo cur).1.
Proof.
  revert cur. induction todo as [|rd todo IH]; intros cur; cbn [cmd.import_loop].
  - constructor.
  - destruct (cmd.disambiguate rd cur) as [name cur'].
    destruct (import_ok w name (ImportID rd)).
    + specialize (IH cur'). destruct (cmd.import_loop w todo cur') as [t done'].
      constructor; [left; by eexists|done].
    + constructor; [left; by eexists|]. constructor; [by right|constructor].
Qed.

Lemma tfimport_import_loop_events (w : World) todo :
  Forall loop_event (tfimport.import_loop w todo).1.
Proof.
  induction todo as [|rd todo IH]; cbn [tfimport.import_loop].
  - constructor.
  - destruct (import_ok w _ _).
    + destruct (tfimport.import_loop w todo) as [t done'].
      constructor; [left; by eexists|done].
    + constructor; [left; by eexists|]. constructor; [by right|constructor].
Qed.

End Runs.

(** X21. Nothing goes through the handle of main.tf after it has
    been closed: in no run of [tfImport] or [ImportTFStateFromRemote] is
    a [Close] followed by a write or a seek. *)
Theorem nothing_written_after_close `{Env} (w : World) (autoApprove : bool) :
  no_use_after_close (cmd.tfImport w autoApprove)
  ∧ no_use_after_close (tfimport.ImportTFStateFromRemote w).
Proof.
  split; apply quiet_no_use_after_close.
  - unfold cmd.tfImport.
    destruct (open_ok w); [|done].
    destruct (tfimport.filterExistingDefinitions _ _) as [news provs].
    destruct (length news =? 0); [done|].
    destruct (negb autoApprove && _); [done|].
    destruct (headers_ok w); [|done].
    destruct (init_ok w); [|done].
    pose proof (cmd_import_loop_events w news news) as Hl.
    destruct (cmd.import_loop w news news) as [t done']. cbn [fst] in Hl.
    cbn [negb quiet_after_close uses_file andb orb].
    rewrite !bool_decide_eq_false_2 by done.
    rewrite quiet_after_close_loop by done.
    destruct done'; [|done].
    destruct (tfstate w) as [| |state]; [done..|].
    destruct (stateparser.ConvertTFStateToHCL state); [|done].
    by destruct (final_write_ok w).
  - unfold tfimport.ImportTFStateFromRemote.
    destruct (open_ok w); [|done].
    destruct (tfimport.filterExistingDefinitions _ _) as [news provs].
    destruct (length news =? 0); [done|].
    destruct (negb _ && _); [done|].
    destruct (headers_ok w); [|done].
    destruct (init_ok w); [|done].
    pose proof (tfimport_import_loop_events w news) as Hl.
    destruct (tfimport.import_loop w news) as [t done']. cbn [fst] in Hl.
    cbn [negb quiet_after_close uses_file andb orb].
    rewrite !bool_decide_eq_false_2 by done.
    rewrite quiet_after_close_loop by done.
    destruct done'; [|done].
    destruct (tfstate w) as [| |state]; [done..|].
    destruct (tfimport.convertTFStateToHCL state); [|done].
    by destruct (final_write_ok w).
Qed.

Section RunFacts.

Context `{Env}.

Lemma IndexByte_none (s : string) (c : ascii) :
  has_byte c s = false → Go.IndexByte s c = (-1)%Z.
Proof.
  induction s as [|a s IH]; simpl; [done|].
  intros [Ha Hs]%orb_false_iff. rewrite Ha, IH by done. done.
Qed.

Lemma IndexByte_first (a r : string) (c : ascii) :
  has_byte c a = false →
  Go.IndexByte (a +:+ String c r) c = Z.of_nat (String.length a).
Proof.
  induction a as [|x a IH]; simpl.
  - intros _. by rewrite Ascii.eqb_refl.
  - intros [Hx Ha]%orb_false_iff. rewrite Hx, IH by done.
    destruct (String.length a); simpl; [done|]. f_equal. lia.
Qed.

Lemma drop_app_length (a r : string) : Go.drop (String.length a) (a +:+ r) = r.
Proof. induction a as [|x a IH]; simpl; [by destruct r|done]. Qed.

Lemma closes_run hdr t rest :
  Forall loop_event t →
  closes (Open :: Write hdr :: Exec ["terraform"; "init"] :: t ++ rest) = closes rest.
Proof.
  intros Hl.
  change (closes ([Open; Write hdr; Exec ["terraform"; "init"]] ++ (t ++ rest))
          = closes rest).
  by rewrite !closes_app, (closes_loop t Hl).
Qed.

Lemma seek_in_run hdr t rest :
  Forall loop_event t →
  Seek ∈ Open :: Write hdr :: Exec ["terraform"; "init"] :: t ++ rest ↔ Seek ∈ rest.
Proof.
  intros Hl. pose proof (loop_no_seek t Hl) as Hs.
  rewrite !elem_of_cons, elem_of_app. split.
  - intros [?|[?|[?|[?|?]]]]; done.
  - intros ?. by do 4 right.
Qed.

End RunFacts.

(** One end of a run: how often it closes the handle, and whether it
    got as far as the final write. *)
Ltac close_leaf :=
  unfold closes; simpl; rewrite ?elem_of_cons, ?elem_of_nil;
  split;
    [lia
    |split;
       [intros Hc; first [discriminate Hc | split; [by left|done]]
       |intros [Hin Hf];
        first [done | discriminate Hf
              | repeat (destruct Hin as [Hin|Hin]; [discriminate Hin|]); done]]].

(** X22. A run calls [Close] at most twice, and twice exactly when
    it got as far as the final write and that write failed: the error
    branch closes the file and the common end closes it again. *)
Theorem closed_twice_iff_final_write_fails `{Env} (w : World) (autoApprove : bool) :
  (closes (cmd.tfImport w autoApprove) ≤ 2
   ∧ (closes (cmd.tfImport w autoApprove) = 2
      ↔ Seek ∈ cmd.tfImport w autoApprove ∧ final_write_ok w = false))
  ∧ (closes (tfimport.ImportTFStateFromRemote w) ≤ 2
     ∧ (closes (tfimport.ImportTFStateFromRemote w) = 2
        ↔ Seek ∈ tfimport.ImportTFStateFromRemote w ∧ final_write_ok w = false)).
Proof.
  split.
  - unfold cmd.tfImport.
    destruct (open_ok w); cbn [negb]; [|close_leaf].
    destruct (tfimport.filterExistingDefinitions _ _) as [news provs].
    set (hdr := tfimport.createHCLDefinitionsBuffer news provs). clearbody hdr.
    destruct (length news =? 0);
      [close_leaf|].
    destruct (negb autoApprove && _);
      [close_leaf|].
    destruct (headers_ok w); cbn [negb];
      [|close_leaf].
    destruct (init_ok w); cbn [negb];
      [|close_leaf].
    pose proof (cmd_import_loop_events w news news) as Hl.
    destruct (cmd.import_loop w news news) as [t done']. cbn [fst] in Hl.
    rewrite closes_run, seek_in_run by done.
    destruct done'; cbn [negb]; [|close_leaf].
    destruct (tfstate w) as [| |state];
      [close_leaf..|].
    destruct (stateparser.ConvertTFStateToHCL state) as [buffer|];
      [|close_leaf].
    destruct (final_write_ok w).
    + close_leaf.
    + close_leaf.
  - unfold tfimport.ImportTFStateFromRemote.
    destruct (open_ok w); cbn [negb]; [|close_leaf].
    destruct (tfimport.filterExistingDefinitions _ _) as [news provs].
    set (hdr := tfimport.createHCLDefinitionsBuffer news provs). clearbody hdr.
    destruct (length news =? 0);
      [close_leaf|].
    destruct (negb _ && _);
      [close_leaf|].
    destruct (headers_ok w); cbn [negb];
      [|close_leaf].
    destruct (init_ok w); cbn [negb];
      [|close_leaf].
    pose proof (tfimport_import_loop_events w news) as Hl.
    destruct (tfimport.import_loop w news) as [t done']. cbn [fst] in Hl.
    rewrite closes_run, seek_in_run by done.
    destruct done'; cbn [negb]; [|close_leaf].
    destruct (tfstate w) as [| |state];
      [close_leaf..|].
    destruct (tfimport.convertTFStateToHCL state) as [buffer|];
      [|close_leaf].
    destruct (final_write_ok w).
    + close_leaf.
    + close_leaf.
Qed.

(** X23. No external command runs without consent and without the
    headers on file: a run of [tfImport] that invokes a command was
    approved (by the flag or by [y]/[yes] at the prompt), has written
    the headers, and starts with opening the file, the header write
    and [terraform init]. *)
Theorem commands_need_approval_and_headers `{Env} (w : World) (autoApprove : bool)
    (argv : list string) :
  Exec argv ∈ cmd.tfImport w autoApprove →
  (autoApprove = true ∨ ToLower (answer w) = "y" ∨ ToLower (answer w) = "yes")
  ∧ headers_ok w = true
  ∧ ∃ rest,
      cmd.tfImport w autoApprove
      = Open
        :: Write (tfimport.createHCLDefinitionsBuffer
                    (tfimport.filterExistingDefinitions (main_tf w) (remote w)).1
                    (tfimport.filterExistingDefinitions (main_tf w) (remote w)).2)
        :: Exec ["terraform"; "init"] :: rest.
Proof.
  unfold cmd.tfImport. intros Hin.
  destruct (open_ok w); cbn [negb] in *.
  2:{ apply list_elem_of_singleton in Hin. discriminate. }
  destruct (tfimport.filterExistingDefinitions _ _) as [news provs]. cbn [fst snd].
  destruct (length news =? 0).
  { repeat (apply elem_of_cons in Hin as [?|Hin]; [discriminate|]).
    by apply elem_of_nil in Hin. }
  destruct (negb autoApprove && _) eqn:Ea.
  { repeat (apply elem_of_cons in Hin as [?|Hin]; [discriminate|]).
    by apply elem_of_nil in Hin. }
  destruct (headers_ok w); cbn [negb] in *.
  2:{ repeat (apply elem_of_cons in Hin as [?|Hin]; [discriminate|]).
      by apply elem_of_nil in Hin. }
  split; [|split; [done|by eexists]].
  destruct autoApprove; [by left|right]. cbn [negb andb] in Ea.
  apply andb_false_iff in Ea as [Ea|Ea]; apply negb_false_iff, String.eqb_eq in Ea;
    [by left|by right].
Qed.

(** An instance: the run in which the import fails. *)
Lemma commands_need_approval_and_headers_witness :
  Exec ["terraform"; "import"; "onelogin_apps._x-1_0"; "1"]
    ∈ cmd.tfImport import_fails false
  ∧ ToLower (answer import_fails) = "y"
  ∧ headers_ok import_fails = true.
Proof.
  assert (Exec ["terraform"; "import"; "onelogin_apps._x-1_0"; "1"]
            ∈ cmd.tfImport import_fails false) as Hin.
  { apply list_elem_of_In. vm_compute. tauto. }
  split; [exact Hin|]. split; [reflexivity|].
  exact (proj1 (proj2 (commands_need_approval_and_headers
                         import_fails false _ Hin))).
Defined.

(** X24. The run of [tfImport] in which nothing fails: the headers
    are written, [terraform init] runs, every definition is imported in
    order under its disambiguated address, then the file is rewound,
    overwritten from the start with the converted snapshot and closed
    once. *)
Theorem tfImport_complete_run `{Env} (w : World) (autoApprove : bool)
    (defs : list ResourceDefinition) (provs : list string)
    (state : stateparser.State) (buffer : string) :
  open_ok w = true →
  tfimport.filterExistingDefinitions (main_tf w) (remote w) = (defs, provs) →
  defs ≠ [] →
  autoApprove = true ∨ ToLower (answer w) = "y" ∨ ToLower (answer w) = "yes" →
  headers_ok w = true →
  init_ok w = true →
  (∀ name id, import_ok w name id = true) →
  tfstate w = Decoded state →
  stateparser.ConvertTFStateToHCL state = Ok buffer →
  final_write_ok w = true →
  cmd.tfImport w autoApprove
  = Open
    :: Write (tfimport.createHCLDefinitionsBuffer defs provs)
    :: Exec ["terraform"; "init"]
    :: import_events (cmd.import_args defs defs).1
    ++ [Seek; Write buffer; Close; Return].
Proof.
  intros Ho Ef Hne Ha Hh Hi Hok Es Ec Hw. unfold cmd.tfImport.
  rewrite Ho, Ef, Hh, Hi, Es, Ec, Hw. cbn [negb].
  destruct defs as [|rd defs]; [done|]. cbn [length Nat.eqb].
  assert (negb autoApprove
          && (negb (ToLower (answer w) =? "y")%string
              && negb (ToLower (answer w) =? "yes")%string) = false) as ->.
  { destruct Ha as [->|[->| ->]]; [done| |].
    - by rewrite andb_false_r.
    - by rewrite !andb_false_r. }
  by rewrite import_loop_all_ok.
Qed.

(** An instance: the run on an empty main.tf. *)
Lemma tfImport_complete_run_witness :
  cmd.tfImport first_run false
  = [Open;
     Write (tfimport.createHCLDefinitionsBuffer [office] ["onelogin"]);
     Exec ["terraform"; "init"];
     Exec ["terraform"; "import"; "onelogin_apps._office365-7_0"; "7"];
     Seek;
     Write (text_of (stateparser.ConvertTFStateToHCL office_state));
     Close;
     Return].
Proof.
  refine (tfImport_complete_run first_run false [office] ["onelogin"] office_state
            (text_of (stateparser.ConvertTFStateToHCL office_state))
            _ _ _ _ _ _ _ _ _ _).
  - reflexivity.
  - vm_compute. reflexivity.
  - discriminate.
  - right. left. reflexivity.
  - reflexivity.
  - reflexivity.
  - intros name id. reflexivity.
  - reflexivity.
  - vm_compute. reflexivity.
  - reflexivity.
Defined.

(** X25. When no import fails and the conversion does not panic,
    [tfImport] closes the file on every path, and so does
    [ImportTFStateFromRemote] provided the header write succeeds. *)
Theorem handle_released_unless_import_fails `{Env} (w : World) (autoApprove : bool) :
  (∀ name id, import_ok w name id = true) →
  (∀ state, tfstate w = Decoded state →
            stateparser.ConvertTFStateToHCL state ≠ Panic
            ∧ tfimport.convertTFStateToHCL state ≠ Panic) →
  released (cmd.tfImport w autoApprove)
  ∧ (headers_ok w = true → released (tfimport.ImportTFStateFromRemote w)).
Proof.
  intros Hok Hconv. split.
  - apply tfImport_releases_otherwise; [done|].
    intros state Es. by destruct (Hconv state Es).
  - intros Hh Hopen. unfold tfimport.ImportTFStateFromRemote in *.
    destruct (open_ok w); cbn [negb] in *.
    2:{ apply list_elem_of_singleton in Hopen. discriminate. }
    clear Hopen. apply elem_of_cons. right.
    destruct (tfimport.filterExistingDefinitions _ _) as [news provs].
    destruct (length news =? 0); [by left|].
    destruct (negb _ && _); [by left|].
    rewrite Hh. cbn [negb].
    do 2 (apply elem_of_cons; right).
    destruct (init_ok w); cbn [negb]; [|by left].
    assert (tfimport.import_loop w news
            = ((tfimport.import_loop w news).1, true)) as ->.
    { clear -Hok. induction news as [|rd news IH]; [done|]. cbn [tfimport.import_loop].
      rewrite Hok. rewrite IH. by destruct (tfimport.import_loop w news). }
    cbn [negb]. apply elem_of_app. right.
    destruct (tfstate w) as [| |state] eqn:Est; [by left..|].
    destruct (Hconv state eq_refl) as [_ Hc].
    destruct (tfimport.convertTFStateToHCL state) as [buffer|]; [|done].
    destruct (final_write_ok w).
    + do 2 right. left.
    + right. left.
Qed.

(** An instance: the run on an empty main.tf. *)
Lemma handle_released_unless_import_fails_witness :
  released (cmd.tfImport first_run false)
  ∧ released (tfimport.ImportTFStateFromRemote first_run).
Proof.
  destruct (handle_released_unless_import_fails first_run false) as [H1 H2].
  - intros name id. reflexivity.
  - intros state [= <-]. split; vm_compute; discriminate.
  - split; [exact H1|exact (H2 eq_refl)].
Defined.

(** X26. [ImportTFStateFromRemote] takes as import id what follows
    the first dash of [Type.Name], wherever that dash is. *)
Theorem import_id_after_first_dash `{Env} (w : World) (rd : ResourceDefinition)
    (todo : list ResourceDefinition) (a r : string) :
  has_byte "-" a = false →
  cat [Type_ rd; "."; Name rd] = a +:+ "-" +:+ r →
  (tfimport.import_loop w (rd :: todo)).1 !! 0
  = Some (Exec ["terraform"; "import"; a +:+ "-" +:+ r; r]).
Proof.
  intros Ha Eaddr. cbn [tfimport.import_loop]. rewrite Eaddr.
  change (a +:+ "-" +:+ r) with (a +:+ String "-" r).
  rewrite IndexByte_first by done.
  replace (Z.to_nat (Z.of_nat (String.length a) + 1)) with (S (String.length a)) by lia.
  assert (Go.drop (S (String.length a)) (a +:+ String "-" r) = r) as ->.
  { clear. induction a as [|x a IH]; [done|]. exact IH. }
  destruct (import_ok w _ _); [|done].
  by destruct (tfimport.import_loop w todo).
Qed.

(** An instance: the name [office365-7]. *)
Lemma import_id_after_first_dash_witness :
  (tfimport.import_loop first_run [office]).1 !! 0
  = Some (Exec ["terraform"; "import"; "onelogin_apps.office365-7"; "7"]).
Proof.
  exact (import_id_after_first_dash first_run office [] "onelogin_apps.office365" "7"
           eq_refl eq_refl).
Defined.

(** X27. Without a dash in [Type.Name], [strings.Index] answers
    [-1] and [ImportTFStateFromRemote] passes the whole address as the
    import id. *)
Theorem import_id_without_dash `{Env} (w : World) (rd : ResourceDefinition)
    (todo : list ResourceDefinition) :
  has_byte "-" (cat [Type_ rd; "."; Name rd]) = false →
  (tfimport.import_loop w (rd :: todo)).1 !! 0
  = Some (Exec ["terraform"; "import"; cat [Type_ rd; "."; Name rd];
                cat [Type_ rd; "."; Name rd]]).
Proof.
  intros Hn. cbn [tfimport.import_loop].
  rewrite IndexByte_none by done. cbn [Z.add Z.to_nat Go.drop].
  destruct (import_ok w _ _); [|done].
  by destruct (tfimport.import_loop w todo).
Qed.

(** An instance: a user without a dash in its name. *)
Lemma import_id_without_dash_witness :
  (tfimport.import_loop first_run
     [mkResourceDefinition "onelogin_users" "bob" "onelogin" "12"]).1 !! 0
  = Some (Exec ["terraform"; "import"; "onelogin_users.bob"; "onelogin_users.bob"]).
Proof.
  exact (import_id_without_dash first_run
           (mkResourceDefinition "onelogin_users" "bob" "onelogin" "12") [] eq_refl).
Defined.

Section LoopFailure.

Context `{Env}.

Lemma import_args_disambiguate rd todo cur :
  cmd.import_args (rd :: todo) cur
  = (((cmd.disambiguate rd cur).1, ImportID rd)
       :: (cmd.import_args todo (cmd.disambiguate rd cur).2).1,
     (cmd.import_args todo (cmd.disambiguate rd cur).2).2).
Proof.
  cbn [cmd.import_args]. destruct (cmd.disambiguate rd cur) as [name cur'].
  cbn [fst snd]. by destruct (cmd.import_args todo cur').
Qed.

Lemma import_loop_first_failure (w : World) todo cur pre a post :
  (cmd.import_args todo cur).1 = pre ++ a :: post →
  Forall (λ x, import_ok w x.1 x.2 = true) pre →
  import_ok w a.1 a.2 = false →
  cmd.import_loop w todo cur = (import_events (pre ++ [a]) ++ [Exit 1], false).
Proof.
  revert cur pre. induction todo as [|rd todo IH]; intros cur pre Hargs Hpre Ha.
  - simpl in Hargs. by destruct pre.
  - rewrite import_args_disambiguate in Hargs. cbn [fst] in Hargs.
    cbn [cmd.import_loop].
    destruct (cmd.disambiguate rd cur) as [name cur'] eqn:Ed. cbn [fst snd] in Hargs.
    destruct pre as [|x pre]; cbn [app] in Hargs; injection Hargs as <- Hrest.
    + cbn [fst snd] in Ha. by rewrite Ha.
    + apply Forall_cons in Hpre as [Hx Hpre]. cbn [fst snd] in Hx. rewrite Hx.
      by rewrite (IH cur' pre Hrest Hpre Ha).
Qed.

End LoopFailure.

(** X28. The import loop of [tfImport] stops at the first failing
    import: the imports before it have run, the ones after it never
    start, and the process exits with status 1 right after the failed
    command. *)
Theorem import_loop_stops_at_first_failure `{Env} (w : World) (autoApprove : bool)
    (defs : list ResourceDefinition) (provs : list string)
    (pre post : list (string * string)) (a : string * string) :
  open_ok w = true →
  tfimport.filterExistingDefinitions (main_tf w) (remote w) = (defs, provs) →
  autoApprove = true ∨ ToLower (answer w) = "y" ∨ ToLower (answer w) = "yes" →
  headers_ok w = true →
  init_ok w = true →
  (cmd.import_args defs defs).1 = pre ++ a :: post →
  Forall (λ x, import_ok w x.1 x.2 = true) pre →
  import_ok w a.1 a.2 = false →
  cmd.tfImport w autoApprove
  = Open
    :: Write (tfimport.createHCLDefinitionsBuffer defs provs)
    :: Exec ["terraform"; "init"]
    :: import_events (pre ++ [a]) ++ [Exit 1].
Proof.
  intros Ho Ef Ha Hh Hi Hargs Hpre Hfail. unfold cmd.tfImport.
  rewrite Ho, Ef, Hh, Hi. cbn [negb].
  destruct defs as [|rd defs]; [by destruct pre|]. cbn [length Nat.eqb].
  assert (negb autoApprove
          && (negb (ToLower (answer w) =? "y")%string
              && negb (ToLower (answer w) =? "yes")%string) = false) as ->.
  { destruct Ha as [->|[->| ->]]; [done| |].
    - by rewrite andb_false_r.
    - by rewrite !andb_false_r. }
  rewrite (import_loop_first_failure w _ _ pre a post Hargs Hpre Hfail).
  cbn [negb]. by rewrite app_nil_r.
Qed.

(** An instance: the second of three imports fails. *)
Lemma import_loop_stops_at_first_failure_witness :
  cmd.tfImport second_import_fails false
  = [Open;
     Write (tfimport.createHCLDefinitionsBuffer (remote second_import_fails) ["onelogin"]);
     Exec ["terraform"; "init"];
     Exec ["terraform"; "import"; "onelogin_apps._a-1_0"; "1"];
     Exec ["terraform"; "import"; "onelogin_apps._b-2_0"; "2"];
     Exit 1].
Proof.
  refine (import_loop_stops_at_first_failure second_import_fails false
            (remote second_import_fails) ["onelogin"]
            [("onelogin_apps._a-1_0", "1")] [("onelogin_apps._c-3_0", "3")]
            ("onelogin_apps._b-2_0", "2") _ _ _ _ _ _ _ _).
  - reflexivity.
  - vm_compute. reflexivity.
  - right. right. reflexivity.
  - reflexivity.
  - reflexivity.
  - vm_compute. reflexivity.
  - repeat constructor.
  - reflexivity.
Defined.
